(** * Booking_cafe_seats: the reservation core

    A shallow embedding of the booking repository
    ([app/repositories/booking.py]), the availability service
    ([app/services/availability_service.py]) and the part of the relational
    schema they rely on ([app/models]), followed by the properties of the
    reservation subsystem.

    Conventions of the embedding.
    - A [uuid.UUID] is an integer; [gen_random_uuid()] is a counter kept in
      the store (all that is used of it is that the value is fresh).
    - A [datetime.date] is its ordinal, an integer; [date.today()] is the
      section variable [today].
    - A database table is the list of its rows in insertion order.
    - The SQLAlchemy session is explicit state: the committed database, the
      view of the running transaction, and the objects added to the session
      and not flushed yet.  An exception leaves the committed database as it
      is; the transaction view is dropped when the session is closed. *)

From Stdlib Require Import String ZArith List Bool Lia Permutation.
Import ListNotations.
Local Open Scope Z_scope.

(** ** Data model *)

Definition UUID := Z.
Definition date := Z.

(** [app/utils/enums.py] *)
Inductive BookingStatus := CONFIRMED | CANCELED | DONE.

Definition status_eqb (a b : BookingStatus) : bool :=
  match a, b with
  | CONFIRMED, CONFIRMED | CANCELED, CANCELED | DONE, DONE => true
  | _, _ => false
  end.

(** Rows of the tables, one module per model class; only the columns read or
    written by the reservation code are kept. *)
Module Cafe.
Record t := mk { id : UUID; is_active : bool }.
End Cafe.

Module Table.
Record t := mk { id : UUID; cafe_id : UUID; seat_number : Z;
                 is_active : bool }.
End Table.

Module Slot.
Record t := mk { id : UUID; cafe_id : UUID; is_active : bool }.
End Slot.

Module Booking.
Record t := mk { id : UUID; user_id : UUID; cafe_id : UUID;
                 booking_date : date; guest_number : Z;
                 status : BookingStatus; note : option string;
                 is_active : bool }.
End Booking.

Module ReservationUnit.
Record t := mk { id : UUID; booking_id : UUID; cafe_id : UUID;
                 table_id : UUID; slot_id : UUID; booking_date : date }.
End ReservationUnit.

(** The database. *)
Record Store := mkStore {
  users : list UUID;
  cafes : list Cafe.t;
  tables : list Table.t;
  slots : list Slot.t;
  bookings : list Booking.t;
  units : list ReservationUnit.t;
  next_uuid : UUID
}.

Definition set_bookings (bs : list Booking.t) (st : Store) : Store :=
  mkStore (users st) (cafes st) (tables st) (slots st) bs (units st)
          (next_uuid st).

Definition set_units (us : list ReservationUnit.t) (st : Store) : Store :=
  mkStore (users st) (cafes st) (tables st) (slots st) (bookings st) us
          (next_uuid st).

Definition bump_uuid (st : Store) : Store :=
  mkStore (users st) (cafes st) (tables st) (slots st) (bookings st)
          (units st) (next_uuid st + 1).

(** ** Schemas ([app/schemas/booking.py]) *)

Module BookingCreate.
Record t := mk { guest_number : Z; note : option string;
                 status : BookingStatus; booking_date : date;
                 cafe_id : UUID; tables_id : list UUID;
                 slots_id : list UUID }.
End BookingCreate.

(** A field of a partial update: left out of the request, or present with a
    value that may be [null].  [model_dump(exclude_unset=True)] keeps the
    present ones; reading the attribute gives [None] for both other cases. *)
Inductive Field (A : Type) := Unset | Provided (v : option A).
Arguments Unset {A}.
Arguments Provided {A} v.

Definition value {A} (f : Field A) : option A :=
  match f with Unset => None | Provided v => v end.

Module BookingUpdate.
Record t := mk { cafe_id : Field UUID; tables_id : Field (list UUID);
                 slots_id : Field (list UUID); guest_number : Field Z;
                 note : Field string; status : Field BookingStatus;
                 booking_date : Field date; is_active : Field bool }.
End BookingUpdate.

Fixpoint distinct (l : list UUID) : bool :=
  match l with
  | [] => true
  | x :: r => negb (existsb (Z.eqb x) r) && distinct r
  end.

(** [BookingCreate.validate_relations] (the model validator) together with
    the bound on [guest_number]: what every parsed creation request
    satisfies. *)
Definition BookingCreate_valid (o : BookingCreate.t) : bool :=
  (1 <=? BookingCreate.guest_number o)
  && (BookingCreate.guest_number o <=? 100)
  && negb (length (BookingCreate.tables_id o) =? 0)%nat
  && negb (length (BookingCreate.slots_id o) =? 0)%nat
  && distinct (BookingCreate.tables_id o)
  && distinct (BookingCreate.slots_id o).

(** [BookingUpdate.validate_relations]: a supplied non-empty list has no
    duplicates. *)
Definition BookingUpdate_valid (o : BookingUpdate.t) : bool :=
  match value (BookingUpdate.tables_id o) with
  | Some l => distinct l
  | None => true
  end
  && match value (BookingUpdate.slots_id o) with
     | Some l => distinct l
     | None => true
     end
  && match value (BookingUpdate.guest_number o) with
     | Some g => (1 <=? g) && (g <=? 100)
     | None => true
     end.

(** ** Exceptions *)

(** The messages of the [ValueError]s raised by the repository. *)
Inductive Msg :=
| CafeNotFound          (* 'Кафе не найдено' *)
| PastDate              (* 'Нельзя бронировать на прошедшие даты' *)
| PastBooking           (* 'Нельзя изменять прошедшие бронирования' *)
| DoneBooking           (* 'Нельзя изменять завершенные бронирования' *)
| NoTables              (* 'Необходимо указать хотя бы один стол' *)
| NoSlots               (* 'Необходимо указать хотя бы один временной слот' *)
| TablesUnavailable     (* 'Некоторые столы недоступны или относятся ...' *)
| SlotsUnavailable      (* 'Некоторые временные слоты недоступны или ...' *)
| NotEnoughSeats (required available : Z)
                        (* 'Недостаточно мест: требуется N, доступно M' *)
| AlreadyOccupied.      (* 'Выбранные столы и слоты уже заняты на эту дату' *)

(** The constraints of the schema that a flush of this code can violate. *)
Inductive Constraint :=
| uq_reservation_atom   (* UNIQUE (table_id, slot_id, booking_date) *)
| not_null              (* nullable=False on a booking column *)
| fk_booking_cafe       (* booking.cafe_id -> cafe.id *)
| fk_booking_user.      (* booking.user_id -> user.id *)

Inductive Exc :=
| ValueError (m : Msg)
| IntegrityError (c : Constraint)
| TypeError
| MultipleResultsFound.

(** ** The session monad *)

Record Session := mkSession {
  committed : Store;
  working : Store;
  pending : list (UUID -> ReservationUnit.t)
}.

Definition M (A : Type) : Type := Session -> (Exc + A) * Session.

Definition ret {A} (a : A) : M A := fun ses => (inr a, ses).

Definition bind {A B} (m : M A) (k : A -> M B) : M B :=
  fun ses =>
    match m ses with
    | (inl e, ses') => (inl e, ses')
    | (inr a, ses') => k a ses'
    end.

Definition raise {A} (e : Exc) : M A := fun ses => (inl e, ses).

Declare Scope session_scope.
Delimit Scope session_scope with session.
Notation "x <- m ;; k" := (bind m (fun x => k))
  (at level 61, m at next level, right associativity) : session_scope.
Notation "m ;; k" := (bind m (fun _ => k))
  (at level 61, right associativity) : session_scope.
Local Open Scope session_scope.

(** [session.execute(select ...)]: a read of the transaction view. *)
Definition query {A} (q : Store -> A) : M A :=
  fun ses => (inr (q (working ses)), ses).

(** A write inside the transaction. *)
Definition modify (f : Store -> Store) : M unit :=
  fun ses => (inr tt, mkSession (committed ses) (f (working ses)) (pending ses)).

(** [Result.scalar_one_or_none()] *)
Definition scalar_one_or_none {A} (rows : list A) : M (option A) :=
  match rows with
  | [] => ret None
  | [x] => ret (Some x)
  | _ => raise MultipleResultsFound
  end.

(** [for x in xs: body] *)
Fixpoint for_each {A} (xs : list A) (body : A -> M unit) : M unit :=
  match xs with
  | [] => ret tt
  | x :: r => body x ;; for_each r body
  end.

(** [for x in xs: body] where the body may [return] from the enclosing
    function: [Some r] is the returned value. *)
Fixpoint for_each_return {A R} (xs : list A) (body : A -> M (option R))
  : M (option R) :=
  match xs with
  | [] => ret None
  | x :: r =>
      o <- body x ;;
      match o with
      | Some v => ret (Some v)
      | None => for_each_return r body
      end
  end.

(** [session.add(ReservationUnit(...))]: the object waits for the next
    flush, where the server gives it its primary key. *)
Definition session_add (row : UUID -> ReservationUnit.t) : M unit :=
  fun ses =>
    (inr tt, mkSession (committed ses) (working ses) (pending ses ++ [row])).

(** Two units on the same atom (table, slot, date). *)
Definition same_atom (u v : ReservationUnit.t) : bool :=
  (ReservationUnit.table_id u =? ReservationUnit.table_id v)
  && (ReservationUnit.slot_id u =? ReservationUnit.slot_id v)
  && (ReservationUnit.booking_date u =? ReservationUnit.booking_date v).

(** INSERT of one reservation unit: [uq_reservation_atom] refuses a row whose
    (table_id, slot_id, booking_date) is already in the table, whatever the
    state of the booking that owns the other row.  The foreign keys of the
    row are not checked here: this code inserts a unit only after
    [_validate_relations] has found its table and its slot in the cafe of
    the unit, and after the booking row was written. *)
Definition insert_unit (row : UUID -> ReservationUnit.t) (st : Store)
  : Exc + Store :=
  let u := row (next_uuid st) in
  if existsb (same_atom u) (units st)
  then inl (IntegrityError uq_reservation_atom)
  else inr (bump_uuid (set_units (units st ++ [u]) st)).

Fixpoint insert_units (rows : list (UUID -> ReservationUnit.t)) (st : Store)
  : Exc + Store :=
  match rows with
  | [] => inr st
  | r :: rest =>
      match insert_unit r st with
      | inl e => inl e
      | inr st' => insert_units rest st'
      end
  end.

(** The flush of the pending units. *)
Definition flush : M unit :=
  fun ses =>
    match insert_units (pending ses) (working ses) with
    | inl e => (inl e, ses)
    | inr st' => (inr tt, mkSession (committed ses) st' [])
    end.

(** [session.commit()] *)
Definition commit : M unit :=
  flush ;;
  fun ses => (inr tt, mkSession (working ses) (working ses) (pending ses)).

Definition open_session (st : Store) : Session := mkSession st st [].

(** The database left behind by a request: what was committed. *)
Definition close_session (ses : Session) : Store := committed ses.

(** Runs a repository call as one request: a session is opened on the
    database, the call is made, the session is closed. *)
Definition run {A} (m : M A) (st : Store) : (Exc + A) * Store :=
  let (r, ses) := m (open_session st) in (r, close_session ses).

(** ** Helpers for Python values *)

(** [x in l] *)
Definition mem (x : UUID) (l : list UUID) : bool := existsb (Z.eqb x) l.

(** [len(set(l))] *)
Definition len_set (l : list UUID) : nat := length (nodup Z.eq_dec l).

(** [sum(table.seat_number for table in tables)] *)
Definition sum_seats (ts : list Table.t) : Z :=
  fold_left (fun acc t => acc + Table.seat_number t) ts 0.

(** [a or b] where [a] is an optional list: [None] and [[]] are falsy. *)
Definition or_list (a : option (list UUID)) (b : list UUID) : list UUID :=
  match a with
  | Some (x :: r) => x :: r
  | _ => b
  end.

(** [a or b] where [a] is an optional UUID or date, always truthy when
    present. *)
Definition or_else {A} (a : option A) (b : A) : A :=
  match a with Some x => x | None => b end.

Definition is_not_None {A} (a : option A) : bool :=
  match a with Some _ => true | None => false end.

(** ** The loaded booking object *)

(** A [Booking] instance as [get_with_relations] and [session.refresh]
    deliver it: the row and the view-only collections [tables] and [slots],
    read through [reservationunit] (the loader keeps each table or slot
    once, however many units of the booking name it). *)
Record BookingObj := mkObj {
  row : Booking.t;
  obj_tables : list Table.t;
  obj_slots : list Slot.t
}.

Definition booking_tables (st : Store) (booking_id : UUID) : list Table.t :=
  filter (fun t =>
            existsb (fun u =>
                       (ReservationUnit.booking_id u =? booking_id)
                       && (ReservationUnit.table_id u =? Table.id t))
                    (units st))
         (tables st).

Definition booking_slots (st : Store) (booking_id : UUID) : list Slot.t :=
  filter (fun s =>
            existsb (fun u =>
                       (ReservationUnit.booking_id u =? booking_id)
                       && (ReservationUnit.slot_id u =? Slot.id s))
                    (units st))
         (slots st).

Definition load (st : Store) (r : Booking.t) : BookingObj :=
  mkObj r (booking_tables st (Booking.id r)) (booking_slots st (Booking.id r)).

(** [session.refresh(db_obj)] *)
Definition refresh (r : Booking.t) : M BookingObj :=
  query (fun st => load st r).

(** [BookingRepository.get_with_relations]: [CRUDBase.get] with
    [many=False] takes [scalars().first()]. *)
Definition get_with_relations (booking_id : UUID) : M (option BookingObj) :=
  query (fun st =>
           match filter (fun b => Booking.id b =? booking_id) (bookings st) with
           | [] => None
           | r :: _ => Some (load st r)
           end).

Section Repository.

(** [date.today()] *)
Variable today : date.

(** ** [AvailabilityService] *)

(** The join condition and the [where] clause of the conflict search. *)
Definition conflict_where (table_id slot_id : UUID) (booking_date : date)
    (exclude_booking_id : option UUID)
    (u : ReservationUnit.t) (b : Booking.t) : bool :=
  (ReservationUnit.booking_id u =? Booking.id b)
  && (ReservationUnit.table_id u =? table_id)
  && (ReservationUnit.slot_id u =? slot_id)
  && (ReservationUnit.booking_date u =? booking_date)
  && negb (status_eqb (Booking.status b) CANCELED)
  && Booking.is_active b
  && match exclude_booking_id with
     | Some x => negb (Booking.id b =? x)
     | None => true
     end.

(** The rows of
    [select(ReservationUnit).join(Booking).where(...)] for one
    (table, slot, date). *)
Definition conflicting_units (table_id slot_id : UUID) (booking_date : date)
    (exclude_booking_id : option UUID) (st : Store)
  : list ReservationUnit.t :=
  flat_map
    (fun u =>
       flat_map
         (fun b =>
            if conflict_where table_id slot_id booking_date
                              exclude_booking_id u b
            then [u] else [])
         (bookings st))
    (units st).

Definition check_tables_availability (cafe_id : UUID)
    (tables_ids slots_ids : list UUID) (booking_date : date)
    (exclude_booking_id : option UUID) : M bool :=
  r <- for_each_return tables_ids (fun table_id =>
         for_each_return slots_ids (fun slot_id =>
           rows <- query (conflicting_units table_id slot_id booking_date
                            exclude_booking_id) ;;
           existing_booking <- scalar_one_or_none rows ;;
           match existing_booking with
           | Some _ => ret (Some false)
           | None => ret None
           end)) ;;
  match r with
  | Some b => ret b
  | None => ret true
  end.

(** The rows of [select(Table).where(Table.id.in_(tables_ids))]. *)
Definition select_tables (tables_ids : list UUID) (st : Store)
  : list Table.t :=
  filter (fun t => mem (Table.id t) tables_ids) (tables st).

Definition select_slots (slots_ids : list UUID) (st : Store) : list Slot.t :=
  filter (fun s => mem (Slot.id s) slots_ids) (slots st).

Definition validate_tables_capacity (tables_ids : list UUID)
    (guest_number : Z) : M bool :=
  tables <- query (select_tables tables_ids) ;;
  match tables with
  | [] => ret false
  | _ => ret (guest_number <=? sum_seats tables)
  end.

Definition validate_booking_date (booking_date : date) : bool :=
  today <=? booking_date.

(** ** [BookingRepository] *)

Definition _validate_relations (cafe_id : UUID)
    (tables_ids slots_ids : list UUID) : M unit :=
  match tables_ids with
  | [] => raise (ValueError NoTables)
  | _ =>
  match slots_ids with
  | [] => raise (ValueError NoSlots)
  | _ =>
    db_tables <- query (fun st =>
      map Table.id
          (filter (fun t => mem (Table.id t) tables_ids
                            && (Table.cafe_id t =? cafe_id)
                            && Table.is_active t)
                  (tables st))) ;;
    if negb (len_set db_tables =? len_set tables_ids)%nat
    then raise (ValueError TablesUnavailable)
    else
    db_slots <- query (fun st =>
      map Slot.id
          (filter (fun s => mem (Slot.id s) slots_ids
                            && (Slot.cafe_id s =? cafe_id)
                            && Slot.is_active s)
                  (slots st))) ;;
    if negb (len_set db_slots =? len_set slots_ids)%nat
    then raise (ValueError SlotsUnavailable)
    else ret tt
  end
  end.

(** [db_obj = self.model(...); session.add(db_obj); session.flush()]:
    the INSERT of the booking row, with the server defaults for [id] and
    [is_active]. *)
Definition add_booking (obj_in : BookingCreate.t) (user_id : UUID)
  : M Booking.t :=
  fun ses =>
    let st := working ses in
    if negb (mem user_id (users st))
    then (inl (IntegrityError fk_booking_user), ses)
    else if negb (existsb (fun c => Cafe.id c =? BookingCreate.cafe_id obj_in)
                          (cafes st))
    then (inl (IntegrityError fk_booking_cafe), ses)
    else
      let db_obj :=
        Booking.mk (next_uuid st) user_id (BookingCreate.cafe_id obj_in)
                   (BookingCreate.booking_date obj_in)
                   (BookingCreate.guest_number obj_in)
                   (BookingCreate.status obj_in)
                   (BookingCreate.note obj_in) true in
      (inr db_obj,
       mkSession (committed ses)
                 (bump_uuid (set_bookings (bookings st ++ [db_obj]) st))
                 (pending ses)).

Definition create_with_validation (obj_in : BookingCreate.t) (user_id : UUID)
  : M BookingObj :=
  cafe_result <- query (fun st =>
    filter (fun c => Cafe.id c =? BookingCreate.cafe_id obj_in) (cafes st)) ;;
  cafe <- scalar_one_or_none cafe_result ;;
  match cafe with
  | None => raise (ValueError CafeNotFound)
  | Some _ =>
  if negb (validate_booking_date (BookingCreate.booking_date obj_in))
  then raise (ValueError PastDate)
  else
  _validate_relations (BookingCreate.cafe_id obj_in)
                      (BookingCreate.tables_id obj_in)
                      (BookingCreate.slots_id obj_in) ;;
  tables <- query (select_tables (BookingCreate.tables_id obj_in)) ;;
  slots <- query (select_slots (BookingCreate.slots_id obj_in)) ;;
  enough <- validate_tables_capacity (BookingCreate.tables_id obj_in)
                                     (BookingCreate.guest_number obj_in) ;;
  if negb enough
  then
    let total_seats := sum_seats tables in
    raise (ValueError (NotEnoughSeats (BookingCreate.guest_number obj_in)
                                      total_seats))
  else
  available <- check_tables_availability (BookingCreate.cafe_id obj_in)
                 (BookingCreate.tables_id obj_in)
                 (BookingCreate.slots_id obj_in)
                 (BookingCreate.booking_date obj_in) None ;;
  if negb available
  then raise (ValueError AlreadyOccupied)
  else
  db_obj <- add_booking obj_in user_id ;;
  for_each tables (fun table =>
    for_each slots (fun slot =>
      session_add (fun pk =>
        ReservationUnit.mk pk (Booking.id db_obj)
                           (BookingCreate.cafe_id obj_in)
                           (Table.id table) (Slot.id slot)
                           (BookingCreate.booking_date obj_in)))) ;;
  commit ;;
  refresh db_obj
  end.

(** [setattr(db_obj, field, value)] for one column that is [nullable=False]:
    [None] when the request sets it to [null]. *)
Definition assign {A} (f : Field A) (current : A) : option A :=
  match f with
  | Unset => Some current
  | Provided v => v
  end.

(** The same for the nullable column [note]. *)
Definition assign_nullable {A} (f : Field A) (current : option A)
  : option A :=
  match f with
  | Unset => current
  | Provided v => v
  end.

(** The loop [for field, value in update_data.items(): setattr(...)] and the
    UPDATE of the row.  The UPDATE is sent by the first flush after the loop:
    the autoflush of [session.execute(delete_units_stmt)] when the selection
    is replaced, that of [session.commit()] otherwise; nothing that reads the
    database or raises runs in between.  A column set to [null] violates
    [nullable=False]; a new [cafe_id] is checked against [cafe]. *)
Definition setattr_and_flush (db_row : Booking.t) (obj_in : BookingUpdate.t)
  : M Booking.t :=
  match assign (BookingUpdate.cafe_id obj_in) (Booking.cafe_id db_row),
        assign (BookingUpdate.booking_date obj_in) (Booking.booking_date db_row),
        assign (BookingUpdate.guest_number obj_in) (Booking.guest_number db_row),
        assign (BookingUpdate.status obj_in) (Booking.status db_row),
        assign (BookingUpdate.is_active obj_in) (Booking.is_active db_row)
  with
  | Some c, Some d, Some g, Some s, Some a =>
      let updated :=
        Booking.mk (Booking.id db_row) (Booking.user_id db_row) c d g s
                   (assign_nullable (BookingUpdate.note obj_in)
                                    (Booking.note db_row)) a in
      cafe_known <- query (fun st =>
        match BookingUpdate.cafe_id obj_in with
        | Unset => true
        | Provided _ => existsb (fun x => Cafe.id x =? c) (cafes st)
        end) ;;
      if negb cafe_known
      then raise (IntegrityError fk_booking_cafe)
      else
      modify (fun st =>
        set_bookings
          (map (fun b => if Booking.id b =? Booking.id db_row
                         then updated else b)
               (bookings st)) st) ;;
      ret updated
  | _, _, _, _, _ => raise (IntegrityError not_null)
  end.

Definition update_with_validation (db_obj : BookingObj)
    (obj_in : BookingUpdate.t) : M BookingObj :=
  if Booking.booking_date (row db_obj) <? today
  then raise (ValueError PastBooking)
  else
  if status_eqb (Booking.status (row db_obj)) DONE
  then raise (ValueError DoneBooking)
  else
  match BookingUpdate.booking_date obj_in with
  | Unset => ret tt
  | Provided None => raise TypeError
  | Provided (Some d) =>
      if negb (validate_booking_date d)
      then raise (ValueError PastDate)
      else ret tt
  end ;;
  updated <- setattr_and_flush (row db_obj) obj_in ;;
  (if is_not_None (value (BookingUpdate.tables_id obj_in))
      || is_not_None (value (BookingUpdate.slots_id obj_in))
   then
     modify (fun st =>
       set_units
         (filter (fun u => negb (ReservationUnit.booking_id u
                                 =? Booking.id (row db_obj)))
                 (units st)) st) ;;
     let target_cafe_id :=
       or_else (value (BookingUpdate.cafe_id obj_in))
               (Booking.cafe_id updated) in
     let target_booking_date :=
       or_else (value (BookingUpdate.booking_date obj_in))
               (Booking.booking_date updated) in
     let target_tables_ids :=
       or_list (value (BookingUpdate.tables_id obj_in))
               (map Table.id (obj_tables db_obj)) in
     let target_slots_ids :=
       or_list (value (BookingUpdate.slots_id obj_in))
               (map Slot.id (obj_slots db_obj)) in
     _validate_relations target_cafe_id target_tables_ids target_slots_ids ;;
     for_each target_tables_ids (fun table_id =>
       for_each target_slots_ids (fun slot_id =>
         session_add (fun pk =>
           ReservationUnit.mk pk (Booking.id (row db_obj)) target_cafe_id
                              table_id slot_id target_booking_date)))
   else ret tt) ;;
  commit ;;
  refresh updated.

End Repository.

(** ** The schema constraints as a predicate on the database *)

(** UNIQUE (table_id, slot_id, booking_date) on [reservationunit]. *)
Fixpoint uq_atoms (us : list ReservationUnit.t) : bool :=
  match us with
  | [] => true
  | u :: r => negb (existsb (same_atom u) r) && uq_atoms r
  end.

(** The primary keys, [uq_reservation_atom], and the freshness of the key
    generator. *)
Definition wf_store (st : Store) : bool :=
  distinct (map Cafe.id (cafes st))
  && distinct (map Table.id (tables st))
  && distinct (map Slot.id (slots st))
  && distinct (map Booking.id (bookings st))
  && distinct (map ReservationUnit.id (units st))
  && uq_atoms (units st)
  && forallb (fun b => Booking.id b <? next_uuid st) (bookings st)
  && forallb (fun u => ReservationUnit.id u <? next_uuid st) (units st).

(** A booking that holds its units in the eyes of the conflict search. *)
Definition holding (b : Booking.t) : bool :=
  negb (status_eqb (Booking.status b) CANCELED) && Booking.is_active b.

(** P1: no atom is shared by units of two distinct holding bookings. *)
Definition no_double_booking (st : Store) : Prop :=
  forall u1 u2 b1 b2,
    In u1 (units st) -> In u2 (units st) ->
    In b1 (bookings st) -> In b2 (bookings st) ->
    ReservationUnit.booking_id u1 = Booking.id b1 ->
    ReservationUnit.booking_id u2 = Booking.id b2 ->
    Booking.id b1 <> Booking.id b2 ->
    holding b1 = true -> holding b2 = true ->
    same_atom u1 u2 = false.

(** A unit of a holding booking, other than [exclude_booking_id], sits on
    the atom (t, s, d). *)
Definition conflict (st : Store) (exclude_booking_id : option UUID)
    (t s : UUID) (d : date) : Prop :=
  exists u b,
    In u (units st) /\ In b (bookings st)
    /\ ReservationUnit.booking_id u = Booking.id b
    /\ ReservationUnit.table_id u = t
    /\ ReservationUnit.slot_id u = s
    /\ ReservationUnit.booking_date u = d
    /\ Booking.status b <> CANCELED
    /\ Booking.is_active b = true
    /\ (forall x, exclude_booking_id = Some x -> Booking.id b <> x).

(** One request against the database: a creation, or the update of a
    booking loaded from it. *)
Inductive step (today : date) : Store -> Store -> Prop :=
| step_create obj_in user_id st r st' :
    run (create_with_validation today obj_in user_id) st = (r, st') ->
    step today st st'
| step_update booking_id db_obj obj_in st r st' :
    run (get_with_relations booking_id) st = (inr (Some db_obj), st) ->
    run (update_with_validation today db_obj obj_in) st = (r, st') ->
    step today st st'.

Inductive reachable (today : date) (st : Store) : Store -> Prop :=
| reach_refl : reachable today st st
| reach_step st1 st2 :
    reachable today st st1 -> step today st1 st2 -> reachable today st st2.

(** The value of a read-only computation on a database. *)
Definition eval {A} (m : M A) (st : Store) : Exc + A :=
  fst (m (open_session st)).

(** [m] only reads the transaction view. *)
Definition reads {A} (m : M A) : Prop :=
  forall ses, m ses = (eval m (working ses), ses).

(** The rows a flush inserts, with the keys the server gives them. *)
Fixpoint with_keys (rows : list (UUID -> ReservationUnit.t)) (pk : UUID)
  : list ReservationUnit.t :=
  match rows with
  | [] => []
  | r :: rest => r pk :: with_keys rest (pk + 1)
  end.

(** The units built by the two nested loops of the repository. *)
Definition cross_units (booking_id cafe_id : UUID) (booking_date : date)
    (tables_ids slots_ids : list UUID) : list (UUID -> ReservationUnit.t) :=
  flat_map (fun t =>
              map (fun s pk =>
                     ReservationUnit.mk pk booking_id cafe_id t s booking_date)
                  slots_ids)
           tables_ids.

(** Every id of the list names an active table of the cafe. *)
Definition tables_resolve (st : Store) (cafe_id : UUID)
    (tables_ids : list UUID) : Prop :=
  forall t, In t tables_ids ->
    exists r, In r (tables st) /\ Table.id r = t
              /\ Table.cafe_id r = cafe_id /\ Table.is_active r = true.

Definition slots_resolve (st : Store) (cafe_id : UUID)
    (slots_ids : list UUID) : Prop :=
  forall s, In s slots_ids ->
    exists r, In r (slots st) /\ Slot.id r = s
              /\ Slot.cafe_id r = cafe_id /\ Slot.is_active r = true.

(** ** Views of the code used in the statements

    Pieces of the two repository functions under a name of their own; the
    lemmas [create_unfold], [persist_unfold], [setattr_and_flush_unfold],
    [update_unfold] and [eval_validate_relations] below show that the code
    is made of exactly these pieces. *)

(** One probe of the search: the body of the inner loop. *)
Definition probe (d : date) (ex : option UUID) (t s : UUID)
  : M (option bool) :=
  rows <- query (conflicting_units t s d ex) ;;
  existing_booking <- scalar_one_or_none rows ;;
  match existing_booking with
  | Some _ => ret (Some false)
  | None => ret None
  end.

(** The outcome of [_validate_relations] as a function of the database. *)
Definition relations_error (cafe_id : UUID) (tables_ids slots_ids : list UUID)
    (st : Store) : option Msg :=
  match tables_ids with
  | [] => Some NoTables
  | _ =>
  match slots_ids with
  | [] => Some NoSlots
  | _ =>
    if negb (Nat.eqb
               (len_set (map Table.id
                           (filter (fun t => mem (Table.id t) tables_ids
                                             && (Table.cafe_id t =? cafe_id)
                                             && Table.is_active t)
                                   (tables st))))
               (len_set tables_ids))
    then Some TablesUnavailable
    else if negb (Nat.eqb
               (len_set (map Slot.id
                           (filter (fun s => mem (Slot.id s) slots_ids
                                             && (Slot.cafe_id s =? cafe_id)
                                             && Slot.is_active s)
                                   (slots st))))
               (len_set slots_ids))
    then Some SlotsUnavailable
    else None
  end
  end.

(** The writing part of [create_with_validation], after the checks. *)
Definition persist (obj_in : BookingCreate.t) (user_id : UUID)
    (tables : list Table.t) (slots : list Slot.t) : M BookingObj :=
  db_obj <- add_booking obj_in user_id ;;
  for_each tables (fun table =>
    for_each slots (fun slot =>
      session_add (fun pk =>
        ReservationUnit.mk pk (Booking.id db_obj)
                           (BookingCreate.cafe_id obj_in)
                           (Table.id table) (Slot.id slot)
                           (BookingCreate.booking_date obj_in)))) ;;
  commit ;;
  refresh db_obj.

(** The row inserted for a creation request. *)
Definition new_booking (obj_in : BookingCreate.t) (user_id pk : UUID)
  : Booking.t :=
  Booking.mk pk user_id (BookingCreate.cafe_id obj_in)
             (BookingCreate.booking_date obj_in)
             (BookingCreate.guest_number obj_in)
             (BookingCreate.status obj_in)
             (BookingCreate.note obj_in) true.

(** The guard on a supplied [booking_date]. *)
Definition date_guard (today : date) (obj_in : BookingUpdate.t) : option Exc :=
  match BookingUpdate.booking_date obj_in with
  | Unset => None
  | Provided None => Some TypeError
  | Provided (Some d) =>
      if negb (validate_booking_date today d)
      then Some (ValueError PastDate) else None
  end.

(** The row after the [setattr] loop, when no column became [null]. *)
Definition patched_row (db_row : Booking.t) (obj_in : BookingUpdate.t)
  : option Booking.t :=
  match assign (BookingUpdate.cafe_id obj_in) (Booking.cafe_id db_row),
        assign (BookingUpdate.booking_date obj_in) (Booking.booking_date db_row),
        assign (BookingUpdate.guest_number obj_in) (Booking.guest_number db_row),
        assign (BookingUpdate.status obj_in) (Booking.status db_row),
        assign (BookingUpdate.is_active obj_in) (Booking.is_active db_row)
  with
  | Some c, Some d, Some g, Some s, Some a =>
      Some (Booking.mk (Booking.id db_row) (Booking.user_id db_row) c d g s
                       (assign_nullable (BookingUpdate.note obj_in)
                                        (Booking.note db_row)) a)
  | _, _, _, _, _ => None
  end.

Definition cafe_known (obj_in : BookingUpdate.t) (updated : Booking.t)
    (st : Store) : bool :=
  match BookingUpdate.cafe_id obj_in with
  | Unset => true
  | Provided _ =>
      existsb (fun x => Cafe.id x =? Booking.cafe_id updated) (cafes st)
  end.

(** The UPDATE of the booking row. *)
Definition replace_booking (updated : Booking.t) (st : Store) : Store :=
  set_bookings
    (map (fun b => if Booking.id b =? Booking.id updated then updated else b)
         (bookings st)) st.

(** The DELETE of the units of a booking. *)
Definition delete_units (booking_id : UUID) (st : Store) : Store :=
  set_units
    (filter (fun u => negb (ReservationUnit.booking_id u =? booking_id))
            (units st)) st.

Definition selection_supplied (obj_in : BookingUpdate.t) : bool :=
  is_not_None (value (BookingUpdate.tables_id obj_in))
  || is_not_None (value (BookingUpdate.slots_id obj_in)).

Definition target_cafe_id (obj_in : BookingUpdate.t) (updated : Booking.t)
  : UUID :=
  or_else (value (BookingUpdate.cafe_id obj_in)) (Booking.cafe_id updated).

Definition target_booking_date (obj_in : BookingUpdate.t)
    (updated : Booking.t) : date :=
  or_else (value (BookingUpdate.booking_date obj_in))
          (Booking.booking_date updated).

Definition target_tables_ids (db_obj : BookingObj) (obj_in : BookingUpdate.t)
  : list UUID :=
  or_list (value (BookingUpdate.tables_id obj_in))
          (map Table.id (obj_tables db_obj)).

Definition target_slots_ids (db_obj : BookingObj) (obj_in : BookingUpdate.t)
  : list UUID :=
  or_list (value (BookingUpdate.slots_id obj_in))
          (map Slot.id (obj_slots db_obj)).

(** The units an update of the selection adds to the session. *)
Definition target_units (db_obj : BookingObj) (obj_in : BookingUpdate.t)
    (updated : Booking.t) : list (UUID -> ReservationUnit.t) :=
  cross_units (Booking.id (row db_obj)) (target_cafe_id obj_in updated)
              (target_booking_date obj_in updated)
              (target_tables_ids db_obj obj_in)
              (target_slots_ids db_obj obj_in).

(** The requests whose supplied columns are all non-null. *)
Definition no_null_column (obj_in : BookingUpdate.t) : Prop :=
  BookingUpdate.cafe_id obj_in <> Provided None
  /\ BookingUpdate.guest_number obj_in <> Provided None
  /\ BookingUpdate.status obj_in <> Provided None
  /\ BookingUpdate.is_active obj_in <> Provided None
  /\ BookingUpdate.booking_date obj_in <> Provided None.

(** A supplied [cafe_id] names a cafe of the database. *)
Definition cafe_reference_ok (obj_in : BookingUpdate.t) (st : Store) : Prop :=
  forall c, BookingUpdate.cafe_id obj_in = Provided (Some c) ->
            exists x, In x (cafes st) /\ Cafe.id x = c.

(** ** A cafe with two tables and two slots *)

Definition ex_today : date := 40.

Definition ex_empty : Store :=
  mkStore [1; 2] [Cafe.mk 10 true]
          [Table.mk 100 10 2 true; Table.mk 101 10 4 true]
          [Slot.mk 200 10 true; Slot.mk 201 10 true]
          [] [] 1000.

(** Table 100 in slot 200 on day 50, for two guests. *)
Definition ex_request : BookingCreate.t :=
  BookingCreate.mk 2 None CONFIRMED 50 10 [100] [200].

Definition ex_b1 : Booking.t := Booking.mk 1000 1 10 50 2 CONFIRMED None true.

Definition ex_u1 : ReservationUnit.t :=
  ReservationUnit.mk 1001 1000 10 100 200 50.

(** After user 1 has made [ex_request]. *)
Definition ex_booked : Store :=
  mkStore [1; 2] [Cafe.mk 10 true]
          [Table.mk 100 10 2 true; Table.mk 101 10 4 true]
          [Slot.mk 200 10 true; Slot.mk 201 10 true]
          [ex_b1] [ex_u1] 1002.

Definition ex_cancel : BookingUpdate.t :=
  BookingUpdate.mk Unset Unset Unset Unset Unset (Provided (Some CANCELED))
                   Unset Unset.

Definition ex_b1_canceled : Booking.t :=
  Booking.mk 1000 1 10 50 2 CANCELED None true.

(** After that booking has been set to CANCELED. *)
Definition ex_canceled : Store :=
  mkStore [1; 2] [Cafe.mk 10 true]
          [Table.mk 100 10 2 true; Table.mk 101 10 4 true]
          [Slot.mk 200 10 true; Slot.mk 201 10 true]
          [ex_b1_canceled] [ex_u1] 1002.

Definition ex_b2 : Booking.t := Booking.mk 1002 2 10 50 4 CONFIRMED None true.

Definition ex_u2 : ReservationUnit.t :=
  ReservationUnit.mk 1003 1002 10 101 200 50.

(** After user 2 has booked table 101 in slot 200 on day 50 as well. *)
Definition ex_two : Store :=
  mkStore [1; 2] [Cafe.mk 10 true]
          [Table.mk 100 10 2 true; Table.mk 101 10 4 true]
          [Slot.mk 200 10 true; Slot.mk 201 10 true]
          [ex_b1; ex_b2] [ex_u1; ex_u2] 1004.

(** Booking 1002 asks for table 100 instead. *)
Definition ex_move : BookingUpdate.t :=
  BookingUpdate.mk Unset (Provided (Some [100])) Unset Unset Unset Unset
                   Unset Unset.

(** Booking 1000 is moved to day 60. *)
Definition ex_postpone : BookingUpdate.t :=
  BookingUpdate.mk Unset Unset Unset Unset Unset Unset (Provided (Some 60))
                   Unset.

(** Booking 1000 is given a note and three guests. *)
Definition ex_scalars : BookingUpdate.t :=
  BookingUpdate.mk Unset Unset Unset (Provided (Some 3))
                   (Provided (Some "window"%string)) Unset Unset Unset.

Definition ex_request2 : BookingCreate.t :=
  BookingCreate.mk 4 None CONFIRMED 50 10 [101] [200].

Definition ex_large : BookingCreate.t :=
  BookingCreate.mk 7 None CONFIRMED 50 10 [100; 101] [200].

(** ** More of the booking code *)

(** FOREIGN KEY [reservationunit.booking_id -> booking.id]. *)
Definition units_reference_bookings (st : Store) : bool :=
  forallb (fun u => mem (ReservationUnit.booking_id u)
                        (map Booking.id (bookings st)))
          (units st).

(** [CRUDBase.get] with [many=True]: [if offset: stmt.offset(offset)] and
    [if limit: stmt.limit(limit)], so that 0 stands for no offset and for no
    limit.  The two numbers are natural numbers here; the database refuses
    negative ones. *)
Definition paginate {A} (offset limit : nat) (rows : list A) : list A :=
  let rows := match offset with
              | O => rows
              | _ => skipn offset rows
              end in
  match limit with
  | O => rows
  | _ => firstn limit rows
  end.

(** The conditions of [BookingRepository.get_multi_with_relations]. *)
Definition listing_conditions (show_all : bool) (cafe_id user_id : option UUID)
    (b : Booking.t) : bool :=
  (show_all || Booking.is_active b)
  && match cafe_id with
     | Some c => Booking.cafe_id b =? c
     | None => true
     end
  && match user_id with
     | Some u => Booking.user_id b =? u
     | None => true
     end.

Section Listing.

(** The statement of [CRUDBase.get] has no ORDER BY here (no [order_by] is
    passed): the database returns the rows of [booking] in an order of its
    choosing, and OFFSET and LIMIT cut that order.  [scan] is the order of
    one execution; all that is known of it is that it is a permutation of
    the table. *)
Variable scan : list Booking.t -> list Booking.t.

Definition get_multi_with_relations (skip limit : nat) (show_all : bool)
    (cafe_id user_id : option UUID) : M (list BookingObj) :=
  query (fun st =>
           map (load st)
               (paginate skip limit
                  (filter (listing_conditions show_all cafe_id user_id)
                          (scan (bookings st))))).

End Listing.

(** The [ValueError]s of the validators of [app/schemas/booking.py]. *)
Inductive SchemaError :=
| EmptyTables        (* 'Необходимо выбрать хотя бы один стол' *)
| EmptySlots         (* 'Необходимо выбрать хотя бы один временной слот' *)
| DuplicateTables    (* 'Список столов не должен содержать дубликаты' *)
| DuplicateSlots     (* 'Список слотов не должен содержать дубликаты' *)
| NoteNotString.     (* 'Комментарий должен быть строкой' *)

(** [BookingCreate.validate_relations] *)
Definition BookingCreate_validate_relations (o : BookingCreate.t)
  : option SchemaError :=
  match BookingCreate.tables_id o with
  | [] => Some EmptyTables
  | _ =>
  match BookingCreate.slots_id o with
  | [] => Some EmptySlots
  | _ =>
    if negb (Nat.eqb (length (BookingCreate.tables_id o))
                     (len_set (BookingCreate.tables_id o)))
    then Some DuplicateTables
    else if negb (Nat.eqb (length (BookingCreate.slots_id o))
                          (len_set (BookingCreate.slots_id o)))
    then Some DuplicateSlots
    else None
  end
  end.

(** [l and len(l) != len(set(l))] for an optional list. *)
Definition has_duplicates (l : option (list UUID)) : bool :=
  match l with
  | Some (x :: r) => negb (Nat.eqb (length (x :: r)) (len_set (x :: r)))
  | _ => false
  end.

(** [BookingUpdate.validate_relations] *)
Definition BookingUpdate_validate_relations (o : BookingUpdate.t)
  : option SchemaError :=
  if has_duplicates (value (BookingUpdate.tables_id o))
  then Some DuplicateTables
  else if has_duplicates (value (BookingUpdate.slots_id o))
  then Some DuplicateSlots
  else None.

(** The value handed to a [mode='before'] validator: [None], a string, or
    anything else. *)
Inductive RawValue (char : Type) :=
| RawNone
| RawStr (s : list char)
| RawOther.
Arguments RawNone {char}.
Arguments RawStr {char} s.
Arguments RawOther {char}.

Section Notes.

(** A Python string is a list of characters; [str.isspace] on one character
    is a parameter. *)
Variable char : Type.
Variable isspace : char -> bool.

(** [str.lstrip()] *)
Fixpoint lstrip (s : list char) : list char :=
  match s with
  | [] => []
  | c :: r => if isspace c then lstrip r else s
  end.

(** [str.rstrip()] *)
Definition rstrip (s : list char) : list char := rev (lstrip (rev s)).

(** [str.strip()] *)
Definition strip (s : list char) : list char := rstrip (lstrip s).

(** [BookingBase.normalize_note] and [BookingUpdate.normalize_note] *)
Definition normalize_note (value : RawValue char)
  : SchemaError + option (list char) :=
  match value with
  | RawNone => inr None
  | RawOther => inl NoteNotString
  | RawStr s =>
      let cleaned := strip s in
      match cleaned with
      | [] => inr None
      | _ => inr (Some cleaned)
      end
  end.

End Notes.

(** ** The booking endpoints ([app/api/endpoints/booking.py]) *)

(** The [detail] of an [HTTPException] of these endpoints. *)
Inductive Detail :=
| ValidationDetail (m : Msg)   (* str(e) of the ValueError *)
| UserNotFound                 (* 'Пользователь не найден' *)
| BookingNotFound              (* 'Бронирование не найдено' *)
| InternalError.               (* 'Внутренняя ошибка сервера ...' *)

(** What a request gets: the returned value, an [HTTPException] raised by
    the endpoint, or an exception that leaves the endpoint uncaught. *)
Inductive HTTPResult (A : Type) :=
| Returned (a : A)
| HTTPException (status_code : Z) (detail : Detail)
| Unhandled (e : Exc).
Arguments Returned {A} a.
Arguments HTTPException {A} status_code detail.
Arguments Unhandled {A} e.

Section Endpoints.

Variable today : date.

(** [NotificationService.send_booking_created_notification] and
    [send_booking_updated_notification]: they read the booking and queue
    e-mails; all that the endpoints see of them is whether they raise. *)
Variable notification : Store -> UUID -> UUID -> Exc + unit.

(** The order in which the database returns the rows of the listing. *)
Variable scan : list Booking.t -> list Booking.t.

(** [get_all_booking]: [skip] and [limit] are left at the defaults of
    [get_multi_with_relations], 0 and 100. *)
Definition get_all_booking (show_all : bool) (cafe_id user_id : option UUID)
    (st : Store) : HTTPResult (list BookingObj) * Store :=
  match get_multi_with_relations scan 0%nat 100%nat show_all cafe_id user_id
                                 (open_session st) with
  | (inr l, ses) => (Returned l, close_session ses)
  | (inl _, ses) => (HTTPException 500 InternalError, close_session ses)
  end.

(** [create_booking]: [current_user] is the user of the request when there
    is one. *)
Definition create_booking (booking_data : BookingCreate.t)
    (current_user : option UUID) (st : Store)
  : HTTPResult BookingObj * Store :=
  match current_user with
  | None => (HTTPException 400 UserNotFound, st)
  | Some user_id =>
      match create_with_validation today booking_data user_id
                                   (open_session st) with
      | (inr booking, ses) =>
          match notification (working ses) (Booking.id (row booking))
                             user_id with
          | inr _ => (Returned booking, close_session ses)
          | inl _ => (Returned booking, close_session ses)
          end
      | (inl (ValueError m), ses) =>
          (HTTPException 400 (ValidationDetail m), close_session ses)
      | (inl _, ses) => (HTTPException 500 InternalError, close_session ses)
      end
  end.

(** [get_booking_by_id] *)
Definition get_booking_by_id (booking_id : UUID) (st : Store)
  : HTTPResult BookingObj * Store :=
  match get_with_relations booking_id (open_session st) with
  | (inr (Some booking), ses) => (Returned booking, close_session ses)
  | (inr None, ses) => (HTTPException 404 BookingNotFound, close_session ses)
  | (inl _, ses) => (HTTPException 500 InternalError, close_session ses)
  end.

(** [update_booking]: the booking is looked up before the [try] and again
    inside it; the user of the notification is the first row of [user]. *)
Definition update_booking (booking_id : UUID) (update_data : BookingUpdate.t)
    (current_user : UUID) (st : Store) : HTTPResult BookingObj * Store :=
  match get_with_relations booking_id (open_session st) with
  | (inl e, ses) => (Unhandled e, close_session ses)
  | (inr None, ses) => (HTTPException 404 BookingNotFound, close_session ses)
  | (inr (Some _), ses) =>
      match users (working ses) with
      | [] => (HTTPException 400 UserNotFound, close_session ses)
      | user :: _ =>
          match get_with_relations booking_id ses with
          | (inl _, ses1) =>
              (HTTPException 500 InternalError, close_session ses1)
          | (inr None, ses1) =>
              (HTTPException 404 BookingNotFound, close_session ses1)
          | (inr (Some booking), ses1) =>
              match update_with_validation today booking update_data ses1
              with
              | (inr updated_booking, ses2) =>
                  match notification (working ses2) booking_id user with
                  | inr _ => (Returned updated_booking, close_session ses2)
                  | inl _ => (Returned updated_booking, close_session ses2)
                  end
              | (inl (ValueError m), ses2) =>
                  (HTTPException 400 (ValidationDetail m),
                   close_session ses2)
              | (inl _, ses2) =>
                  (HTTPException 500 InternalError, close_session ses2)
              end
          end
      end
  end.

End Endpoints.

(** ** More of the example cafe *)

(** Booking 1002 asks for slot 201 instead. *)
Definition ex_reslot : BookingUpdate.t :=
  BookingUpdate.mk Unset Unset (Provided (Some [201])) Unset Unset Unset
                   Unset Unset.

Definition ex_u2_reslot : ReservationUnit.t :=
  ReservationUnit.mk 1004 1002 10 101 201 50.

(** [ex_two] after that. *)
Definition ex_two_reslot : Store :=
  mkStore [1; 2] [Cafe.mk 10 true]
          [Table.mk 100 10 2 true; Table.mk 101 10 4 true]
          [Slot.mk 200 10 true; Slot.mk 201 10 true]
          [ex_b1; ex_b2] [ex_u1; ex_u2_reslot] 1005.



(** Table 100 in slot 200 on day 50, for three guests. *)
Definition ex_three : BookingCreate.t :=
  BookingCreate.mk 3 None CONFIRMED 50 10 [100] [200].

Definition ex_b1_postponed : Booking.t :=
  Booking.mk 1000 1 10 60 2 CONFIRMED None true.

(** [ex_booked] after [ex_postpone] on booking 1000: the booking is on day
    60, its unit on day 50. *)
Definition ex_postponed : Store :=
  mkStore [1; 2] [Cafe.mk 10 true]
          [Table.mk 100 10 2 true; Table.mk 101 10 4 true]
          [Slot.mk 200 10 true; Slot.mk 201 10 true]
          [ex_b1_postponed] [ex_u1] 1002.

(** Booking 1000 is moved back to day 50. *)
Definition ex_back : BookingUpdate.t :=
  BookingUpdate.mk Unset Unset Unset Unset Unset Unset (Provided (Some 50))
                   Unset.

(** A patch with [booking_date: null]. *)
Definition ex_null_date : BookingUpdate.t :=
  BookingUpdate.mk Unset Unset Unset Unset Unset Unset (Provided None) Unset.

(** A notification service that is down, and one that works. *)
Definition ex_mail_down : Store -> UUID -> UUID -> Exc + unit :=
  fun _ _ _ => inl TypeError.

Definition ex_mail_up : Store -> UUID -> UUID -> Exc + unit :=
  fun _ _ _ => inr tt.

(** * Properties *)

(** ** Lists and keys *)

Lemma mem_In x l : mem x l = true <-> In x l.
Proof.
  unfold mem. rewrite existsb_exists. split.
  - intros [y [Hy E]]. apply Z.eqb_eq in E. now subst.
  - intros H. exists x. split; [assumption | apply Z.eqb_refl].
Qed.

Lemma distinct_NoDup l : distinct l = true <-> NoDup l.
Proof.
  induction l as [|x r IH]; simpl.
  - split; [constructor | reflexivity].
  - rewrite andb_true_iff, negb_true_iff, IH. split.
    + intros [Hx Hr]. constructor; [|assumption].
      intro Hin. apply mem_In in Hin. unfold mem in Hin. congruence.
    + intros H. inversion H as [|? ? Hx Hr]; subst. split; [|assumption].
      destruct (existsb (Z.eqb x) r) eqn:E; [|reflexivity].
      exfalso. apply Hx. now apply mem_In.
Qed.

Lemma same_atom_sym u v : same_atom u v = same_atom v u.
Proof.
  unfold same_atom.
  now rewrite (Z.eqb_sym (ReservationUnit.table_id u)),
              (Z.eqb_sym (ReservationUnit.slot_id u)),
              (Z.eqb_sym (ReservationUnit.booking_date u)).
Qed.

Lemma same_atom_true u v :
  same_atom u v = true <->
  ReservationUnit.table_id u = ReservationUnit.table_id v
  /\ ReservationUnit.slot_id u = ReservationUnit.slot_id v
  /\ ReservationUnit.booking_date u = ReservationUnit.booking_date v.
Proof.
  unfold same_atom. rewrite !andb_true_iff, !Z.eqb_eq. tauto.
Qed.

Lemma uq_atoms_app us vs :
  uq_atoms (us ++ vs) = true <->
  uq_atoms us = true /\ uq_atoms vs = true
  /\ forall u v, In u us -> In v vs -> same_atom u v = false.
Proof.
  induction us as [|a us IH]; simpl.
  - intuition.
  - rewrite !andb_true_iff, !negb_true_iff, IH, existsb_app, orb_false_iff.
    split.
    + intros [[Ha1 Ha2] [Hus [Hvs Hx]]]. repeat split; try assumption.
      intros u v [->|Hu] Hv.
      * destruct (same_atom u v) eqn:E; [|reflexivity].
        assert (existsb (same_atom u) vs = true)
          by (apply existsb_exists; eauto).
        congruence.
      * now apply Hx.
    + intros [[Ha Hus] [Hvs Hx]]. repeat split; try assumption.
      * destruct (existsb (same_atom a) vs) eqn:E; [|reflexivity].
        apply existsb_exists in E. destruct E as [v [Hv E]].
        rewrite (Hx a v) in E; [discriminate | now left | assumption].
      * intros u v Hu Hv. apply Hx; [now right | assumption].
Qed.

Lemma uq_atoms_In us u v :
  uq_atoms us = true -> In u us -> In v us -> same_atom u v = true -> u = v.
Proof.
  induction us as [|a us IH]; simpl; [contradiction|].
  rewrite andb_true_iff, negb_true_iff. intros [Ha Hus] Hu Hv E.
  assert (Hno : forall w, In w us -> same_atom a w = false).
  { intros w Hw. destruct (same_atom a w) eqn:Ew; [|reflexivity].
    assert (existsb (same_atom a) us = true)
      by (apply existsb_exists; eauto).
    congruence. }
  destruct Hu as [->|Hu], Hv as [->|Hv].
  - reflexivity.
  - rewrite (Hno v Hv) in E. discriminate.
  - rewrite same_atom_sym, (Hno u Hu) in E. discriminate.
  - now apply IH.
Qed.

Lemma uq_atoms_filter f us :
  uq_atoms us = true -> uq_atoms (filter f us) = true.
Proof.
  induction us as [|a us IH]; simpl; [reflexivity|].
  rewrite andb_true_iff, negb_true_iff. intros [Ha Hus].
  destruct (f a); simpl; [|now apply IH].
  rewrite andb_true_iff, negb_true_iff. split; [|now apply IH].
  destruct (existsb (same_atom a) (filter f us)) eqn:E; [|reflexivity].
  apply existsb_exists in E. destruct E as [v [Hv E]].
  apply filter_In in Hv.
  assert (existsb (same_atom a) us = true)
    by (apply existsb_exists; exists v; tauto).
  congruence.
Qed.

(** Uniqueness gives P1. *)
Lemma uq_no_double_booking st :
  uq_atoms (units st) = true -> no_double_booking st.
Proof.
  intros Huq u1 u2 b1 b2 Hu1 Hu2 _ _ E1 E2 Hne _ _.
  destruct (same_atom u1 u2) eqn:E; [|reflexivity].
  exfalso. apply Hne. rewrite <- E1, <- E2.
  now rewrite (uq_atoms_In _ _ _ Huq Hu1 Hu2 E).
Qed.

(** ** The flush of reservation units *)

Lemma insert_unit_inr row st st' :
  insert_unit row st = inr st' ->
  existsb (same_atom (row (next_uuid st))) (units st) = false
  /\ st' = mkStore (users st) (cafes st) (tables st) (slots st) (bookings st)
                   (units st ++ [row (next_uuid st)]) (next_uuid st + 1).
Proof.
  unfold insert_unit.
  destruct (existsb (same_atom (row (next_uuid st))) (units st));
    [discriminate|].
  intros E. injection E as <-. split; reflexivity.
Qed.

Lemma insert_units_inr rows : forall st st',
  insert_units rows st = inr st' ->
  st' = mkStore (users st) (cafes st) (tables st) (slots st) (bookings st)
                (units st ++ with_keys rows (next_uuid st))
                (next_uuid st + Z.of_nat (length rows)).
Proof.
  induction rows as [|r rest IH]; simpl; intros st st' H.
  - injection H as <-. rewrite app_nil_r, Z.add_0_r. now destruct st.
  - destruct (insert_unit r st) as [e|st1] eqn:E1; [discriminate|].
    apply insert_unit_inr in E1. destruct E1 as [_ ->].
    apply IH in H. rewrite H. simpl. rewrite <- app_assoc. simpl.
    f_equal. lia.
Qed.

Lemma insert_units_inl rows : forall st e,
  insert_units rows st = inl e -> e = IntegrityError uq_reservation_atom.
Proof.
  induction rows as [|r rest IH]; simpl; intros st e H; [discriminate|].
  destruct (insert_unit r st) as [e1|st1] eqn:E1.
  - injection H as <-. unfold insert_unit in E1.
    destruct (existsb _ _); [|discriminate]. now injection E1 as <-.
  - eauto.
Qed.

Lemma insert_units_uq rows : forall st st',
  uq_atoms (units st) = true ->
  insert_units rows st = inr st' ->
  uq_atoms (units st') = true.
Proof.
  induction rows as [|r rest IH]; simpl; intros st st' Huq H.
  - now injection H as <-.
  - destruct (insert_unit r st) as [e|st1] eqn:E1; [discriminate|].
    apply (IH st1 st'); [|assumption].
    apply insert_unit_inr in E1. destruct E1 as [Hfree ->]. simpl.
    apply uq_atoms_app. repeat split; try assumption.
    intros u v Hu [<-|[]].
    destruct (same_atom u (r (next_uuid st))) eqn:E; [|reflexivity].
    rewrite same_atom_sym in E.
    assert (existsb (same_atom (r (next_uuid st))) (units st) = true)
      by (apply existsb_exists; eauto).
    congruence.
Qed.

(** A pending unit on an atom that is already in the table makes the flush
    fail, whoever owns the row that is there. *)
Lemma insert_units_blocked rows : forall st r u,
  In r rows -> In u (units st) ->
  (forall pk, same_atom (r pk) u = true) ->
  insert_units rows st = inl (IntegrityError uq_reservation_atom).
Proof.
  induction rows as [|r0 rest IH]; simpl; intros st r u Hr Hu Hsame;
    [contradiction|].
  destruct (insert_unit r0 st) as [e|st1] eqn:E1.
  - f_equal. unfold insert_unit in E1.
    destruct (existsb _ _); [|discriminate]. now injection E1 as <-.
  - pose proof (insert_unit_inr _ _ _ E1) as [Hfree ->].
    destruct Hr as [->|Hr].
    + assert (existsb (same_atom (r (next_uuid st))) (units st) = true)
        by (apply existsb_exists; eauto).
      congruence.
    + apply (IH _ r u); try assumption. simpl. apply in_or_app. now left.
Qed.

Lemma with_keys_length rows : forall pk,
  length (with_keys rows pk) = length rows.
Proof. induction rows; simpl; intros; [reflexivity | now rewrite IHrows]. Qed.

Lemma with_keys_In rows : forall pk u,
  In u (with_keys rows pk) ->
  exists r k, In r rows /\ pk <= k /\ u = r k.
Proof.
  induction rows as [|r rest IH]; simpl; intros pk u H; [contradiction|].
  destruct H as [<-|H].
  - exists r, pk. repeat split; [now left | lia].
  - apply IH in H. destruct H as [r' [k [Hr [Hk ->]]]].
    exists r', k. repeat split; [now right | lia].
Qed.

Lemma In_with_keys rows : forall pk r,
  In r rows -> exists k, In (r k) (with_keys rows pk).
Proof.
  induction rows as [|r0 rest IH]; simpl; intros pk r H; [contradiction|].
  destruct H as [->|H].
  - exists pk. now left.
  - destruct (IH (pk + 1) r H) as [k Hk]. exists k. now right.
Qed.

Lemma cross_units_length b c d ts ss :
  length (cross_units b c d ts ss) = (length ts * length ss)%nat.
Proof.
  unfold cross_units. induction ts as [|t ts IH]; simpl; [reflexivity|].
  now rewrite length_app, length_map, IH.
Qed.

Lemma cross_units_In b c d ts ss r :
  In r (cross_units b c d ts ss) <->
  exists t s, In t ts /\ In s ss
              /\ r = (fun pk => ReservationUnit.mk pk b c t s d).
Proof.
  unfold cross_units. rewrite in_flat_map. split.
  - intros [t [Ht H]]. apply in_map_iff in H. destruct H as [s [<- Hs]].
    now exists t, s.
  - intros [t [s [Ht [Hs ->]]]]. exists t. split; [assumption|].
    apply in_map_iff. now exists s.
Qed.

(** ** The session monad *)

Lemma reads_ret {A} (a : A) : reads (ret a).
Proof. intros ses. reflexivity. Qed.

Lemma reads_raise {A} e : reads (@raise A e).
Proof. intros ses. reflexivity. Qed.

Lemma reads_query {A} (q : Store -> A) : reads (query q).
Proof. intros ses. reflexivity. Qed.

Lemma reads_bind {A B} (m : M A) (k : A -> M B) :
  reads m -> (forall a, reads (k a)) -> reads (bind m k).
Proof.
  intros Hm Hk ses. unfold eval, bind.
  rewrite (Hm ses), (Hm (open_session (working ses))). simpl.
  destruct (eval m (working ses)) as [e|a]; [reflexivity|].
  rewrite (Hk a ses), (Hk a (open_session (working ses))). reflexivity.
Qed.

Lemma reads_scalar_one_or_none {A} (rows : list A) :
  reads (scalar_one_or_none rows).
Proof.
  destruct rows as [|x [|y r]]; simpl;
    auto using reads_ret, reads_raise.
Qed.

Lemma reads_for_each_return {A R} (xs : list A) (body : A -> M (option R)) :
  (forall x, reads (body x)) -> reads (for_each_return xs body).
Proof.
  intros Hb. induction xs as [|x r IH]; simpl.
  - apply reads_ret.
  - apply reads_bind; [apply Hb|]. intros [v|]; [apply reads_ret | apply IH].
Qed.

Lemma reads_check_tables_availability c ts ss d ex :
  reads (check_tables_availability c ts ss d ex).
Proof.
  unfold check_tables_availability. apply reads_bind.
  - apply reads_for_each_return. intros t.
    apply reads_for_each_return. intros s.
    apply reads_bind; [apply reads_query|]. intros rows.
    apply reads_bind; [apply reads_scalar_one_or_none|].
    intros [u|]; apply reads_ret.
  - intros [b|]; apply reads_ret.
Qed.

Lemma reads_validate_tables_capacity ts g :
  reads (validate_tables_capacity ts g).
Proof.
  unfold validate_tables_capacity. apply reads_bind; [apply reads_query|].
  intros [|t r]; apply reads_ret.
Qed.

Lemma reads_validate_relations c ts ss : reads (_validate_relations c ts ss).
Proof.
  unfold _validate_relations.
  destruct ts as [|t ts]; [apply reads_raise|].
  destruct ss as [|s ss]; [apply reads_raise|].
  apply reads_bind; [apply reads_query|]. intros dbt.
  destruct (negb _); [apply reads_raise|].
  apply reads_bind; [apply reads_query|]. intros dbs.
  destruct (negb _); [apply reads_raise | apply reads_ret].
Qed.

Lemma for_each_session_add {A} (f : A -> UUID -> ReservationUnit.t) xs :
  forall ses,
    for_each xs (fun x => session_add (f x)) ses
    = (inr tt, mkSession (committed ses) (working ses)
                         (pending ses ++ map f xs)).
Proof.
  induction xs as [|x r IH]; simpl; intros ses.
  - rewrite app_nil_r. now destruct ses.
  - unfold bind. unfold session_add at 1. rewrite IH. simpl.
    now rewrite <- app_assoc.
Qed.

Lemma for_each_cross {A B} (f : A -> B -> UUID -> ReservationUnit.t) xs ys :
  forall ses,
    for_each xs (fun x => for_each ys (fun y => session_add (f x y))) ses
    = (inr tt, mkSession (committed ses) (working ses)
                         (pending ses
                          ++ flat_map (fun x => map (f x) ys) xs)).
Proof.
  induction xs as [|x r IH]; simpl; intros ses.
  - rewrite app_nil_r. now destruct ses.
  - unfold bind. rewrite for_each_session_add, IH. simpl.
    now rewrite <- app_assoc.
Qed.

(** ** The conflict search *)

Lemma status_eqb_eq a b : status_eqb a b = true <-> a = b.
Proof. destruct a, b; simpl; split; intros H; try reflexivity; discriminate. Qed.

Lemma conflict_where_true t s d ex u b :
  conflict_where t s d ex u b = true <->
  ReservationUnit.booking_id u = Booking.id b
  /\ ReservationUnit.table_id u = t
  /\ ReservationUnit.slot_id u = s
  /\ ReservationUnit.booking_date u = d
  /\ Booking.status b <> CANCELED
  /\ Booking.is_active b = true
  /\ (forall x, ex = Some x -> Booking.id b <> x).
Proof.
  unfold conflict_where.
  rewrite !andb_true_iff, !Z.eqb_eq, negb_true_iff.
  assert (Hs : status_eqb (Booking.status b) CANCELED = false
               <-> Booking.status b <> CANCELED).
  { rewrite <- status_eqb_eq. destruct (status_eqb _ _); intuition congruence. }
  assert (He : match ex with
               | Some x => negb (Booking.id b =? x)
               | None => true
               end = true
               <-> forall x, ex = Some x -> Booking.id b <> x).
  { destruct ex as [x|].
    - rewrite negb_true_iff, Z.eqb_neq. split.
      + intros H y [= <-]. assumption.
      + intros H. now apply H.
    - split; [discriminate | reflexivity]. }
  rewrite Hs, He. tauto.
Qed.

Lemma conflicting_units_In t s d ex st x :
  In x (conflicting_units t s d ex st) <->
  In x (units st)
  /\ exists b, In b (bookings st) /\ conflict_where t s d ex x b = true.
Proof.
  unfold conflicting_units. rewrite in_flat_map. split.
  - intros [u [Hu H]]. apply in_flat_map in H. destruct H as [b [Hb H]].
    destruct (conflict_where t s d ex u b) eqn:E; [|contradiction].
    destruct H as [<-|[]]. eauto.
  - intros [Hx [b [Hb E]]]. exists x. split; [assumption|].
    apply in_flat_map. exists b. split; [assumption|]. rewrite E. now left.
Qed.

Lemma conflicting_units_nil t s d ex st :
  conflicting_units t s d ex st = [] <-> ~ conflict st ex t s d.
Proof.
  split.
  - intros E [u [b [Hu [Hb H]]]].
    assert (Hin : In u (conflicting_units t s d ex st)).
    { apply conflicting_units_In. split; [assumption|]. exists b.
      split; [assumption|]. now apply conflict_where_true. }
    rewrite E in Hin. contradiction.
  - intros Hno. destruct (conflicting_units t s d ex st) as [|x r] eqn:E;
      [reflexivity|].
    exfalso. apply Hno.
    assert (Hin : In x (conflicting_units t s d ex st))
      by (rewrite E; now left).
    apply conflicting_units_In in Hin. destruct Hin as [Hx [b [Hb H]]].
    apply conflict_where_true in H. now exists x, b.
Qed.

Lemma flat_map_none {A B} (f : A -> bool) (y : B) l :
  (forall x, In x l -> f x = false) ->
  flat_map (fun x => if f x then [y] else []) l = [].
Proof.
  induction l as [|a l IH]; simpl; intros H; [reflexivity|].
  rewrite (H a) by now left. simpl. apply IH. intros x Hx. apply H. now right.
Qed.

(** With the primary key of [booking] and [uq_reservation_atom], the search
    finds at most one row. *)
Lemma joined_bookings_le1 t s d ex u bs :
  distinct (map Booking.id bs) = true ->
  (length (flat_map (fun b => if conflict_where t s d ex u b
                              then [u] else []) bs) <= 1)%nat.
Proof.
  induction bs as [|b bs IH]; [simpl; lia|].
  change (distinct (map Booking.id (b :: bs)))
    with (negb (mem (Booking.id b) (map Booking.id bs))
          && distinct (map Booking.id bs)).
  rewrite andb_true_iff, negb_true_iff. intros [Hb Hbs].
  cbn [flat_map]. rewrite length_app. specialize (IH Hbs).
  destruct (conflict_where t s d ex u b) eqn:E; [|simpl; lia].
  rewrite flat_map_none; [simpl; lia|].
  intros b' Hb'. destruct (conflict_where t s d ex u b') eqn:E';
    [|reflexivity].
  apply conflict_where_true in E, E'. exfalso.
  assert (Hin : In (Booking.id b) (map Booking.id bs)).
  { apply in_map_iff. exists b'. split; [|assumption].
    destruct E as [<- _], E' as [<- _]. reflexivity. }
  apply mem_In in Hin. congruence.
Qed.

Lemma conflicting_units_le1 t s d ex st :
  distinct (map Booking.id (bookings st)) = true ->
  uq_atoms (units st) = true ->
  (length (conflicting_units t s d ex st) <= 1)%nat.
Proof.
  intros Hpk. unfold conflicting_units.
  induction (units st) as [|u us IH]; simpl; [lia|].
  rewrite andb_true_iff, negb_true_iff. intros [Hu Hus].
  rewrite length_app. specialize (IH Hus).
  pose proof (joined_bookings_le1 t s d ex u _ Hpk) as H1.
  destruct (flat_map (fun b => if conflict_where t s d ex u b
                               then [u] else []) (bookings st))
    as [|x r] eqn:E; [simpl; lia|].
  assert (Hx : In x (x :: r)) by now left.
  rewrite <- E in Hx. apply in_flat_map in Hx. destruct Hx as [b [Hb Hx]].
  destruct (conflict_where t s d ex u b) eqn:Eb; [|contradiction].
  apply conflict_where_true in Eb.
  replace (flat_map _ us) with (@nil ReservationUnit.t); [simpl in *; lia|].
  symmetry. clear IH Hus.
  destruct (flat_map _ us) as [|y r'] eqn:E'; [reflexivity|]. exfalso.
  assert (Hy : In y (y :: r')) by now left.
  rewrite <- E' in Hy. apply in_flat_map in Hy. destruct Hy as [v [Hv Hy]].
  apply in_flat_map in Hy. destruct Hy as [b' [Hb' Hy]].
  destruct (conflict_where t s d ex v b') eqn:Ev; [|contradiction].
  apply conflict_where_true in Ev.
  assert (same_atom u v = true).
  { apply same_atom_true. intuition congruence. }
  assert (existsb (same_atom u) us = true)
    by (apply existsb_exists; eauto).
  congruence.
Qed.

Lemma eval_for_each_return_cons {A R} (x : A) r (body : A -> M (option R)) st :
  reads (body x) ->
  eval (for_each_return (x :: r) body) st
  = match eval (body x) st with
    | inl e => inl e
    | inr (Some v) => inr (Some v)
    | inr None => eval (for_each_return r body) st
    end.
Proof.
  intros Hb. unfold eval at 1. simpl. unfold bind.
  rewrite (Hb (open_session st)). simpl.
  destruct (eval (body x) st) as [e|[v|]]; reflexivity.
Qed.

Lemma reads_probe d ex t s : reads (probe d ex t s).
Proof.
  unfold probe. apply reads_bind; [apply reads_query|]. intros rows.
  apply reads_bind; [apply reads_scalar_one_or_none|].
  intros [u|]; apply reads_ret.
Qed.

Lemma eval_probe d ex t s st :
  eval (probe d ex t s) st
  = match conflicting_units t s d ex st with
    | [] => inr None
    | [_] => inr (Some false)
    | _ => inl MultipleResultsFound
    end.
Proof.
  unfold eval, probe, bind, query. simpl.
  destruct (conflicting_units t s d ex st) as [|x [|y r]]; reflexivity.
Qed.

Lemma eval_slots_loop d ex t ss st :
  (forall s, (length (conflicting_units t s d ex st) <= 1)%nat) ->
  (eval (for_each_return ss (probe d ex t)) st = inr None
   /\ forall s, In s ss -> conflicting_units t s d ex st = [])
  \/ (eval (for_each_return ss (probe d ex t)) st = inr (Some false)
      /\ exists s, In s ss /\ conflicting_units t s d ex st <> []).
Proof.
  intros Hle. induction ss as [|s ss IH].
  - left. split; [reflexivity | intros s []].
  - rewrite eval_for_each_return_cons by apply reads_probe.
    rewrite eval_probe. specialize (Hle s).
    destruct (conflicting_units t s d ex st) as [|x [|y r]] eqn:E.
    + destruct IH as [[H1 H2]|[H1 [s' [Hs' H2]]]].
      * left. split; [assumption|]. intros s' [<-|Hs']; auto.
      * right. split; [assumption|]. exists s'. split; [now right|assumption].
    + right. split; [reflexivity|]. exists s. split; [now left|].
      rewrite E. discriminate.
    + simpl in Hle. lia.
Qed.

Lemma eval_tables_loop d ex ts ss st :
  (forall t s, (length (conflicting_units t s d ex st) <= 1)%nat) ->
  (eval (for_each_return ts
           (fun t => for_each_return ss (probe d ex t))) st = inr None
   /\ forall t s, In t ts -> In s ss -> conflicting_units t s d ex st = [])
  \/ (eval (for_each_return ts
              (fun t => for_each_return ss (probe d ex t))) st
      = inr (Some false)
      /\ exists t s, In t ts /\ In s ss
                     /\ conflicting_units t s d ex st <> []).
Proof.
  intros Hle. induction ts as [|t ts IH].
  - left. split; [reflexivity | intros t s []].
  - rewrite eval_for_each_return_cons
      by (apply reads_for_each_return; intros; apply reads_probe).
    destruct (eval_slots_loop d ex t ss st (Hle t))
      as [[H1 H2]|[H1 [s [Hs H2]]]]; rewrite H1.
    + destruct IH as [[H3 H4]|[H3 [t' [s' [Ht' [Hs' H4]]]]]].
      * left. split; [assumption|]. intros t' s' [<-|Ht'] Hs'; auto.
      * right. split; [assumption|]. exists t', s'.
        repeat split; [now right | assumption | assumption].
    + right. split; [reflexivity|]. exists t, s.
      repeat split; [now left | assumption | assumption].
Qed.

Lemma eval_check_tables_availability c ts ss d ex st :
  eval (check_tables_availability c ts ss d ex) st
  = match eval (for_each_return ts
                  (fun t => for_each_return ss (probe d ex t))) st with
    | inl e => inl e
    | inr (Some b) => inr b
    | inr None => inr true
    end.
Proof.
  unfold eval at 1, check_tables_availability, bind.
  change (fun table_id : UUID =>
            for_each_return ss
              (fun slot_id : UUID =>
                 bind (query (conflicting_units table_id slot_id d ex))
                   (fun rows =>
                      bind (scalar_one_or_none rows)
                        (fun existing_booking =>
                           match existing_booking with
                           | Some _ => ret (Some false)
                           | None => ret None
                           end))))
    with (fun t => for_each_return ss (probe d ex t)).
  rewrite (reads_for_each_return ts
             (fun t => for_each_return ss (probe d ex t))).
  - simpl. destruct (eval _ st) as [e|[b|]]; reflexivity.
  - intros t. apply reads_for_each_return. intros s. apply reads_probe.
Qed.

Lemma conflicting_units_conflict t s d ex st :
  conflicting_units t s d ex st <> [] -> conflict st ex t s d.
Proof.
  destruct (conflicting_units t s d ex st) as [|x r] eqn:E;
    [congruence|]. intros _.
  assert (Hin : In x (conflicting_units t s d ex st))
    by (rewrite E; now left).
  apply conflicting_units_In in Hin. destruct Hin as [Hx [b [Hb H]]].
  apply conflict_where_true in H. now exists x, b.
Qed.

(** The conflict search on a database that satisfies its constraints: it
    returns, [True] when no requested atom is held and [False] when one
    is. *)
Lemma check_tables_availability_cases c ts ss d ex st :
  distinct (map Booking.id (bookings st)) = true ->
  uq_atoms (units st) = true ->
  (eval (check_tables_availability c ts ss d ex) st = inr true
   /\ forall t s, In t ts -> In s ss -> ~ conflict st ex t s d)
  \/ (eval (check_tables_availability c ts ss d ex) st = inr false
      /\ exists t s, In t ts /\ In s ss /\ conflict st ex t s d).
Proof.
  intros Hpk Huq. rewrite eval_check_tables_availability.
  destruct (eval_tables_loop d ex ts ss st
              (fun t s => conflicting_units_le1 t s d ex st Hpk Huq))
    as [[H1 H2]|[H1 [t [s [Ht [Hs H2]]]]]]; rewrite H1.
  - left. split; [reflexivity|].
    intros t s Ht Hs. apply conflicting_units_nil. now apply H2.
  - right. split; [reflexivity|]. exists t, s.
    repeat split; try assumption. now apply conflicting_units_conflict.
Qed.

(** ** The relation check *)

Lemma len_set_eq_iff (a b : list UUID) :
  incl a b -> (len_set a = len_set b <-> incl b a).
Proof.
  intros Hab. unfold len_set.
  assert (Hab' : incl (nodup Z.eq_dec a) (nodup Z.eq_dec b)).
  { intros x Hx. apply nodup_In. apply Hab. now apply nodup_In in Hx. }
  split.
  - intros E x Hx.
    assert (Hba' : incl (nodup Z.eq_dec b) (nodup Z.eq_dec a)).
    { apply NoDup_length_incl;
        [apply NoDup_nodup | rewrite E; lia | exact Hab']. }
    apply (nodup_In Z.eq_dec), Hba', nodup_In, Hx.
  - intros Hba.
    assert (Hba' : incl (nodup Z.eq_dec b) (nodup Z.eq_dec a)).
    { intros x Hx. apply nodup_In. apply Hba. now apply nodup_In in Hx. }
    pose proof (NoDup_incl_length (NoDup_nodup Z.eq_dec a) Hab').
    pose proof (NoDup_incl_length (NoDup_nodup Z.eq_dec b) Hba').
    lia.
Qed.

Lemma eval_validate_relations c ts ss st :
  eval (_validate_relations c ts ss) st
  = match relations_error c ts ss st with
    | Some m => inl (ValueError m)
    | None => inr tt
    end.
Proof.
  unfold eval, _validate_relations, relations_error.
  destruct ts as [|t ts]; [reflexivity|].
  destruct ss as [|s ss]; [reflexivity|].
  unfold bind, query. simpl working.
  destruct (negb (Nat.eqb (len_set (map Table.id _)) _)); [reflexivity|].
  destruct (negb (Nat.eqb (len_set (map Slot.id _)) _)); reflexivity.
Qed.

Lemma tables_len_set st c ts :
  len_set (map Table.id
             (filter (fun t => mem (Table.id t) ts
                               && (Table.cafe_id t =? c)
                               && Table.is_active t)
                     (tables st))) = len_set ts
  <-> tables_resolve st c ts.
Proof.
  rewrite len_set_eq_iff.
  - unfold tables_resolve. split.
    + intros H t Ht. apply H in Ht. apply in_map_iff in Ht.
      destruct Ht as [r [<- Hr]]. apply filter_In in Hr.
      destruct Hr as [Hr Hc]. rewrite !andb_true_iff, Z.eqb_eq in Hc.
      exists r. tauto.
    + intros H t Ht. destruct (H t Ht) as [r [Hr [<- [Hc Ha]]]].
      apply in_map_iff. exists r. split; [reflexivity|].
      apply filter_In. split; [assumption|].
      rewrite !andb_true_iff, Z.eqb_eq. repeat split; try assumption.
      now apply mem_In.
  - intros x Hx. apply in_map_iff in Hx. destruct Hx as [r [<- Hr]].
    apply filter_In in Hr. destruct Hr as [_ Hc].
    rewrite !andb_true_iff in Hc. now apply mem_In.
Qed.

Lemma slots_len_set st c ss :
  len_set (map Slot.id
             (filter (fun s => mem (Slot.id s) ss
                               && (Slot.cafe_id s =? c)
                               && Slot.is_active s)
                     (slots st))) = len_set ss
  <-> slots_resolve st c ss.
Proof.
  rewrite len_set_eq_iff.
  - unfold slots_resolve. split.
    + intros H s Hs. apply H in Hs. apply in_map_iff in Hs.
      destruct Hs as [r [<- Hr]]. apply filter_In in Hr.
      destruct Hr as [Hr Hc]. rewrite !andb_true_iff, Z.eqb_eq in Hc.
      exists r. tauto.
    + intros H s Hs. destruct (H s Hs) as [r [Hr [<- [Hc Ha]]]].
      apply in_map_iff. exists r. split; [reflexivity|].
      apply filter_In. split; [assumption|].
      rewrite !andb_true_iff, Z.eqb_eq. repeat split; try assumption.
      now apply mem_In.
  - intros x Hx. apply in_map_iff in Hx. destruct Hx as [r [<- Hr]].
    apply filter_In in Hr. destruct Hr as [_ Hc].
    rewrite !andb_true_iff in Hc. now apply mem_In.
Qed.

Lemma relations_error_None c ts ss st :
  relations_error c ts ss st = None
  <-> ts <> [] /\ ss <> [] /\ tables_resolve st c ts /\ slots_resolve st c ss.
Proof.
  unfold relations_error.
  destruct ts as [|t ts]; [split; [discriminate | intros [H _]; congruence]|].
  destruct ss as [|s ss];
    [split; [discriminate | intros [_ [H _]]; congruence]|].
  rewrite <- tables_len_set, <- slots_len_set.
  match goal with
  | |- context [negb (Nat.eqb ?a ?b)] => destruct (Nat.eqb_spec a b) as [E1|E1]
  end; cbn [negb].
  - match goal with
    | |- context [negb (Nat.eqb ?a ?b)] =>
        destruct (Nat.eqb_spec a b) as [E2|E2]
    end; cbn [negb].
    + split; [|intros _; reflexivity].
      intros _. repeat split; try discriminate; assumption.
    + split; [discriminate|]. intros [_ [_ [_ H]]]. contradiction.
  - split; [discriminate|]. intros [_ [_ [H _]]]. contradiction.
Qed.

Lemma relations_error_values c ts ss st m :
  relations_error c ts ss st = Some m ->
  m = NoTables \/ m = NoSlots \/ m = TablesUnavailable
  \/ m = SlotsUnavailable.
Proof.
  unfold relations_error.
  destruct ts; [intros [= <-]; tauto|].
  destruct ss; [intros [= <-]; tauto|].
  destruct (negb _); [intros [= <-]; tauto|].
  destruct (negb _); [intros [= <-]; tauto | discriminate].
Qed.

(** ** The capacity check *)

Lemma eval_validate_tables_capacity ts g st :
  eval (validate_tables_capacity ts g) st
  = inr match select_tables ts st with
        | [] => false
        | _ => g <=? sum_seats (select_tables ts st)
        end.
Proof.
  unfold eval, validate_tables_capacity, bind, query.
  change (working (open_session st)) with st.
  destruct (select_tables ts st); reflexivity.
Qed.

(** ** Creation *)

Lemma bind_reads {A B} (m : M A) (k : A -> M B) ses :
  reads m ->
  bind m k ses = match eval m (working ses) with
                 | inl e => (inl e, ses)
                 | inr a => k a ses
                 end.
Proof. intros Hm. unfold bind. rewrite (Hm ses). reflexivity. Qed.

Lemma create_unfold today obj_in user_id ses :
  create_with_validation today obj_in user_id ses
  = let st := working ses in
    match filter (fun c => Cafe.id c =? BookingCreate.cafe_id obj_in)
                 (cafes st) with
    | [] => (inl (ValueError CafeNotFound), ses)
    | _ :: _ :: _ => (inl MultipleResultsFound, ses)
    | [_] =>
      if negb (validate_booking_date today (BookingCreate.booking_date obj_in))
      then (inl (ValueError PastDate), ses)
      else
      match relations_error (BookingCreate.cafe_id obj_in)
                            (BookingCreate.tables_id obj_in)
                            (BookingCreate.slots_id obj_in) st with
      | Some m => (inl (ValueError m), ses)
      | None =>
        if negb match select_tables (BookingCreate.tables_id obj_in) st with
                | [] => false
                | _ => BookingCreate.guest_number obj_in
                       <=? sum_seats
                             (select_tables (BookingCreate.tables_id obj_in) st)
                end
        then (inl (ValueError
                     (NotEnoughSeats
                        (BookingCreate.guest_number obj_in)
                        (sum_seats
                           (select_tables (BookingCreate.tables_id obj_in)
                                          st)))), ses)
        else
        match eval (check_tables_availability
                      (BookingCreate.cafe_id obj_in)
                      (BookingCreate.tables_id obj_in)
                      (BookingCreate.slots_id obj_in)
                      (BookingCreate.booking_date obj_in) None) st with
        | inl e => (inl e, ses)
        | inr false => (inl (ValueError AlreadyOccupied), ses)
        | inr true =>
            persist obj_in user_id
                    (select_tables (BookingCreate.tables_id obj_in) st)
                    (select_slots (BookingCreate.slots_id obj_in) st) ses
        end
      end
    end.
Proof.
  unfold create_with_validation. cbv zeta.
  rewrite bind_reads by apply reads_query.
  unfold eval at 1, query at 1. cbn [fst working open_session].
  rewrite bind_reads by apply reads_scalar_one_or_none.
  destruct (filter _ (cafes (working ses))) as [|c [|c' r]];
    try reflexivity.
  unfold eval at 1. cbn [scalar_one_or_none ret fst].
  destruct (negb (validate_booking_date today _)); [reflexivity|].
  rewrite bind_reads by apply reads_validate_relations.
  rewrite eval_validate_relations.
  destruct (relations_error _ _ _ _) as [m|]; [reflexivity|].
  rewrite bind_reads by apply reads_query.
  unfold eval at 1, query at 1. cbn [fst working open_session].
  rewrite bind_reads by apply reads_query.
  unfold eval at 1, query at 1. cbn [fst working open_session].
  rewrite bind_reads by apply reads_validate_tables_capacity.
  rewrite eval_validate_tables_capacity.
  destruct (negb _); [reflexivity|].
  rewrite bind_reads by apply reads_check_tables_availability.
  destruct (eval _ (working ses)) as [e|[|]]; reflexivity.
Qed.

Lemma persist_unfold obj_in user_id tables slots ses :
  persist obj_in user_id tables slots ses
  = let st := working ses in
    if negb (mem user_id (users st))
    then (inl (IntegrityError fk_booking_user), ses)
    else if negb (existsb (fun c => Cafe.id c =? BookingCreate.cafe_id obj_in)
                          (cafes st))
    then (inl (IntegrityError fk_booking_cafe), ses)
    else
      let db_obj := new_booking obj_in user_id (next_uuid st) in
      let st1 := bump_uuid (set_bookings (bookings st ++ [db_obj]) st) in
      let rows :=
        pending ses
        ++ cross_units (Booking.id db_obj) (BookingCreate.cafe_id obj_in)
                       (BookingCreate.booking_date obj_in)
                       (map Table.id tables) (map Slot.id slots) in
      match insert_units rows st1 with
      | inl e => (inl e, mkSession (committed ses) st1 rows)
      | inr st2 => (inr (load st2 db_obj), mkSession st2 st2 [])
      end.
Proof.
  unfold persist. cbv zeta. unfold bind at 1. unfold add_booking at 1.
  destruct (negb (mem user_id _)); [reflexivity|].
  destruct (negb (existsb _ _)); [reflexivity|].
  unfold bind at 1. rewrite for_each_cross. cbn [committed working pending].
  unfold bind at 1, commit, bind at 1, flush. cbn [committed working pending].
  fold (new_booking obj_in user_id (next_uuid (working ses))).
  replace (flat_map _ tables)
    with (cross_units (Booking.id (new_booking obj_in user_id
                                     (next_uuid (working ses))))
            (BookingCreate.cafe_id obj_in)
            (BookingCreate.booking_date obj_in)
            (map Table.id tables) (map Slot.id slots)).
  - destruct (insert_units _ _) as [e|st2]; reflexivity.
  - unfold cross_units. rewrite flat_map_concat_map, flat_map_concat_map.
    rewrite map_map. f_equal. apply map_ext. intros t.
    now rewrite map_map.
Qed.

(** What a successful creation has checked and written. *)
Lemma create_success_inv today obj_in user_id st o st' :
  run (create_with_validation today obj_in user_id) st = (inr o, st') ->
  (exists c, filter (fun c => Cafe.id c =? BookingCreate.cafe_id obj_in)
                    (cafes st) = [c])
  /\ validate_booking_date today (BookingCreate.booking_date obj_in) = true
  /\ relations_error (BookingCreate.cafe_id obj_in)
                     (BookingCreate.tables_id obj_in)
                     (BookingCreate.slots_id obj_in) st = None
  /\ BookingCreate.guest_number obj_in
     <= sum_seats (select_tables (BookingCreate.tables_id obj_in) st)
  /\ eval (check_tables_availability
             (BookingCreate.cafe_id obj_in) (BookingCreate.tables_id obj_in)
             (BookingCreate.slots_id obj_in)
             (BookingCreate.booking_date obj_in) None) st = inr true
  /\ mem user_id (users st) = true
  /\ st' = mkStore (users st) (cafes st) (tables st) (slots st)
             (bookings st ++ [new_booking obj_in user_id (next_uuid st)])
             (units st
              ++ with_keys
                   (cross_units (next_uuid st)
                      (BookingCreate.cafe_id obj_in)
                      (BookingCreate.booking_date obj_in)
                      (map Table.id
                         (select_tables (BookingCreate.tables_id obj_in) st))
                      (map Slot.id
                         (select_slots (BookingCreate.slots_id obj_in) st)))
                   (next_uuid st + 1))
             (next_uuid st + 1
              + Z.of_nat
                  (length (select_tables (BookingCreate.tables_id obj_in) st)
                   * length (select_slots (BookingCreate.slots_id obj_in) st)))
  /\ o = load st' (new_booking obj_in user_id (next_uuid st)).
Proof.
  unfold run. rewrite create_unfold. cbv zeta.
  change (working (open_session st)) with st.
  intros H.
  destruct (filter _ (cafes st)) as [|c [|c' r]]; try discriminate.
  destruct (validate_booking_date today _); try discriminate.
  destruct (relations_error _ _ _ st); try discriminate.
  cbn [negb] in H.
  destruct (negb _) eqn:Ecap; try discriminate.
  destruct (eval _ st) as [e|[|]]; try discriminate.
  rewrite persist_unfold in H. cbv zeta in H.
  change (working (open_session st)) with st in H.
  change (pending (open_session st)) with (@nil (UUID -> ReservationUnit.t))
    in H.
  destruct (mem user_id (users st)); try discriminate.
  cbn [negb] in H.
  destruct (negb (existsb _ _)); try discriminate.
  cbn [app] in H.
  destruct (insert_units _ _) as [e|st2] eqn:Eins; try discriminate.
  cbn [close_session committed] in H. injection H as <- <-.
  apply insert_units_inr in Eins. cbn in Eins.
  rewrite cross_units_length, !length_map in Eins.
  split; [now exists c|]. split; [reflexivity|]. split; [reflexivity|].
  split.
  { apply negb_false_iff in Ecap.
    destruct (select_tables _ st); [discriminate | now apply Z.leb_le]. }
  split; [reflexivity|]. split; [reflexivity|].
  split; [exact Eins | reflexivity].
Qed.

(** Any exception raised by a creation leaves the database as it was, and a
    [ValueError] is raised before anything is added to the session. *)
Lemma create_failure today obj_in user_id ses e ses' :
  create_with_validation today obj_in user_id ses = (inl e, ses') ->
  committed ses' = committed ses
  /\ (forall m, e = ValueError m -> ses' = ses).
Proof.
  rewrite create_unfold. cbv zeta. intros H.
  destruct (filter _ (cafes (working ses))) as [|c [|c' r]];
    try (injection H as <- <-; split; [reflexivity | intros; reflexivity]).
  destruct (negb (validate_booking_date today _));
    try (injection H as <- <-; split; [reflexivity | intros; reflexivity]).
  destruct (relations_error _ _ _ _);
    try (injection H as <- <-; split; [reflexivity | intros; reflexivity]).
  destruct (negb _);
    try (injection H as <- <-; split; [reflexivity | intros; reflexivity]).
  destruct (eval _ (working ses)) as [e0|[|]];
    try (injection H as <- <-; split; [reflexivity | intros; reflexivity]).
  rewrite persist_unfold in H. cbv zeta in H.
  destruct (negb (mem user_id _));
    try (injection H as <- <-; split; [reflexivity | discriminate]).
  destruct (negb (existsb _ _));
    try (injection H as <- <-; split; [reflexivity | discriminate]).
  destruct (insert_units _ _) as [e1|st2] eqn:Eins; [|discriminate].
  injection H as <- <-. split; [reflexivity|].
  apply insert_units_inl in Eins. subst e1. discriminate.
Qed.

Lemma run_create_failure today obj_in user_id st e st' :
  run (create_with_validation today obj_in user_id) st = (inl e, st') ->
  st' = st.
Proof.
  unfold run.
  destruct (create_with_validation today obj_in user_id (open_session st))
    as [r ses] eqn:E.
  intros H. injection H as -> <-.
  apply create_failure in E. destruct E as [E _].
  unfold close_session. now rewrite E.
Qed.

(** ** Update *)

Lemma setattr_and_flush_unfold db_row obj_in ses :
  setattr_and_flush db_row obj_in ses
  = match patched_row db_row obj_in with
    | None => (inl (IntegrityError not_null), ses)
    | Some updated =>
        if negb (cafe_known obj_in updated (working ses))
        then (inl (IntegrityError fk_booking_cafe), ses)
        else (inr updated,
              mkSession (committed ses)
                        (replace_booking updated (working ses))
                        (pending ses))
    end.
Proof.
  unfold setattr_and_flush, patched_row, cafe_known.
  destruct (assign (BookingUpdate.cafe_id obj_in) _) as [c|];
    [|reflexivity].
  destruct (assign (BookingUpdate.booking_date obj_in) _) as [d|];
    [|reflexivity].
  destruct (assign (BookingUpdate.guest_number obj_in) _) as [g|];
    [|reflexivity].
  destruct (assign (BookingUpdate.status obj_in) _) as [s|];
    [|reflexivity].
  destruct (assign (BookingUpdate.is_active obj_in) _) as [a|];
    [|reflexivity].
  unfold bind, query. cbn [Booking.cafe_id Booking.id].
  destruct (negb _); reflexivity.
Qed.

Lemma relations_error_frame c ts ss st st' :
  tables st' = tables st -> slots st' = slots st ->
  relations_error c ts ss st' = relations_error c ts ss st.
Proof. unfold relations_error. intros -> ->. reflexivity. Qed.

Lemma update_unfold today db_obj obj_in ses :
  update_with_validation today db_obj obj_in ses
  = if Booking.booking_date (row db_obj) <? today
    then (inl (ValueError PastBooking), ses)
    else if status_eqb (Booking.status (row db_obj)) DONE
    then (inl (ValueError DoneBooking), ses)
    else
    match date_guard today obj_in with
    | Some e => (inl e, ses)
    | None =>
    match patched_row (row db_obj) obj_in with
    | None => (inl (IntegrityError not_null), ses)
    | Some updated =>
      if negb (cafe_known obj_in updated (working ses))
      then (inl (IntegrityError fk_booking_cafe), ses)
      else
      let st1 := replace_booking updated (working ses) in
      if selection_supplied obj_in
      then
        let st2 := delete_units (Booking.id (row db_obj)) st1 in
        match relations_error (target_cafe_id obj_in updated)
                              (target_tables_ids db_obj obj_in)
                              (target_slots_ids db_obj obj_in)
                              (working ses) with
        | Some m =>
            (inl (ValueError m), mkSession (committed ses) st2 (pending ses))
        | None =>
            let rows := pending ses ++ target_units db_obj obj_in updated in
            match insert_units rows st2 with
            | inl e => (inl e, mkSession (committed ses) st2 rows)
            | inr st3 => (inr (load st3 updated), mkSession st3 st3 [])
            end
        end
      else
        match insert_units (pending ses) st1 with
        | inl e => (inl e, mkSession (committed ses) st1 (pending ses))
        | inr st3 => (inr (load st3 updated), mkSession st3 st3 [])
        end
    end
    end.
Proof.
  unfold update_with_validation.
  destruct (Booking.booking_date (row db_obj) <? today); [reflexivity|].
  destruct (status_eqb _ DONE); [reflexivity|].
  unfold bind at 1.
  match goal with
  | |- context [match ?g ses with _ => _ end] =>
      assert (Hg : g ses = match date_guard today obj_in with
                           | Some e => (inl e, ses)
                           | None => (inr tt, ses)
                           end)
        by (unfold date_guard;
            destruct (BookingUpdate.booking_date obj_in) as [|[d|]];
            [ | destruct (negb _) | ]; reflexivity);
      rewrite Hg; clear Hg
  end.
  destruct (date_guard today obj_in) as [e|]; [reflexivity|].
  unfold bind at 1. rewrite setattr_and_flush_unfold.
  destruct (patched_row (row db_obj) obj_in) as [updated|]; [|reflexivity].
  destruct (negb (cafe_known obj_in updated (working ses))); [reflexivity|].
  cbv zeta. fold (selection_supplied obj_in).
  destruct (selection_supplied obj_in).
  all: unfold bind at 1.
  all: try (unfold bind at 1, modify at 1;
            fold (delete_units (Booking.id (row db_obj))
                               (replace_booking updated (working ses)));
            fold (target_cafe_id obj_in updated);
            fold (target_booking_date obj_in updated);
            fold (target_tables_ids db_obj obj_in);
            fold (target_slots_ids db_obj obj_in);
            rewrite bind_reads by apply reads_validate_relations;
            rewrite eval_validate_relations;
            cbn [working committed pending];
            rewrite (relations_error_frame _ _ _ (working ses))
              by reflexivity;
            destruct (relations_error _ _ _ (working ses)) as [m|];
            [reflexivity|];
            rewrite for_each_cross; cbn [working committed pending];
            fold (cross_units (Booking.id (row db_obj))
                    (target_cafe_id obj_in updated)
                    (target_booking_date obj_in updated)
                    (target_tables_ids db_obj obj_in)
                    (target_slots_ids db_obj obj_in));
            fold (target_units db_obj obj_in updated)).
  all: unfold bind at 1, commit, bind at 1, flush;
    cbn [working committed pending ret];
    destruct (insert_units _ _) as [e|st3]; reflexivity.
Qed.

(** ** Requests keep [uq_reservation_atom] *)

Lemma create_result today obj_in user_id ses r ses' :
  create_with_validation today obj_in user_id ses = (r, ses') ->
  (exists e, r = inl e /\ committed ses' = committed ses)
  \/ (exists rows st1,
        units st1 = units (working ses)
        /\ insert_units rows st1 = inr (committed ses')).
Proof.
  destruct r as [e|o]; intros H.
  - left. exists e. split; [reflexivity|].
    now apply create_failure in H.
  - right. rewrite create_unfold in H. cbv zeta in H.
    destruct (filter _ (cafes (working ses))) as [|c [|c' l]];
      try discriminate.
    destruct (negb (validate_booking_date today _)); try discriminate.
    destruct (relations_error _ _ _ _); try discriminate.
    destruct (negb _); try discriminate.
    destruct (eval _ (working ses)) as [e|[|]]; try discriminate.
    rewrite persist_unfold in H. cbv zeta in H.
    destruct (negb (mem user_id _)); try discriminate.
    destruct (negb (existsb _ _)); try discriminate.
    destruct (insert_units _ _) as [e|st2] eqn:Eins; try discriminate.
    injection H as _ <-. cbn [committed].
    do 2 eexists. split; [|exact Eins]. reflexivity.
Qed.

Lemma create_keeps_uq today obj_in user_id st r st' :
  uq_atoms (units st) = true ->
  run (create_with_validation today obj_in user_id) st = (r, st') ->
  uq_atoms (units st') = true.
Proof.
  intros Huq H. unfold run in H.
  destruct (create_with_validation today obj_in user_id (open_session st))
    as [r0 ses] eqn:E.
  injection H as -> <-. unfold close_session.
  apply create_result in E.
  destruct E as [[e [_ ->]]|[rows [st1 [Hu Hins]]]]; [exact Huq|].
  eapply insert_units_uq; [|exact Hins]. now rewrite Hu.
Qed.

Lemma update_result today db_obj obj_in ses r ses' :
  update_with_validation today db_obj obj_in ses = (r, ses') ->
  (exists e, r = inl e /\ committed ses' = committed ses)
  \/ (exists updated rows,
        patched_row (row db_obj) obj_in = Some updated
        /\ insert_units rows
             (if selection_supplied obj_in
              then delete_units (Booking.id (row db_obj))
                                (replace_booking updated (working ses))
              else replace_booking updated (working ses))
           = inr (committed ses')
        /\ rows = pending ses
                  ++ (if selection_supplied obj_in
                      then target_units db_obj obj_in updated else [])
        /\ r = inr (load (committed ses') updated)).
Proof.
  rewrite update_unfold. cbv zeta. intros H.
  destruct (Booking.booking_date (row db_obj) <? today);
    [injection H as <- <-; left; eauto|].
  destruct (status_eqb _ DONE); [injection H as <- <-; left; eauto|].
  destruct (date_guard today obj_in); [injection H as <- <-; left; eauto|].
  destruct (patched_row (row db_obj) obj_in) as [updated|];
    [|injection H as <- <-; left; eauto].
  destruct (negb (cafe_known _ _ _)); [injection H as <- <-; left; eauto|].
  destruct (selection_supplied obj_in).
  - destruct (relations_error _ _ _ _);
      [injection H as <- <-; left; eauto|].
    destruct (insert_units _ _) as [e|st3] eqn:E; injection H as <- <-.
    + left; eauto.
    + right. exists updated, (pending ses ++ target_units db_obj obj_in updated).
      repeat split; assumption.
  - destruct (insert_units _ _) as [e|st3] eqn:E; injection H as <- <-.
    + left; eauto.
    + right. exists updated, (pending ses).
      rewrite app_nil_r. repeat split; assumption.
Qed.

Lemma update_keeps_uq today db_obj obj_in st r st' :
  uq_atoms (units st) = true ->
  run (update_with_validation today db_obj obj_in) st = (r, st') ->
  uq_atoms (units st') = true.
Proof.
  intros Huq H. unfold run in H.
  destruct (update_with_validation today db_obj obj_in (open_session st))
    as [r0 ses] eqn:E.
  injection H as -> <-. unfold close_session.
  apply update_result in E.
  destruct E as [[e [_ ->]]|[updated [rows [_ [Hins _]]]]]; [exact Huq|].
  eapply insert_units_uq; [|exact Hins].
  destruct (selection_supplied obj_in); cbn.
  - now apply uq_atoms_filter.
  - exact Huq.
Qed.

Lemma step_keeps_uq today st st' :
  uq_atoms (units st) = true -> step today st st' ->
  uq_atoms (units st') = true.
Proof.
  intros Huq Hstep. inversion Hstep; subst.
  - eapply create_keeps_uq; eassumption.
  - eapply update_keeps_uq; eassumption.
Qed.

(** C1.  Starting from a database that satisfies [uq_reservation_atom],
    every database reached through creation and update requests still
    satisfies it: no two of its reservation units are on the same
    (table_id, slot_id, booking_date), whatever the status of their
    bookings; in particular no atom is shared by units of two distinct
    bookings that are active and not canceled. *)
Theorem uniqueness_invariant today st st' :
  uq_atoms (units st) = true ->
  reachable today st st' ->
  uq_atoms (units st') = true
  /\ (forall u v, In u (units st') -> In v (units st') ->
                  same_atom u v = true -> u = v)
  /\ no_double_booking st'.
Proof.
  intros Huq Hreach.
  assert (H : uq_atoms (units st') = true).
  { induction Hreach as [|st1 st2 _ IH Hstep]; [exact Huq|].
    eapply step_keeps_uq; eassumption. }
  split; [exact H|]. split.
  - intros u v. now apply uq_atoms_In.
  - now apply uq_no_double_booking.
Qed.

(** ** The decision tree of a creation *)

Lemma wf_store_parts st :
  wf_store st = true ->
  distinct (map Cafe.id (cafes st)) = true
  /\ distinct (map Table.id (tables st)) = true
  /\ distinct (map Slot.id (slots st)) = true
  /\ distinct (map Booking.id (bookings st)) = true
  /\ distinct (map ReservationUnit.id (units st)) = true
  /\ uq_atoms (units st) = true
  /\ forallb (fun b => Booking.id b <? next_uuid st) (bookings st) = true
  /\ forallb (fun u => ReservationUnit.id u <? next_uuid st) (units st)
     = true.
Proof. unfold wf_store. rewrite !andb_true_iff. tauto. Qed.

Lemma wf_store_intro st :
  distinct (map Cafe.id (cafes st)) = true ->
  distinct (map Table.id (tables st)) = true ->
  distinct (map Slot.id (slots st)) = true ->
  distinct (map Booking.id (bookings st)) = true ->
  distinct (map ReservationUnit.id (units st)) = true ->
  uq_atoms (units st) = true ->
  forallb (fun b => Booking.id b <? next_uuid st) (bookings st) = true ->
  forallb (fun u => ReservationUnit.id u <? next_uuid st) (units st) = true ->
  wf_store st = true.
Proof. unfold wf_store. now intros -> -> -> -> -> -> -> ->. Qed.

Lemma cafe_lookup cs k :
  distinct (map Cafe.id cs) = true ->
  (filter (fun c => Cafe.id c =? k) cs = []
   /\ forall x, In x cs -> Cafe.id x <> k)
  \/ (exists x, filter (fun c => Cafe.id c =? k) cs = [x]
                /\ In x cs /\ Cafe.id x = k).
Proof.
  induction cs as [|c r IH]; [left; split; [reflexivity | intros x []]|].
  change (distinct (map Cafe.id (c :: r)))
    with (negb (mem (Cafe.id c) (map Cafe.id r))
          && distinct (map Cafe.id r)).
  rewrite andb_true_iff, negb_true_iff. intros [Hc Hr].
  cbn [filter]. destruct (Z.eqb_spec (Cafe.id c) k) as [E|E].
  - right. exists c. split; [|split; [now left | assumption]].
    f_equal. destruct (filter _ r) as [|y l] eqn:Ef; [reflexivity|].
    exfalso. assert (Hy : In y (filter (fun c0 => Cafe.id c0 =? k) r))
      by (rewrite Ef; now left).
    apply filter_In in Hy. destruct Hy as [Hy Ey]. apply Z.eqb_eq in Ey.
    assert (Hin : In (Cafe.id c) (map Cafe.id r)).
    { apply in_map_iff. exists y. split; [congruence | assumption]. }
    apply mem_In in Hin. congruence.
  - destruct (IH Hr) as [[Hf Hno]|[x [Hf [Hx Ex]]]].
    + left. split; [assumption|]. intros x [<-|Hx]; auto.
    + right. exists x. split; [assumption|]. split; [now right|assumption].
Qed.

Lemma resolved_tables_selected st c ts :
  ts <> [] -> tables_resolve st c ts -> select_tables ts st <> [].
Proof.
  destruct ts as [|t ts]; [congruence|]. intros _ H.
  destruct (H t (or_introl eq_refl)) as [r [Hr [E _]]].
  intros Hnil.
  assert (Hin : In r (select_tables (t :: ts) st)).
  { apply filter_In. split; [assumption|]. apply mem_In. rewrite E. now left. }
  rewrite Hnil in Hin. contradiction.
Qed.

Lemma run_create_cases today obj_in user_id st :
  wf_store st = true ->
  let c := BookingCreate.cafe_id obj_in in
  let d := BookingCreate.booking_date obj_in in
  let ts := BookingCreate.tables_id obj_in in
  let ss := BookingCreate.slots_id obj_in in
  let g := BookingCreate.guest_number obj_in in
  let r := run (create_with_validation today obj_in user_id) st in
  ((forall x, In x (cafes st) -> Cafe.id x <> c)
   /\ r = (inl (ValueError CafeNotFound), st))
  \/ ((exists x, In x (cafes st) /\ Cafe.id x = c)
      /\ ((d < today /\ r = (inl (ValueError PastDate), st))
          \/ (today <= d
              /\ ((exists m, relations_error c ts ss st = Some m
                             /\ r = (inl (ValueError m), st))
                  \/ (relations_error c ts ss st = None
                      /\ ((sum_seats (select_tables ts st) < g
                           /\ r = (inl (ValueError
                                          (NotEnoughSeats g
                                             (sum_seats (select_tables ts st)))),
                                   st))
                          \/ (g <= sum_seats (select_tables ts st)
                              /\ (((exists t s, In t ts /\ In s ss
                                                /\ conflict st None t s d)
                                   /\ r = (inl (ValueError AlreadyOccupied),
                                           st))
                                  \/ ((forall t s, In t ts -> In s ss ->
                                                   ~ conflict st None t s d)
                                      /\ r = run (persist obj_in user_id
                                                    (select_tables ts st)
                                                    (select_slots ss st))
                                                 st))))))))).
Proof.
  intros Hwf c d ts ss g r.
  assert (HR : r = run (create_with_validation today obj_in user_id) st)
    by reflexivity.
  clearbody r. unfold run in HR at 1. rewrite create_unfold in HR.
  cbv zeta in HR. change (working (open_session st)) with st in HR.
  apply wf_store_parts in Hwf.
  destruct Hwf as [Hcafes [_ [_ [Hpk [_ [Huq _]]]]]].
  fold c d ts ss g in HR.
  destruct (cafe_lookup (cafes st) c Hcafes) as [[Hf Hno]|[x [Hf [Hx Ex]]]];
    rewrite Hf in HR.
  { left. split; assumption. }
  right. split; [now exists x|].
  unfold validate_booking_date in HR.
  destruct (Z.leb_spec today d) as [Hd|Hd]; cbn [negb] in HR.
  2:{ left. split; assumption. }
  right. split; [assumption|].
  destruct (relations_error c ts ss st) as [m|] eqn:Erel.
  { left. exists m. split; [reflexivity | assumption]. }
  right. split; [reflexivity|].
  apply relations_error_None in Erel.
  destruct Erel as [Hts [_ [Hres _]]].
  pose proof (resolved_tables_selected st c ts Hts Hres) as Hsel.
  destruct (select_tables ts st) as [|t0 l0] eqn:Esel; [congruence|].
  destruct (Z.leb_spec g (sum_seats (t0 :: l0))) as [Hg|Hg];
    cbn [negb] in HR.
  2:{ left. split; assumption. }
  right. split; [assumption|].
  destruct (check_tables_availability_cases c ts ss d None st Hpk Huq)
    as [[E Hfree]|[E Hbusy]]; rewrite E in HR.
  - right. split; assumption.
  - left. split; assumption.
Qed.

Lemma run_reads {A} (m : M A) st : reads m -> run m st = (eval m st, st).
Proof. intros Hm. unfold run. rewrite (Hm (open_session st)). reflexivity. Qed.

(** C2.  On a database that satisfies its constraints,
    [check_tables_availability] returns [True] exactly when no pair of the
    cross product of the requested tables and slots is held, on that date,
    by a unit of an active, not canceled booking other than
    [exclude_booking_id]; it returns [False] as soon as one pair is held, and
    [create_with_validation] then rejects the whole request with a
    [ValueError], the 'already occupied' one when the earlier checks pass,
    however many of the other pairs are free. *)
Theorem cross_product_availability c ts ss d ex st :
  wf_store st = true ->
  (exists b,
      run (check_tables_availability c ts ss d ex) st = (inr b, st)
      /\ (b = true <->
          forall t s, In t ts -> In s ss -> ~ conflict st ex t s d)
      /\ (b = false <->
          exists t s, In t ts /\ In s ss /\ conflict st ex t s d))
  /\ (forall today obj_in user_id,
         BookingCreate.tables_id obj_in = ts ->
         BookingCreate.slots_id obj_in = ss ->
         BookingCreate.booking_date obj_in = d ->
         (exists t s, In t ts /\ In s ss /\ conflict st None t s d) ->
         exists m,
           run (create_with_validation today obj_in user_id) st
           = (inl (ValueError m), st)
           /\ ((exists x, In x (cafes st)
                          /\ Cafe.id x = BookingCreate.cafe_id obj_in) ->
               today <= d ->
               ts <> [] -> ss <> [] ->
               tables_resolve st (BookingCreate.cafe_id obj_in) ts ->
               slots_resolve st (BookingCreate.cafe_id obj_in) ss ->
               BookingCreate.guest_number obj_in
               <= sum_seats (select_tables ts st) ->
               m = AlreadyOccupied)).
Proof.
  intros Hwf. split.
  - pose proof (wf_store_parts st Hwf) as [_ [_ [_ [Hpk [_ [Huq _]]]]]].
    rewrite run_reads by apply reads_check_tables_availability.
    destruct (check_tables_availability_cases c ts ss d ex st Hpk Huq)
      as [[E Hfree]|[E [t [s [Ht [Hs Hc]]]]]]; rewrite E.
    + exists true. split; [reflexivity|]. split.
      * split; [intros _; exact Hfree | reflexivity].
      * split; [discriminate|]. intros [t [s [Ht [Hs Hc]]]].
        exfalso. exact (Hfree t s Ht Hs Hc).
    + exists false. split; [reflexivity|]. split.
      * split; [discriminate|]. intros H. exfalso. exact (H t s Ht Hs Hc).
      * split; [|reflexivity]. intros _. now exists t, s.
  - intros today obj_in user_id <- <- <- [t [s [Ht [Hs Hc]]]].
    destruct (run_create_cases today obj_in user_id st Hwf)
      as [[Hno R]|[Hcafe [[Hd R]|[Hd [[m [Hm R]]|[Hrel [[Hg R]|[Hg
            [[Hbusy R]|[Hfree R]]]]]]]]]].
    + eexists. split; [exact R|]. intros [x [Hx Ex]]. exfalso.
      exact (Hno x Hx Ex).
    + eexists. split; [exact R|]. intros _ Hd'. lia.
    + eexists. split; [exact R|]. intros _ _ H1 H2 H3 H4.
      assert (Hrel : relations_error (BookingCreate.cafe_id obj_in)
                       (BookingCreate.tables_id obj_in)
                       (BookingCreate.slots_id obj_in) st = None)
        by (apply relations_error_None; tauto).
      congruence.
    + eexists. split; [exact R|]. intros _ _ _ _ _ _ Hg'. lia.
    + eexists. split; [exact R|]. reflexivity.
    + exfalso. exact (Hfree t s Ht Hs Hc).
Qed.

(** ** When the flush succeeds *)

Lemma insert_units_ok rows : forall st,
  uq_atoms (units st ++ with_keys rows (next_uuid st)) = true ->
  exists st', insert_units rows st = inr st'.
Proof.
  induction rows as [|r rest IH]; intros st H; [now exists st|].
  cbn [insert_units with_keys] in *. unfold insert_unit.
  pose proof H as H'. apply uq_atoms_app in H'.
  destruct H' as [_ [_ Hx]].
  destruct (existsb (same_atom (r (next_uuid st))) (units st)) eqn:E.
  - apply existsb_exists in E. destruct E as [u [Hu E]].
    rewrite same_atom_sym, (Hx u (r (next_uuid st)) Hu) in E;
      [discriminate | now left].
  - apply IH. cbn. rewrite <- app_assoc. exact H.
Qed.

Lemma with_keys_app l1 l2 : forall pk,
  with_keys (l1 ++ l2) pk
  = with_keys l1 pk ++ with_keys l2 (pk + Z.of_nat (length l1)).
Proof.
  induction l1 as [|r l1 IH]; intros pk; cbn [app with_keys length].
  - now rewrite Z.add_0_r.
  - rewrite IH.
    replace (pk + 1 + Z.of_nat (length l1))
      with (pk + Z.of_nat (S (length l1))) by lia.
    reflexivity.
Qed.

Lemma mem_false_not_In x l : mem x l = false -> ~ In x l.
Proof. intros H Hin. apply mem_In in Hin. congruence. Qed.

Lemma not_exists_same_atom u l :
  (forall v, In v l -> same_atom u v = false) ->
  existsb (same_atom u) l = false.
Proof.
  intros H. destruct (existsb (same_atom u) l) eqn:E; [|reflexivity].
  apply existsb_exists in E. destruct E as [v [Hv E]].
  rewrite (H v Hv) in E. discriminate.
Qed.

Lemma cross_units_uq b c d ts ss : forall pk,
  distinct ts = true -> distinct ss = true ->
  uq_atoms (with_keys (cross_units b c d ts ss) pk) = true.
Proof.
  unfold cross_units. induction ts as [|t ts IH]; intros pk Hts Hss;
    [reflexivity|].
  cbn [flat_map]. rewrite with_keys_app.
  cbn [distinct] in Hts. rewrite andb_true_iff, negb_true_iff in Hts.
  destruct Hts as [Ht Hts]. apply uq_atoms_app. split; [|split].
  - clear IH Ht Hts. revert pk.
    induction ss as [|s ss IHs]; intros pk; [reflexivity|].
    cbn [distinct] in Hss. rewrite andb_true_iff, negb_true_iff in Hss.
    destruct Hss as [Hs Hss]. cbn [map with_keys uq_atoms].
    rewrite (IHs Hss), andb_true_r, negb_true_iff.
    apply not_exists_same_atom. intros v Hv.
    apply with_keys_In in Hv. destruct Hv as [r [k [Hr [_ ->]]]].
    apply in_map_iff in Hr. destruct Hr as [s' [<- Hs']].
    unfold same_atom. cbn.
    destruct (Z.eqb_spec s s') as [->|_].
    + exfalso. exact (mem_false_not_In _ _ Hs Hs').
    + now rewrite andb_false_r.
  - now apply IH.
  - intros u v Hu Hv.
    apply with_keys_In in Hu. destruct Hu as [r [k [Hr [_ ->]]]].
    apply in_map_iff in Hr. destruct Hr as [s [<- Hs]].
    apply with_keys_In in Hv. destruct Hv as [r' [k' [Hr' [_ ->]]]].
    apply in_flat_map in Hr'. destruct Hr' as [t' [Ht' Hr']].
    apply in_map_iff in Hr'. destruct Hr' as [s' [<- Hs']].
    unfold same_atom. cbn.
    destruct (Z.eqb_spec t t') as [->|_]; [|reflexivity].
    exfalso. exact (mem_false_not_In _ _ Ht Ht').
Qed.

Lemma distinct_map_filter {A} (key : A -> UUID) f l :
  distinct (map key l) = true -> distinct (map key (filter f l)) = true.
Proof.
  rewrite !distinct_NoDup. induction l as [|a l IH]; [trivial|].
  cbn [map filter]. intros H. inversion H as [|? ? Ha Hl]; subst.
  destruct (f a); [|now apply IH]. cbn [map]. constructor; [|now apply IH].
  intros Hin. apply Ha. apply in_map_iff in Hin.
  destruct Hin as [x [E Hx]]. apply filter_In in Hx.
  apply in_map_iff. exists x. tauto.
Qed.

(** The writes of a creation go through when the user exists and no unit,
    of any booking, is on a requested atom. *)
Lemma persist_succeeds obj_in user_id st :
  wf_store st = true ->
  mem user_id (users st) = true ->
  (exists x, In x (cafes st) /\ Cafe.id x = BookingCreate.cafe_id obj_in) ->
  (forall u, In u (units st) ->
             In (ReservationUnit.table_id u) (BookingCreate.tables_id obj_in) ->
             In (ReservationUnit.slot_id u) (BookingCreate.slots_id obj_in) ->
             ReservationUnit.booking_date u
             <> BookingCreate.booking_date obj_in) ->
  exists o st',
    run (persist obj_in user_id
                 (select_tables (BookingCreate.tables_id obj_in) st)
                 (select_slots (BookingCreate.slots_id obj_in) st)) st
    = (inr o, st').
Proof.
  intros Hwf Huser [x [Hx Ex]] Hfree.
  apply wf_store_parts in Hwf.
  destruct Hwf as [_ [Htpk [Hspk [_ [_ [Huq _]]]]]].
  unfold run. rewrite persist_unfold. cbv zeta.
  change (working (open_session st)) with st.
  change (pending (open_session st)) with (@nil (UUID -> ReservationUnit.t)).
  rewrite Huser. cbn [negb app].
  assert (Hc : existsb (fun c => Cafe.id c =? BookingCreate.cafe_id obj_in)
                       (cafes st) = true).
  { apply existsb_exists. exists x. split; [assumption|]. now apply Z.eqb_eq. }
  rewrite Hc. cbn [negb].
  match goal with
  | |- context [insert_units ?rows ?s1] =>
      destruct (insert_units_ok rows s1) as [st2 E]
  end.
  - cbn [units next_uuid bump_uuid set_bookings]. apply uq_atoms_app.
    split; [assumption|]. split.
    + apply cross_units_uq; now apply distinct_map_filter.
    + intros u v Hu Hv.
      apply with_keys_In in Hv. destruct Hv as [r [k [Hr [_ ->]]]].
      apply cross_units_In in Hr. destruct Hr as [t [s [Ht [Hs ->]]]].
      apply in_map_iff in Ht. destruct Ht as [rt [<- Hrt]].
      apply in_map_iff in Hs. destruct Hs as [rs [<- Hrs]].
      apply filter_In in Hrt, Hrs. destruct Hrt as [_ Hrt], Hrs as [_ Hrs].
      apply mem_In in Hrt, Hrs.
      destruct (same_atom u _) eqn:E; [|reflexivity].
      apply same_atom_true in E. cbn in E. destruct E as [E1 [E2 E3]].
      exfalso. apply (Hfree u Hu); congruence.
  - rewrite E. eauto.
Qed.

(** C4.  On a database that satisfies its constraints,
    [create_with_validation] checks in this order that the cafe exists, that
    the date is not in the past, that the lists of tables and slots are not
    empty and every id names an active row of the cafe, that the seats cover
    [guest_number], and that the whole cross product is free.  The first
    check that fails raises its [ValueError] with nothing added to the
    session and the database as it was; any exception leaves the database as
    it was.  A booking is returned only when all the checks passed, and then
    the booking row and its units are in the database; it is returned
    whenever they pass, the user exists and no unit is on a requested atom. *)
Theorem creation_gauntlet today obj_in user_id st :
  wf_store st = true ->
  let c := BookingCreate.cafe_id obj_in in
  let d := BookingCreate.booking_date obj_in in
  let ts := BookingCreate.tables_id obj_in in
  let ss := BookingCreate.slots_id obj_in in
  let g := BookingCreate.guest_number obj_in in
  let r := run (create_with_validation today obj_in user_id) st in
  let cafe_found := exists x, In x (cafes st) /\ Cafe.id x = c in
  let relations_ok :=
    ts <> [] /\ ss <> [] /\ tables_resolve st c ts /\ slots_resolve st c ss in
  let seats := sum_seats (select_tables ts st) in
  let free := forall t s, In t ts -> In s ss -> ~ conflict st None t s d in
  (~ cafe_found -> r = (inl (ValueError CafeNotFound), st))
  /\ (cafe_found -> d < today -> r = (inl (ValueError PastDate), st))
  /\ (cafe_found -> today <= d -> ~ relations_ok ->
      exists m, r = (inl (ValueError m), st)
                /\ (m = NoTables \/ m = NoSlots \/ m = TablesUnavailable
                    \/ m = SlotsUnavailable))
  /\ (cafe_found -> today <= d -> relations_ok -> seats < g ->
      r = (inl (ValueError (NotEnoughSeats g seats)), st))
  /\ (cafe_found -> today <= d -> relations_ok -> g <= seats -> ~ free ->
      r = (inl (ValueError AlreadyOccupied), st))
  /\ (forall o st', r = (inr o, st') ->
        cafe_found /\ today <= d /\ relations_ok /\ g <= seats /\ free
        /\ row o = new_booking obj_in user_id (next_uuid st)
        /\ bookings st' = bookings st ++ [row o]
        /\ units st'
           = units st
             ++ with_keys
                  (cross_units (Booking.id (row o)) c d
                     (map Table.id (select_tables ts st))
                     (map Slot.id (select_slots ss st)))
                  (next_uuid st + 1))
  /\ (cafe_found -> today <= d -> relations_ok -> g <= seats -> free ->
      mem user_id (users st) = true ->
      (forall u, In u (units st) ->
                 In (ReservationUnit.table_id u) ts ->
                 In (ReservationUnit.slot_id u) ss ->
                 ReservationUnit.booking_date u <> d) ->
      exists o st', r = (inr o, st'))
  /\ (forall e st', r = (inl e, st') -> st' = st)
  /\ (forall m ses',
        create_with_validation today obj_in user_id (open_session st)
        = (inl (ValueError m), ses') ->
        ses' = open_session st).
Proof.
  intros Hwf c d ts ss g r cafe_found relations_ok seats free.
  pose proof (run_create_cases today obj_in user_id st Hwf) as Hcases.
  cbv zeta in Hcases. fold c d ts ss g r seats in Hcases.
  assert (Hrel : relations_error c ts ss st = None <-> relations_ok)
    by apply relations_error_None.
  split.
  { intros Hn.
    destruct Hcases as [[_ R]|[Hcafe _]]; [exact R | contradiction]. }
  split.
  { intros [x [Hx Ex]] Hd.
    destruct Hcases as [[Hno _]|[_ [[_ R]|[Hd' _]]]];
      [exfalso; exact (Hno x Hx Ex) | exact R | lia]. }
  split.
  { intros [x [Hx Ex]] Hd Hnrel.
    destruct Hcases as [[Hno _]|[_ [[Hd' _]|[_ [[m [Hm R]]|[Hok _]]]]]].
    - exfalso; exact (Hno x Hx Ex).
    - lia.
    - exists m. split; [exact R|]. eapply relations_error_values; eassumption.
    - exfalso. apply Hnrel. now apply Hrel. }
  split.
  { intros [x [Hx Ex]] Hd Hok Hg.
    destruct Hcases
      as [[Hno _]|[_ [[Hd' _]|[_ [[m [Hm _]]|[_ [[_ R]|[Hg' _]]]]]]]].
    - exfalso; exact (Hno x Hx Ex).
    - lia.
    - apply Hrel in Hok. congruence.
    - exact R.
    - lia. }
  split.
  { intros [x [Hx Ex]] Hd Hok Hg Hnfree.
    destruct Hcases
      as [[Hno _]|[_ [[Hd' _]|[_ [[m [Hm _]]|[_ [[Hg' _]|[_
            [[_ R]|[Hfree _]]]]]]]]]].
    - exfalso; exact (Hno x Hx Ex).
    - lia.
    - apply Hrel in Hok. congruence.
    - lia.
    - exact R.
    - contradiction. }
  split.
  { intros o st' R.
    destruct Hcases
      as [[_ R']|[Hcafe [[_ R']|[Hd [[m [_ R']]|[Hok [[_ R']|[Hg
            [[_ R']|[Hfree _]]]]]]]]]]; try congruence.
    apply create_success_inv in R.
    destruct R as [_ [_ [_ [_ [_ [_ [-> ->]]]]]]].
    cbn [row load bookings units Booking.id new_booking].
    split; [assumption|]. split; [assumption|].
    split; [now apply Hrel|]. split; [assumption|]. split; [assumption|].
    split; [reflexivity|]. split; reflexivity. }
  split.
  { intros Hcafe Hd Hok Hg Hfree Huser Hnone.
    destruct Hcases
      as [[Hno _]|[_ [[Hd' _]|[_ [[m [Hm _]]|[_ [[Hg' _]|[_
            [[[t [s [Ht [Hs Hc]]]] _]|[_ R]]]]]]]]]].
    - destruct Hcafe as [x [Hx Ex]]. exfalso; exact (Hno x Hx Ex).
    - lia.
    - apply Hrel in Hok. congruence.
    - lia.
    - exfalso. exact (Hfree t s Ht Hs Hc).
    - rewrite R. now apply persist_succeeds. }
  split.
  { intros e st' R. eapply run_create_failure. exact R. }
  intros m ses' R. apply create_failure in R. destruct R as [_ R].
  now apply (R m).
Qed.

Lemma sum_seats_fold_right l :
  sum_seats l = fold_right Z.add 0 (map Table.seat_number l).
Proof.
  unfold sum_seats.
  assert (H : forall acc,
             fold_left (fun a t => a + Table.seat_number t) l acc
             = acc + fold_right Z.add 0 (map Table.seat_number l)).
  { induction l as [|t r IH]; intros acc; cbn [fold_left map fold_right];
      [lia|]. rewrite IH. lia. }
  rewrite H. lia.
Qed.

Lemma seats_Permutation (l l' : list Table.t) :
  Permutation l l' ->
  fold_right Z.add 0 (map Table.seat_number l)
  = fold_right Z.add 0 (map Table.seat_number l').
Proof.
  induction 1 as [|x l l' H IH|x y l|l l' l'' H1 IH1 H2 IH2];
    cbn [map fold_right]; lia.
Qed.

(** The rows of the query are the tables of the database whose id is among
    [tables_ids], each once. *)
Lemma select_tables_Permutation ts st sel :
  distinct (map Table.id (tables st)) = true ->
  NoDup sel ->
  (forall t, In t sel <-> In t (tables st) /\ In (Table.id t) ts) ->
  Permutation (select_tables ts st) sel.
Proof.
  intros Hpk Hnd Hsel. apply NoDup_Permutation.
  - apply NoDup_filter. apply distinct_NoDup in Hpk.
    exact (NoDup_map_inv _ _ Hpk).
  - exact Hnd.
  - intros t. unfold select_tables. rewrite filter_In, mem_In, Hsel.
    tauto.
Qed.

(** C6.  Let [sel] be the tables of the database whose id is among
    [tables_ids], each once.  [validate_tables_capacity] returns [True]
    exactly when [sel] is not empty and the seats of [sel] sum to at least
    [guest_number]; with [sel] empty it returns [False] whatever
    [guest_number] is; and when it returns [False] inside
    [create_with_validation] the request is rejected with the [ValueError]
    that carries the requested guest count and the seat total of [sel]. *)
Theorem capacity_check ts g st sel :
  distinct (map Table.id (tables st)) = true ->
  NoDup sel ->
  (forall t, In t sel <-> In t (tables st) /\ In (Table.id t) ts) ->
  let seats := fold_right Z.add 0 (map Table.seat_number sel) in
  (exists b,
      run (validate_tables_capacity ts g) st = (inr b, st)
      /\ (b = true <-> sel <> [] /\ g <= seats)
      /\ (sel = [] -> b = false))
  /\ (forall today obj_in user_id,
         BookingCreate.tables_id obj_in = ts ->
         BookingCreate.guest_number obj_in = g ->
         wf_store st = true ->
         (exists x, In x (cafes st)
                    /\ Cafe.id x = BookingCreate.cafe_id obj_in) ->
         today <= BookingCreate.booking_date obj_in ->
         ts <> [] -> BookingCreate.slots_id obj_in <> [] ->
         tables_resolve st (BookingCreate.cafe_id obj_in) ts ->
         slots_resolve st (BookingCreate.cafe_id obj_in)
                       (BookingCreate.slots_id obj_in) ->
         run (validate_tables_capacity ts g) st = (inr false, st) ->
         run (create_with_validation today obj_in user_id) st
         = (inl (ValueError (NotEnoughSeats g seats)), st)).
Proof.
  intros Hpk Hnd Hsel seats.
  pose proof (select_tables_Permutation ts st sel Hpk Hnd Hsel) as Hperm.
  assert (Hseats : sum_seats (select_tables ts st) = seats).
  { rewrite sum_seats_fold_right. exact (seats_Permutation _ _ Hperm). }
  assert (Hnil : select_tables ts st = [] <-> sel = []).
  { split; intros E; rewrite E in Hperm.
    - now apply Permutation_nil.
    - now apply Permutation_sym, Permutation_nil in Hperm. }
  split.
  - rewrite run_reads by apply reads_validate_tables_capacity.
    rewrite eval_validate_tables_capacity.
    eexists. split; [reflexivity|].
    rewrite <- Hseats, <- Hnil.
    destruct (select_tables ts st) as [|t l] eqn:E.
    + split; [|reflexivity]. split; [discriminate|]. intros [H _]. congruence.
    + split; [|discriminate]. rewrite Z.leb_le. split.
      * intros H. split; [discriminate | assumption].
      * intros [_ H]. assumption.
  - intros today obj_in user_id Ets Eg Hwf [x [Hx Ex]] Hd Hts Hss Hrt Hrs Hcap.
    rewrite <- Hseats. subst ts g.
    rewrite run_reads in Hcap by apply reads_validate_tables_capacity.
    rewrite eval_validate_tables_capacity in Hcap.
    injection Hcap as Hcap.
    assert (Hrel : relations_error (BookingCreate.cafe_id obj_in)
                     (BookingCreate.tables_id obj_in)
                     (BookingCreate.slots_id obj_in) st = None)
      by (apply relations_error_None; tauto).
    destruct (run_create_cases today obj_in user_id st Hwf)
      as [[Hno _]|[_ [[Hd' _]|[_ [[m [Hm _]]|[_ [[_ R]|[Hg _]]]]]]]].
    + exfalso. exact (Hno x Hx Ex).
    + lia.
    + congruence.
    + exact R.
    + exfalso.
      pose proof (resolved_tables_selected st _ _ Hts Hrt) as Hsel'.
      destruct (select_tables (BookingCreate.tables_id obj_in) st);
        [congruence|].
      apply Z.leb_gt in Hcap. lia.
Qed.

(** C7.  [validate_booking_date] accepts exactly today and later dates.  An
    update of a booking dated before today, or of a booking that is DONE,
    raises a [ValueError] with the session untouched: no attribute is set and
    no unit is deleted or added.  A creation or an update that asks for a
    date before today fails, whatever the other fields are, and leaves the
    session untouched. *)
Theorem frozen_past_and_done today :
  (forall d, validate_booking_date today d = true <-> today <= d)
  /\ (forall db_obj obj_in ses,
         Booking.booking_date (row db_obj) < today ->
         update_with_validation today db_obj obj_in ses
         = (inl (ValueError PastBooking), ses))
  /\ (forall db_obj obj_in ses,
         Booking.status (row db_obj) = DONE ->
         exists m,
           update_with_validation today db_obj obj_in ses
           = (inl (ValueError m), ses)
           /\ (m = PastBooking \/ m = DoneBooking))
  /\ (forall db_obj obj_in ses d,
         BookingUpdate.booking_date obj_in = Provided (Some d) ->
         d < today ->
         exists m,
           update_with_validation today db_obj obj_in ses
           = (inl (ValueError m), ses))
  /\ (forall obj_in user_id ses,
         BookingCreate.booking_date obj_in < today ->
         exists e,
           create_with_validation today obj_in user_id ses = (inl e, ses)
           /\ (e = ValueError CafeNotFound \/ e = ValueError PastDate
               \/ e = MultipleResultsFound)).
Proof.
  split; [intros d; unfold validate_booking_date; apply Z.leb_le|].
  split.
  { intros db_obj obj_in ses Hd. rewrite update_unfold.
    apply Z.ltb_lt in Hd. now rewrite Hd. }
  split.
  { intros db_obj obj_in ses Hs. rewrite update_unfold.
    destruct (Booking.booking_date (row db_obj) <? today).
    - exists PastBooking. split; [reflexivity | now left].
    - rewrite Hs. exists DoneBooking. split; [reflexivity | now right]. }
  split.
  { intros db_obj obj_in ses d Hp Hd. rewrite update_unfold.
    destruct (Booking.booking_date (row db_obj) <? today); [eauto|].
    destruct (status_eqb _ DONE); [eauto|].
    unfold date_guard, validate_booking_date. rewrite Hp.
    apply Z.leb_gt in Hd. rewrite Hd. cbn [negb]. eauto. }
  intros obj_in user_id ses Hd. rewrite create_unfold. cbv zeta.
  destruct (filter _ (cafes (working ses))) as [|c [|c' l]].
  - eexists. split; [reflexivity | tauto].
  - unfold validate_booking_date. apply Z.leb_gt in Hd. rewrite Hd.
    cbn [negb]. eexists. split; [reflexivity | tauto].
  - eexists. split; [reflexivity | tauto].
Qed.

(** ** Materialization *)

Lemma select_tables_length st c ts :
  distinct (map Table.id (tables st)) = true ->
  distinct ts = true ->
  tables_resolve st c ts ->
  length (select_tables ts st) = length ts.
Proof.
  intros Hpk Hts Hres.
  rewrite <- (length_map Table.id (select_tables ts st)).
  apply (distinct_map_filter Table.id (fun t => mem (Table.id t) ts)) in Hpk.
  fold (select_tables ts st) in Hpk.
  apply distinct_NoDup in Hpk, Hts.
  apply Nat.le_antisymm; apply NoDup_incl_length; try assumption.
  - intros x Hx. apply in_map_iff in Hx. destruct Hx as [r [<- Hr]].
    apply filter_In in Hr. now apply mem_In.
  - intros t Ht. destruct (Hres t Ht) as [r [Hr [<- _]]].
    apply in_map. apply filter_In. split; [assumption | now apply mem_In].
Qed.

Lemma select_slots_length st c ss :
  distinct (map Slot.id (slots st)) = true ->
  distinct ss = true ->
  slots_resolve st c ss ->
  length (select_slots ss st) = length ss.
Proof.
  intros Hpk Hss Hres.
  rewrite <- (length_map Slot.id (select_slots ss st)).
  apply (distinct_map_filter Slot.id (fun s => mem (Slot.id s) ss)) in Hpk.
  fold (select_slots ss st) in Hpk.
  apply distinct_NoDup in Hpk, Hss.
  apply Nat.le_antisymm; apply NoDup_incl_length; try assumption.
  - intros x Hx. apply in_map_iff in Hx. destruct Hx as [r [<- Hr]].
    apply filter_In in Hr. now apply mem_In.
  - intros s Hs. destruct (Hres s Hs) as [r [Hr [<- _]]].
    apply in_map. apply filter_In. split; [assumption | now apply mem_In].
Qed.

Lemma selected_table_ids st c ts t :
  tables_resolve st c ts ->
  (In t (map Table.id (select_tables ts st)) <-> In t ts).
Proof.
  intros Hres. split.
  - intros Hx. apply in_map_iff in Hx. destruct Hx as [r [<- Hr]].
    apply filter_In in Hr. now apply mem_In.
  - intros Ht. destruct (Hres t Ht) as [r [Hr [<- _]]].
    apply in_map. apply filter_In. split; [assumption | now apply mem_In].
Qed.

Lemma selected_slot_ids st c ss s :
  slots_resolve st c ss ->
  (In s (map Slot.id (select_slots ss st)) <-> In s ss).
Proof.
  intros Hres. split.
  - intros Hx. apply in_map_iff in Hx. destruct Hx as [r [<- Hr]].
    apply filter_In in Hr. now apply mem_In.
  - intros Hs. destruct (Hres s Hs) as [r [Hr [<- _]]].
    apply in_map. apply filter_In. split; [assumption | now apply mem_In].
Qed.

Lemma selection_supplied_iff obj_in :
  selection_supplied obj_in = true
  <-> value (BookingUpdate.tables_id obj_in) <> None
      \/ value (BookingUpdate.slots_id obj_in) <> None.
Proof.
  unfold selection_supplied.
  destruct (value (BookingUpdate.tables_id obj_in)),
           (value (BookingUpdate.slots_id obj_in)); cbn;
    intuition congruence.
Qed.

Lemma date_guard_None today obj_in :
  BookingUpdate.booking_date obj_in <> Provided None ->
  (forall d, BookingUpdate.booking_date obj_in = Provided (Some d) ->
             today <= d) ->
  date_guard today obj_in = None.
Proof.
  unfold date_guard, validate_booking_date. intros Hn Hd.
  destruct (BookingUpdate.booking_date obj_in) as [|[d|]];
    [reflexivity | | congruence].
  specialize (Hd d eq_refl). apply Z.leb_le in Hd. now rewrite Hd.
Qed.

Lemma patched_targets db_row obj_in updated :
  patched_row db_row obj_in = Some updated ->
  target_cafe_id obj_in updated
  = or_else (value (BookingUpdate.cafe_id obj_in)) (Booking.cafe_id db_row)
  /\ target_booking_date obj_in updated
     = or_else (value (BookingUpdate.booking_date obj_in))
               (Booking.booking_date db_row).
Proof.
  unfold patched_row, target_cafe_id, target_booking_date.
  destruct (BookingUpdate.cafe_id obj_in) as [|[c|]];
    destruct (BookingUpdate.booking_date obj_in) as [|[d|]];
    destruct (BookingUpdate.guest_number obj_in) as [|[g|]];
    destruct (BookingUpdate.status obj_in) as [|[s|]];
    destruct (BookingUpdate.is_active obj_in) as [|[a|]];
    cbn; try discriminate; intros [= <-]; cbn; tauto.
Qed.

Lemma patched_row_keeps db_row obj_in updated :
  patched_row db_row obj_in = Some updated ->
  Booking.id updated = Booking.id db_row
  /\ Booking.user_id updated = Booking.user_id db_row
  /\ target_cafe_id obj_in updated = Booking.cafe_id updated
  /\ target_booking_date obj_in updated = Booking.booking_date updated
  /\ assign (BookingUpdate.cafe_id obj_in) (Booking.cafe_id db_row)
     = Some (Booking.cafe_id updated)
  /\ assign (BookingUpdate.booking_date obj_in) (Booking.booking_date db_row)
     = Some (Booking.booking_date updated)
  /\ assign (BookingUpdate.guest_number obj_in) (Booking.guest_number db_row)
     = Some (Booking.guest_number updated)
  /\ assign (BookingUpdate.status obj_in) (Booking.status db_row)
     = Some (Booking.status updated)
  /\ assign (BookingUpdate.is_active obj_in) (Booking.is_active db_row)
     = Some (Booking.is_active updated)
  /\ Booking.note updated
     = assign_nullable (BookingUpdate.note obj_in) (Booking.note db_row).
Proof.
  unfold patched_row, target_cafe_id, target_booking_date.
  destruct (BookingUpdate.cafe_id obj_in) as [|[c|]];
    destruct (BookingUpdate.booking_date obj_in) as [|[d|]];
    destruct (BookingUpdate.guest_number obj_in) as [|[g|]];
    destruct (BookingUpdate.status obj_in) as [|[s|]];
    destruct (BookingUpdate.is_active obj_in) as [|[a|]];
    cbn; try discriminate; intros [= <-]; cbn; tauto.
Qed.

(** What a successful update of the selection has written. *)
Lemma update_selection_inv today db_obj obj_in st o st' :
  selection_supplied obj_in = true ->
  run (update_with_validation today db_obj obj_in) st = (inr o, st') ->
  exists updated,
    patched_row (row db_obj) obj_in = Some updated
    /\ row o = updated
    /\ relations_error (target_cafe_id obj_in updated)
                       (target_tables_ids db_obj obj_in)
                       (target_slots_ids db_obj obj_in) st = None
    /\ bookings st'
       = map (fun b => if Booking.id b =? Booking.id updated
                       then updated else b) (bookings st)
    /\ units st'
       = filter (fun u => negb (ReservationUnit.booking_id u
                                =? Booking.id (row db_obj))) (units st)
         ++ with_keys (target_units db_obj obj_in updated) (next_uuid st).
Proof.
  intros Hsel. unfold run. rewrite update_unfold. cbv zeta. rewrite Hsel.
  change (working (open_session st)) with st.
  change (pending (open_session st)) with (@nil (UUID -> ReservationUnit.t)).
  cbn [app]. intros H.
  destruct (Booking.booking_date (row db_obj) <? today); [discriminate|].
  destruct (status_eqb _ DONE); [discriminate|].
  destruct (date_guard today obj_in); [discriminate|].
  destruct (patched_row (row db_obj) obj_in) as [updated|]; [|discriminate].
  destruct (negb (cafe_known _ _ _)); [discriminate|].
  destruct (relations_error _ _ _ st) eqn:Erel; [discriminate|].
  destruct (insert_units _ _) as [e|st3] eqn:Eins; [discriminate|].
  cbn [close_session committed] in H. injection H as <- <-.
  apply insert_units_inr in Eins. subst st3.
  exists updated. split; [reflexivity|]. split; [reflexivity|].
  split; [exact Erel|]. split; reflexivity.
Qed.

Lemma patched_row_Some db_row obj_in :
  no_null_column obj_in ->
  exists updated, patched_row db_row obj_in = Some updated.
Proof.
  unfold no_null_column, patched_row. intros [Hc [Hg [Hs [Ha Hd]]]].
  destruct (BookingUpdate.cafe_id obj_in) as [|[c|]]; try congruence;
    destruct (BookingUpdate.booking_date obj_in) as [|[d|]]; try congruence;
    destruct (BookingUpdate.guest_number obj_in) as [|[g|]]; try congruence;
    destruct (BookingUpdate.status obj_in) as [|[s|]]; try congruence;
    destruct (BookingUpdate.is_active obj_in) as [|[a|]]; try congruence;
    cbn; eauto.
Qed.

Lemma cafe_known_true db_row obj_in updated st :
  patched_row db_row obj_in = Some updated ->
  cafe_reference_ok obj_in st ->
  cafe_known obj_in updated st = true.
Proof.
  intros Hp Hok. apply patched_row_keeps in Hp.
  destruct Hp as [_ [_ [_ [_ [Hc _]]]]].
  unfold cafe_known. destruct (BookingUpdate.cafe_id obj_in) as [|[c|]] eqn:E;
    [reflexivity | | discriminate].
  cbn in Hc. injection Hc as <-.
  destruct (Hok _ E) as [x [Hx Ex]].
  apply existsb_exists. exists x. split; [assumption | now apply Z.eqb_eq].
Qed.

(** An update of the selection returns when the guards pass, the targets
    resolve without repetition and no unit of another booking is on a target
    atom. *)
Lemma update_selection_succeeds today db_obj obj_in st updated :
  uq_atoms (units st) = true ->
  selection_supplied obj_in = true ->
  today <= Booking.booking_date (row db_obj) ->
  Booking.status (row db_obj) <> DONE ->
  date_guard today obj_in = None ->
  patched_row (row db_obj) obj_in = Some updated ->
  cafe_known obj_in updated st = true ->
  relations_error (target_cafe_id obj_in updated)
                  (target_tables_ids db_obj obj_in)
                  (target_slots_ids db_obj obj_in) st = None ->
  NoDup (target_tables_ids db_obj obj_in) ->
  NoDup (target_slots_ids db_obj obj_in) ->
  (forall u, In u (units st) ->
             ReservationUnit.booking_id u <> Booking.id (row db_obj) ->
             In (ReservationUnit.table_id u) (target_tables_ids db_obj obj_in) ->
             In (ReservationUnit.slot_id u) (target_slots_ids db_obj obj_in) ->
             ReservationUnit.booking_date u
             <> target_booking_date obj_in updated) ->
  exists o st',
    run (update_with_validation today db_obj obj_in) st = (inr o, st').
Proof.
  intros Huq Hsel Hpast Hdone Hguard Hp Hcafe Hrel Hdt Hds Hfree.
  unfold run. rewrite update_unfold. cbv zeta.
  change (working (open_session st)) with st.
  change (pending (open_session st)) with (@nil (UUID -> ReservationUnit.t)).
  apply Z.ltb_ge in Hpast. rewrite Hpast.
  destruct (status_eqb _ DONE) eqn:E;
    [apply status_eqb_eq in E; contradiction|].
  rewrite Hguard, Hp, Hcafe, Hsel, Hrel. cbn [negb app].
  match goal with
  | |- context [insert_units ?rows ?s2] =>
      destruct (insert_units_ok rows s2) as [st3 Eins]
  end.
  - unfold delete_units, replace_booking.
    cbn [units next_uuid set_units set_bookings]. apply uq_atoms_app.
    split; [now apply uq_atoms_filter|]. split.
    + apply cross_units_uq; now apply distinct_NoDup.
    + intros u v Hu Hv. apply filter_In in Hu. destruct Hu as [Hu Hb].
      apply negb_true_iff, Z.eqb_neq in Hb.
      apply with_keys_In in Hv. destruct Hv as [r [k [Hr [_ ->]]]].
      apply cross_units_In in Hr. destruct Hr as [t [s [Ht [Hs ->]]]].
      destruct (same_atom u _) eqn:Ea; [|reflexivity].
      apply same_atom_true in Ea. cbn in Ea. destruct Ea as [E1 [E2 E3]].
      exfalso. apply (Hfree u Hu Hb); congruence.
  - rewrite Eins. eauto.
Qed.

(** C5.  A successful creation appends to [reservationunit] exactly
    |tables| x |slots| rows, one for each requested (table, slot) pair and
    no two on the same pair, each with the id, the cafe and the date of the
    new booking.  A successful update that supplies [tables_id] or
    [slots_id] deletes every unit of the booking and inserts exactly
    |target tables| x |target slots| rows with fresh keys, one for each
    target pair, with the cafe and the date of the updated booking; no unit
    the booking had before is in the table afterwards.  The targets are the
    supplied list when it is not empty and the booking's current tables or
    slots otherwise.  Such an update does return, with these units written,
    when the booking is neither past nor DONE, a supplied date is not past,
    no supplied column is null, a supplied cafe exists, the targets resolve
    to active rows of the cafe without repetition and no unit of another
    booking is on a target pair on the booking's date. *)
Theorem materialization today st :
  wf_store st = true ->
  (forall obj_in user_id o st',
      BookingCreate_valid obj_in = true ->
      run (create_with_validation today obj_in user_id) st = (inr o, st') ->
      exists new,
        units st' = units st ++ new
        /\ length new = (length (BookingCreate.tables_id obj_in)
                         * length (BookingCreate.slots_id obj_in))%nat
        /\ (forall u, In u new ->
              ReservationUnit.booking_id u = Booking.id (row o)
              /\ ReservationUnit.cafe_id u = Booking.cafe_id (row o)
              /\ ReservationUnit.booking_date u = Booking.booking_date (row o)
              /\ In (ReservationUnit.table_id u) (BookingCreate.tables_id obj_in)
              /\ In (ReservationUnit.slot_id u) (BookingCreate.slots_id obj_in))
        /\ (forall t s,
              In t (BookingCreate.tables_id obj_in) ->
              In s (BookingCreate.slots_id obj_in) ->
              exists u, In u new /\ ReservationUnit.table_id u = t
                        /\ ReservationUnit.slot_id u = s)
        /\ uq_atoms new = true)
  /\ (forall db_obj obj_in o st',
      value (BookingUpdate.tables_id obj_in) <> None
      \/ value (BookingUpdate.slots_id obj_in) <> None ->
      run (update_with_validation today db_obj obj_in) st = (inr o, st') ->
      exists new,
        units st'
        = filter (fun u => negb (ReservationUnit.booking_id u
                                 =? Booking.id (row db_obj))) (units st)
          ++ new
        /\ length new = (length (target_tables_ids db_obj obj_in)
                         * length (target_slots_ids db_obj obj_in))%nat
        /\ (forall u, In u new ->
              ReservationUnit.booking_id u = Booking.id (row db_obj)
              /\ ReservationUnit.cafe_id u = Booking.cafe_id (row o)
              /\ ReservationUnit.booking_date u = Booking.booking_date (row o)
              /\ In (ReservationUnit.table_id u)
                    (target_tables_ids db_obj obj_in)
              /\ In (ReservationUnit.slot_id u)
                    (target_slots_ids db_obj obj_in)
              /\ next_uuid st <= ReservationUnit.id u)
        /\ (forall t s,
              In t (target_tables_ids db_obj obj_in) ->
              In s (target_slots_ids db_obj obj_in) ->
              exists u, In u new /\ ReservationUnit.table_id u = t
                        /\ ReservationUnit.slot_id u = s)
        /\ (forall u, In u (units st) ->
              ReservationUnit.booking_id u = Booking.id (row db_obj) ->
              ~ In u (units st')))
  /\ (forall db_obj obj_in ts ss,
      value (BookingUpdate.tables_id obj_in) <> None
      \/ value (BookingUpdate.slots_id obj_in) <> None ->
      ts = match value (BookingUpdate.tables_id obj_in) with
           | Some (x :: r) => x :: r
           | _ => map Table.id (obj_tables db_obj)
           end ->
      ss = match value (BookingUpdate.slots_id obj_in) with
           | Some (x :: r) => x :: r
           | _ => map Slot.id (obj_slots db_obj)
           end ->
      let c := match value (BookingUpdate.cafe_id obj_in) with
               | Some x => x
               | None => Booking.cafe_id (row db_obj)
               end in
      let d := match value (BookingUpdate.booking_date obj_in) with
               | Some x => x
               | None => Booking.booking_date (row db_obj)
               end in
      today <= Booking.booking_date (row db_obj) ->
      Booking.status (row db_obj) <> DONE ->
      (forall d', BookingUpdate.booking_date obj_in = Provided (Some d') ->
                  today <= d') ->
      no_null_column obj_in ->
      cafe_reference_ok obj_in st ->
      ts <> [] -> ss <> [] -> NoDup ts -> NoDup ss ->
      tables_resolve st c ts -> slots_resolve st c ss ->
      (forall u, In u (units st) ->
                 ReservationUnit.booking_id u <> Booking.id (row db_obj) ->
                 In (ReservationUnit.table_id u) ts ->
                 In (ReservationUnit.slot_id u) ss ->
                 ReservationUnit.booking_date u <> d) ->
      exists o st' new,
        run (update_with_validation today db_obj obj_in) st = (inr o, st')
        /\ units st'
           = filter (fun u => negb (ReservationUnit.booking_id u
                                    =? Booking.id (row db_obj))) (units st)
             ++ new
        /\ length new = (length ts * length ss)%nat
        /\ (forall t s, In t ts -> In s ss ->
              exists u, In u new
                        /\ ReservationUnit.booking_id u
                           = Booking.id (row db_obj)
                        /\ ReservationUnit.cafe_id u = c
                        /\ ReservationUnit.table_id u = t
                        /\ ReservationUnit.slot_id u = s
                        /\ ReservationUnit.booking_date u = d)).
Proof.
  intros Hwf. pose proof (wf_store_parts st Hwf)
    as [_ [Htpk [Hspk [_ [_ [Huq [_ Hfresh]]]]]]].
  split; [|split]; cycle 2.
  { intros db_obj obj_in ts ss Hsel Ets Ess c d Hpast Hdone Hdate Hnull Hcafe
           Hts Hss Hdt Hds Hrt Hrs Hfree.
    apply selection_supplied_iff in Hsel.
    assert (Et : ts = target_tables_ids db_obj obj_in)
      by (rewrite Ets; reflexivity).
    assert (Es : ss = target_slots_ids db_obj obj_in)
      by (rewrite Ess; reflexivity).
    destruct (patched_row_Some (row db_obj) obj_in Hnull) as [updated Hp].
    destruct (patched_targets _ _ _ Hp) as [Ec Ed].
    assert (Ec' : target_cafe_id obj_in updated = c)
      by (rewrite Ec; reflexivity).
    assert (Ed' : target_booking_date obj_in updated = d)
      by (rewrite Ed; reflexivity).
    clearbody c d. clear Ets Ess Ec Ed. subst ts ss.
    destruct (update_selection_succeeds today db_obj obj_in st updated)
      as [o [st' R]]; try assumption.
    - apply date_guard_None; [apply Hnull | exact Hdate].
    - exact (cafe_known_true _ _ _ _ Hp Hcafe).
    - rewrite Ec'. apply relations_error_None. tauto.
    - now rewrite Ed'.
    - exists o, st'.
      pose proof (update_selection_inv _ _ _ _ _ _ Hsel R)
        as [updated' [Hp' [_ [_ [_ Hu]]]]].
      assert (updated' = updated) by congruence. subst updated'.
      eexists. split; [exact R|]. split; [exact Hu|]. split.
      + unfold target_units.
        now rewrite with_keys_length, cross_units_length.
      + intros t s Ht Hs.
        destruct (In_with_keys (target_units db_obj obj_in updated)
                    (next_uuid st)
                    (fun k => ReservationUnit.mk k (Booking.id (row db_obj))
                                (target_cafe_id obj_in updated) t s
                                (target_booking_date obj_in updated)))
          as [k Hk].
        { apply cross_units_In. now exists t, s. }
        eexists. split; [exact Hk|]. cbn. now rewrite Ec', Ed'. }
  - intros obj_in user_id o st' Hvalid H.
    unfold BookingCreate_valid in Hvalid. rewrite !andb_true_iff in Hvalid.
    destruct Hvalid as [[_ Hdts] Hdss].
    apply create_success_inv in H.
    destruct H as [_ [_ [Hrel [_ [_ [_ [-> ->]]]]]]].
    apply relations_error_None in Hrel.
    destruct Hrel as [_ [_ [Hrt Hrs]]].
    eexists. split; [reflexivity|]. split; [|split; [|split]].
    + rewrite with_keys_length, cross_units_length, !length_map.
      now rewrite (select_tables_length st _ _ Htpk Hdts Hrt),
                  (select_slots_length st _ _ Hspk Hdss Hrs).
    + intros u Hu. apply with_keys_In in Hu.
      destruct Hu as [r [k [Hr [_ ->]]]].
      apply cross_units_In in Hr. destruct Hr as [t [s [Ht [Hs ->]]]].
      cbn. repeat split.
      * now apply (selected_table_ids st _ _ t Hrt).
      * now apply (selected_slot_ids st _ _ s Hrs).
    + intros t s Ht Hs.
      apply (selected_table_ids st _ _ t Hrt) in Ht.
      apply (selected_slot_ids st _ _ s Hrs) in Hs.
      match goal with
      | |- context [with_keys ?rows ?pk] =>
          destruct (In_with_keys rows pk
                      (fun k => ReservationUnit.mk k (next_uuid st)
                                  (BookingCreate.cafe_id obj_in) t s
                                  (BookingCreate.booking_date obj_in)))
            as [k Hk]
      end.
      { apply cross_units_In. now exists t, s. }
      eexists. split; [exact Hk|]. split; reflexivity.
    + apply cross_units_uq; now apply distinct_map_filter.
  - intros db_obj obj_in o st' Hsel H.
    apply selection_supplied_iff in Hsel.
    apply update_selection_inv in H; [|assumption].
    destruct H as [updated [Hp [Ho [_ [_ Hu]]]]].
    apply patched_row_keeps in Hp.
    destruct Hp as [Hid [_ [Hc [Hd _]]]].
    eexists. split; [exact Hu|]. split; [|split; [|split]].
    + unfold target_units. now rewrite with_keys_length, cross_units_length.
    + intros u Hin. apply with_keys_In in Hin.
      destruct Hin as [r [k [Hr [Hk ->]]]].
      apply cross_units_In in Hr. destruct Hr as [t [s [Ht [Hs ->]]]].
      cbn. rewrite Ho, Hc, Hd. repeat split; assumption.
    + intros t s Ht Hs.
      destruct (In_with_keys (target_units db_obj obj_in updated)
                  (next_uuid st)
                  (fun k => ReservationUnit.mk k (Booking.id (row db_obj))
                              (target_cafe_id obj_in updated) t s
                              (target_booking_date obj_in updated)))
        as [k Hk].
      { apply cross_units_In. now exists t, s. }
      eexists. split; [exact Hk|]. split; reflexivity.
    + intros u Hin Hb Hin'. rewrite Hu in Hin'.
      apply in_app_or in Hin'. destruct Hin' as [Hf|Hn].
      * apply filter_In in Hf. destruct Hf as [_ Hf].
        rewrite Hb, Z.eqb_refl in Hf. discriminate.
      * apply with_keys_In in Hn. destruct Hn as [r [k [Hr [Hk ->]]]].
        apply cross_units_In in Hr. destruct Hr as [t [s [_ [_ ->]]]].
        rewrite forallb_forall in Hfresh. apply Hfresh in Hin.
        apply Z.ltb_lt in Hin. cbn in Hin. lia.
Qed.

(** ** Updates that leave the selection alone *)

Lemma run_update_no_selection today db_obj obj_in st :
  selection_supplied obj_in = false ->
  run (update_with_validation today db_obj obj_in) st
  = if Booking.booking_date (row db_obj) <? today
    then (inl (ValueError PastBooking), st)
    else if status_eqb (Booking.status (row db_obj)) DONE
    then (inl (ValueError DoneBooking), st)
    else
    match date_guard today obj_in with
    | Some e => (inl e, st)
    | None =>
    match patched_row (row db_obj) obj_in with
    | None => (inl (IntegrityError not_null), st)
    | Some updated =>
      if negb (cafe_known obj_in updated st)
      then (inl (IntegrityError fk_booking_cafe), st)
      else (inr (load (replace_booking updated st) updated),
            replace_booking updated st)
    end
    end.
Proof.
  intros Hsel. unfold run. rewrite update_unfold. cbv zeta. rewrite Hsel.
  change (working (open_session st)) with st.
  change (pending (open_session st)) with (@nil (UUID -> ReservationUnit.t)).
  destruct (Booking.booking_date (row db_obj) <? today); [reflexivity|].
  destruct (status_eqb _ DONE); [reflexivity|].
  destruct (date_guard today obj_in); [reflexivity|].
  destruct (patched_row (row db_obj) obj_in) as [updated|]; [|reflexivity].
  destruct (negb (cafe_known _ _ _)); reflexivity.
Qed.

Lemma no_selection obj_in :
  value (BookingUpdate.tables_id obj_in) = None ->
  value (BookingUpdate.slots_id obj_in) = None ->
  selection_supplied obj_in = false.
Proof. unfold selection_supplied. now intros -> ->. Qed.

Lemma replace_booking_In updated st b :
  In b (bookings st) -> Booking.id b = Booking.id updated ->
  In updated (bookings (replace_booking updated st)).
Proof.
  intros Hb E. cbn. apply in_map_iff. exists b. split; [|assumption].
  apply Z.eqb_eq in E. now rewrite E.
Qed.

(** C8.  An update that supplies none of [tables_id], [slots_id] and
    [booking_date] leaves the table of reservation units exactly as it was,
    whatever its outcome; when it returns, the booking row carries the
    supplied [guest_number], [note], [status] and [is_active] and keeps its
    date; and it returns whenever the booking is neither past nor DONE, no
    supplied column is null and a supplied cafe exists. *)
Theorem scalar_update_frame today db_obj obj_in st :
  value (BookingUpdate.tables_id obj_in) = None ->
  value (BookingUpdate.slots_id obj_in) = None ->
  BookingUpdate.booking_date obj_in = Unset ->
  let r := run (update_with_validation today db_obj obj_in) st in
  units (snd r) = units st
  /\ (forall o st', r = (inr o, st') ->
        units st' = units st
        /\ (forall g, BookingUpdate.guest_number obj_in = Provided (Some g) ->
                      Booking.guest_number (row o) = g)
        /\ (forall n, BookingUpdate.note obj_in = Provided n ->
                      Booking.note (row o) = n)
        /\ (forall s, BookingUpdate.status obj_in = Provided (Some s) ->
                      Booking.status (row o) = s)
        /\ (forall a, BookingUpdate.is_active obj_in = Provided (Some a) ->
                      Booking.is_active (row o) = a)
        /\ (BookingUpdate.guest_number obj_in = Unset ->
            Booking.guest_number (row o) = Booking.guest_number (row db_obj))
        /\ (BookingUpdate.note obj_in = Unset ->
            Booking.note (row o) = Booking.note (row db_obj))
        /\ (BookingUpdate.status obj_in = Unset ->
            Booking.status (row o) = Booking.status (row db_obj))
        /\ (BookingUpdate.is_active obj_in = Unset ->
            Booking.is_active (row o) = Booking.is_active (row db_obj))
        /\ Booking.booking_date (row o) = Booking.booking_date (row db_obj)
        /\ Booking.id (row o) = Booking.id (row db_obj)
        /\ bookings st'
           = map (fun b => if Booking.id b =? Booking.id (row db_obj)
                           then row o else b) (bookings st)
        /\ (In (row db_obj) (bookings st) -> In (row o) (bookings st')))
  /\ (today <= Booking.booking_date (row db_obj) ->
      Booking.status (row db_obj) <> DONE ->
      no_null_column obj_in ->
      cafe_reference_ok obj_in st ->
      exists o st', r = (inr o, st')).
Proof.
  intros Ht Hs Hd r. subst r.
  rewrite (run_update_no_selection today db_obj obj_in st
             (no_selection obj_in Ht Hs)).
  unfold date_guard. rewrite Hd.
  split; [|split].
  - destruct (Booking.booking_date (row db_obj) <? today); [reflexivity|].
    destruct (status_eqb _ DONE); [reflexivity|].
    destruct (patched_row (row db_obj) obj_in) as [updated|];
      [|reflexivity].
    destruct (negb (cafe_known _ _ _)); reflexivity.
  - intros o st' H.
    destruct (Booking.booking_date (row db_obj) <? today); [discriminate|].
    destruct (status_eqb _ DONE); [discriminate|].
    destruct (patched_row (row db_obj) obj_in) as [updated|] eqn:Hp;
      [|discriminate].
    destruct (negb (cafe_known _ _ _)); [discriminate|].
    injection H as <- <-.
    pose proof (patched_row_keeps _ _ _ Hp)
      as [Hid [_ [_ [_ [_ [Hdate [Hg [Hst [Ha Hn]]]]]]]]].
    rewrite Hd in Hdate. cbn in Hdate. injection Hdate as Hdate.
    cbn [row load units replace_booking set_bookings bookings].
    split; [reflexivity|].
    split; [intros g E; rewrite E in Hg; cbn in Hg; congruence|].
    split; [intros n E; rewrite E in Hn; exact Hn|].
    split; [intros s E; rewrite E in Hst; cbn in Hst; congruence|].
    split; [intros a E; rewrite E in Ha; cbn in Ha; congruence|].
    split; [intros E; rewrite E in Hg; cbn in Hg; congruence|].
    split; [intros E; rewrite E in Hn; exact Hn|].
    split; [intros E; rewrite E in Hst; cbn in Hst; congruence|].
    split; [intros E; rewrite E in Ha; cbn in Ha; congruence|].
    split; [now symmetry|].
    split; [exact Hid|]. split; [now rewrite Hid|].
    intros Hin. apply in_map_iff. exists (row db_obj).
    split; [|assumption]. now rewrite Hid, Z.eqb_refl.
  - intros Hpast Hdone Hnull Hcafe.
    apply Z.ltb_ge in Hpast. rewrite Hpast.
    destruct (status_eqb _ DONE) eqn:E;
      [apply status_eqb_eq in E; contradiction|].
    destruct (patched_row_Some (row db_obj) obj_in Hnull) as [updated Hp].
    rewrite Hp, (cafe_known_true _ _ _ _ Hp Hcafe). cbn [negb]. eauto.
Qed.

(** C10.  An update that supplies a date, today or later, and neither
    [tables_id] nor [slots_id], writes that date to the booking row and
    leaves every reservation unit as it was.  When the units of the booking
    were on the booking's date and the supplied date is another one, they
    are all on the old date afterwards, none on the date the booking now
    has.  Such an update returns whenever the booking is neither past nor
    DONE, no supplied column is null and a supplied cafe exists. *)
Theorem date_only_update_desynchronizes today db_obj obj_in st d :
  value (BookingUpdate.tables_id obj_in) = None ->
  value (BookingUpdate.slots_id obj_in) = None ->
  BookingUpdate.booking_date obj_in = Provided (Some d) ->
  today <= d ->
  let r := run (update_with_validation today db_obj obj_in) st in
  (forall o st', r = (inr o, st') ->
      Booking.id (row o) = Booking.id (row db_obj)
      /\ Booking.booking_date (row o) = d
      /\ (In (row db_obj) (bookings st) -> In (row o) (bookings st'))
      /\ units st' = units st
      /\ (d <> Booking.booking_date (row db_obj) ->
          (forall u, In u (units st) ->
                     ReservationUnit.booking_id u = Booking.id (row db_obj) ->
                     ReservationUnit.booking_date u
                     = Booking.booking_date (row db_obj)) ->
          forall u, In u (units st') ->
                    ReservationUnit.booking_id u = Booking.id (row o) ->
                    ReservationUnit.booking_date u
                    = Booking.booking_date (row db_obj)
                    /\ ReservationUnit.booking_date u
                       <> Booking.booking_date (row o)))
  /\ (today <= Booking.booking_date (row db_obj) ->
      Booking.status (row db_obj) <> DONE ->
      no_null_column obj_in ->
      cafe_reference_ok obj_in st ->
      exists o st', r = (inr o, st')).
Proof.
  intros Ht Hs Hd Htoday r. subst r.
  rewrite (run_update_no_selection today db_obj obj_in st
             (no_selection obj_in Ht Hs)).
  unfold date_guard, validate_booking_date. rewrite Hd.
  apply Z.leb_le in Htoday. rewrite Htoday. cbn [negb].
  split.
  - intros o st' H.
    destruct (Booking.booking_date (row db_obj) <? today); [discriminate|].
    destruct (status_eqb _ DONE); [discriminate|].
    destruct (patched_row (row db_obj) obj_in) as [updated|] eqn:Hp;
      [|discriminate].
    destruct (negb (cafe_known _ _ _)); [discriminate|].
    injection H as <- <-.
    pose proof (patched_row_keeps _ _ _ Hp)
      as [Hid [_ [_ [_ [_ [Hdate _]]]]]].
    rewrite Hd in Hdate. cbn in Hdate. injection Hdate as Hdate.
    cbn [row load units replace_booking set_bookings bookings].
    split; [exact Hid|]. split; [now symmetry|]. split; [|split].
    + intros Hin. apply in_map_iff. exists (row db_obj).
      split; [|assumption]. now rewrite Hid, Z.eqb_refl.
    + reflexivity.
    + intros Hnew Hsync u Hu Hb. rewrite Hid in Hb. rewrite (Hsync u Hu Hb).
      split; [reflexivity|]. rewrite <- Hdate. congruence.
  - intros Hpast Hdone Hnull Hcafe.
    apply Z.ltb_ge in Hpast. rewrite Hpast.
    destruct (status_eqb _ DONE) eqn:E;
      [apply status_eqb_eq in E; contradiction|].
    destruct (patched_row_Some (row db_obj) obj_in Hnull) as [updated Hp].
    rewrite Hp, (cafe_known_true _ _ _ _ Hp Hcafe). cbn [negb]. eauto.
Qed.

(** C10, as it was stated, fails where the units of the booking are not on
    the booking's date before the call: booking 1000, postponed to day 60
    with its unit left on day 50, is moved back to day 50 by a date-only
    update; afterwards the booking and its unit are on the same day. *)
Lemma date_only_update_counterexample :
  reachable ex_today ex_empty ex_postponed
  /\ value (BookingUpdate.tables_id ex_back) = None
  /\ value (BookingUpdate.slots_id ex_back) = None
  /\ BookingUpdate.booking_date ex_back = Provided (Some 50)
  /\ ex_today <= 50
  /\ 50 <> Booking.booking_date ex_b1_postponed
  /\ run (get_with_relations 1000) ex_postponed
     = (inr (Some (load ex_postponed ex_b1_postponed)), ex_postponed)
  /\ run (update_with_validation ex_today
            (load ex_postponed ex_b1_postponed) ex_back) ex_postponed
     = (inr (load ex_booked ex_b1), ex_booked)
  /\ ~ (forall u, In u (units ex_booked) ->
                  ReservationUnit.booking_id u = Booking.id ex_b1 ->
                  ReservationUnit.booking_date u
                  <> Booking.booking_date ex_b1).
Proof.
  split.
  { eapply reach_step.
    - eapply reach_step.
      + apply reach_refl.
      + apply (step_create ex_today ex_request 1 ex_empty
                 (inr (load ex_booked ex_b1)) ex_booked).
        reflexivity.
    - apply (step_update ex_today 1000 (load ex_booked ex_b1) ex_postpone
               ex_booked (inr (load ex_postponed ex_b1_postponed))
               ex_postponed); reflexivity. }
  split; [reflexivity|]. split; [reflexivity|]. split; [reflexivity|].
  split; [unfold ex_today; lia|]. split; [cbn; lia|].
  split; [reflexivity|]. split; [reflexivity|].
  intros H. apply (H ex_u1); [now left | reflexivity | reflexivity].
Qed.

(** ** Units that are in the way *)

(** A unit on a requested atom, whatever the state of its booking, keeps a
    creation from returning. *)
Lemma held_atom_blocks_creation today obj_in user_id st u :
  uq_atoms (units st) = true ->
  In u (units st) ->
  In (ReservationUnit.table_id u) (BookingCreate.tables_id obj_in) ->
  In (ReservationUnit.slot_id u) (BookingCreate.slots_id obj_in) ->
  ReservationUnit.booking_date u = BookingCreate.booking_date obj_in ->
  forall o st',
    run (create_with_validation today obj_in user_id) st <> (inr o, st').
Proof.
  intros Huq Hu Ht Hs Hd o st' H.
  pose proof (create_keeps_uq _ _ _ _ _ _ Huq H) as Huq'.
  apply create_success_inv in H.
  destruct H as [_ [_ [Hrel [_ [_ [_ [-> _]]]]]]].
  apply relations_error_None in Hrel. destruct Hrel as [_ [_ [Hrt Hrs]]].
  cbn [units] in Huq'. apply uq_atoms_app in Huq'.
  destruct Huq' as [_ [_ Hx]].
  apply (selected_table_ids st _ _ _ Hrt) in Ht.
  apply (selected_slot_ids st _ _ _ Hrs) in Hs.
  match type of Hx with
  | context [with_keys ?rows ?pk] =>
      destruct (In_with_keys rows pk
                  (fun k => ReservationUnit.mk k (next_uuid st)
                              (BookingCreate.cafe_id obj_in)
                              (ReservationUnit.table_id u)
                              (ReservationUnit.slot_id u)
                              (BookingCreate.booking_date obj_in)))
        as [k Hk]
  end.
  { apply cross_units_In. eauto. }
  specialize (Hx u _ Hu Hk).
  unfold same_atom in Hx. cbn in Hx. rewrite Hd, !Z.eqb_refl in Hx.
  discriminate.
Qed.

(** The same for an update of the selection: the checks pass and the flush
    fails on [uq_reservation_atom]. *)
Lemma held_atom_blocks_update today db_obj obj_in st updated u :
  today <= Booking.booking_date (row db_obj) ->
  Booking.status (row db_obj) <> DONE ->
  date_guard today obj_in = None ->
  patched_row (row db_obj) obj_in = Some updated ->
  cafe_known obj_in updated st = true ->
  selection_supplied obj_in = true ->
  relations_error (target_cafe_id obj_in updated)
                  (target_tables_ids db_obj obj_in)
                  (target_slots_ids db_obj obj_in) st = None ->
  In u (units st) ->
  ReservationUnit.booking_id u <> Booking.id (row db_obj) ->
  In (ReservationUnit.table_id u) (target_tables_ids db_obj obj_in) ->
  In (ReservationUnit.slot_id u) (target_slots_ids db_obj obj_in) ->
  ReservationUnit.booking_date u = target_booking_date obj_in updated ->
  run (update_with_validation today db_obj obj_in) st
  = (inl (IntegrityError uq_reservation_atom), st).
Proof.
  intros Hpast Hdone Hguard Hp Hcafe Hsel Hrel Hu Hother Ht Hs Hd.
  unfold run. rewrite update_unfold. cbv zeta.
  change (working (open_session st)) with st.
  change (pending (open_session st)) with (@nil (UUID -> ReservationUnit.t)).
  apply Z.ltb_ge in Hpast. rewrite Hpast.
  destruct (status_eqb _ DONE) eqn:E;
    [apply status_eqb_eq in E; contradiction|].
  rewrite Hguard, Hp, Hcafe, Hsel, Hrel. cbn [negb app].
  rewrite (insert_units_blocked _ _
             (fun k => ReservationUnit.mk k (Booking.id (row db_obj))
                         (target_cafe_id obj_in updated)
                         (ReservationUnit.table_id u)
                         (ReservationUnit.slot_id u)
                         (target_booking_date obj_in updated)) u).
  - reflexivity.
  - apply cross_units_In. eauto.
  - cbn. apply filter_In. split; [assumption|].
    apply negb_true_iff, Z.eqb_neq. assumption.
  - intros pk. unfold same_atom. cbn. now rewrite Hd, !Z.eqb_refl.
Qed.

Lemma update_value_errors today db_obj obj_in ses m ses' :
  update_with_validation today db_obj obj_in ses
  = (inl (ValueError m), ses') ->
  m = PastBooking \/ m = DoneBooking \/ m = PastDate
  \/ m = NoTables \/ m = NoSlots \/ m = TablesUnavailable
  \/ m = SlotsUnavailable.
Proof.
  rewrite update_unfold. cbv zeta. intros H.
  destruct (Booking.booking_date (row db_obj) <? today);
    [injection H as <- _; tauto|].
  destruct (status_eqb _ DONE); [injection H as <- _; tauto|].
  destruct (date_guard today obj_in) as [e|] eqn:Eg.
  { injection H as -> _. unfold date_guard in Eg.
    destruct (BookingUpdate.booking_date obj_in) as [|[d|]];
      try discriminate.
    destruct (negb _); [|discriminate]. injection Eg as <-. tauto. }
  destruct (patched_row (row db_obj) obj_in) as [updated|]; [|discriminate].
  destruct (negb (cafe_known _ _ _)); [discriminate|].
  destruct (selection_supplied obj_in).
  - destruct (relations_error _ _ _ _) as [m'|] eqn:Erel.
    + injection H as <- _. apply relations_error_values in Erel. tauto.
    + destruct (insert_units _ _) as [e|st3] eqn:Eins; [|discriminate].
      apply insert_units_inl in Eins. subst e. discriminate.
  - destruct (insert_units _ _) as [e|st3] eqn:Eins; [|discriminate].
    apply insert_units_inl in Eins. subst e. discriminate.
Qed.

(** C9.  [update_with_validation] has no availability check.  Its
    [ValueError]s are those of the two guards on the booking, of the date
    guard and of [_validate_relations], never the 'already occupied' one of
    creation.  When its checks pass and the new selection contains an atom on
    which another booking has a unit, the call fails at the flush of
    [session.commit()] with the violation of [uq_reservation_atom]; and there
    is such a state, where the unit in the way belongs to an active, not
    canceled booking and [check_tables_availability] would have answered
    [False]. *)
Theorem update_has_no_availability_check :
  (forall today db_obj obj_in ses m ses',
      update_with_validation today db_obj obj_in ses
      = (inl (ValueError m), ses') ->
      m <> AlreadyOccupied
      /\ (m = PastBooking \/ m = DoneBooking \/ m = PastDate
          \/ m = NoTables \/ m = NoSlots \/ m = TablesUnavailable
          \/ m = SlotsUnavailable))
  /\ (forall today db_obj obj_in st u,
        today <= Booking.booking_date (row db_obj) ->
        Booking.status (row db_obj) <> DONE ->
        no_null_column obj_in ->
        (forall d, BookingUpdate.booking_date obj_in = Provided (Some d) ->
                   today <= d) ->
        cafe_reference_ok obj_in st ->
        value (BookingUpdate.tables_id obj_in) <> None
        \/ value (BookingUpdate.slots_id obj_in) <> None ->
        let cafe := or_else (value (BookingUpdate.cafe_id obj_in))
                            (Booking.cafe_id (row db_obj)) in
        let day := or_else (value (BookingUpdate.booking_date obj_in))
                           (Booking.booking_date (row db_obj)) in
        target_tables_ids db_obj obj_in <> [] ->
        target_slots_ids db_obj obj_in <> [] ->
        tables_resolve st cafe (target_tables_ids db_obj obj_in) ->
        slots_resolve st cafe (target_slots_ids db_obj obj_in) ->
        In u (units st) ->
        ReservationUnit.booking_id u <> Booking.id (row db_obj) ->
        In (ReservationUnit.table_id u) (target_tables_ids db_obj obj_in) ->
        In (ReservationUnit.slot_id u) (target_slots_ids db_obj obj_in) ->
        ReservationUnit.booking_date u = day ->
        run (update_with_validation today db_obj obj_in) st
        = (inl (IntegrityError uq_reservation_atom), st))
  /\ (exists today st booking_id db_obj obj_in,
        wf_store st = true
        /\ BookingUpdate_valid obj_in = true
        /\ run (get_with_relations booking_id) st = (inr (Some db_obj), st)
        /\ conflict st (Some booking_id) 100 200 50
        /\ run (check_tables_availability
                  (Booking.cafe_id (row db_obj))
                  (target_tables_ids db_obj obj_in)
                  (target_slots_ids db_obj obj_in)
                  (Booking.booking_date (row db_obj))
                  (Some booking_id)) st
           = (inr false, st)
        /\ run (update_with_validation today db_obj obj_in) st
           = (inl (IntegrityError uq_reservation_atom), st)).
Proof.
  split; [|split].
  - intros today db_obj obj_in ses m ses' H.
    apply update_value_errors in H. split; [|exact H].
    intuition congruence.
  - intros today db_obj obj_in st u Hpast Hdone Hnull Hdate Hcafe Hsel cafe day
           Hts Hss Hrt Hrs Hu Hother Ht Hs Hd.
    destruct (patched_row_Some (row db_obj) obj_in Hnull) as [updated Hp].
    destruct (patched_targets _ _ _ Hp) as [Ec Ed].
    fold cafe in Ec. fold day in Ed.
    apply (held_atom_blocks_update today db_obj obj_in st updated u);
      try assumption.
    + apply date_guard_None; [apply Hnull | assumption].
    + eapply cafe_known_true; eassumption.
    + now apply selection_supplied_iff.
    + apply relations_error_None. rewrite Ec. tauto.
    + congruence.
  - exists ex_today, ex_two, 1002, (load ex_two ex_b2), ex_move.
    split; [reflexivity|]. split; [reflexivity|]. split; [reflexivity|].
    split; [|split; reflexivity].
    exists ex_u1, ex_b1.
    split; [now left|]. split; [now left|]. split; [reflexivity|].
    split; [reflexivity|]. split; [reflexivity|]. split; [reflexivity|].
    split; [discriminate|]. split; [reflexivity|].
    intros x [= <-]. discriminate.
Qed.

(** C3.  Booking 1000 holds table 100 in slot 200 on day 50 and is set to
    CANCELED; its unit stays in the table.  The availability check then
    answers [True] for that atom, and the creation that asks for it passes
    every check and fails at the flush with the violation of
    [uq_reservation_atom]: no booking is created. *)
Theorem canceled_booking_still_blocks :
  run (update_with_validation ex_today (load ex_booked ex_b1) ex_cancel)
      ex_booked
  = (inr (load ex_canceled ex_b1_canceled), ex_canceled)
  /\ run (check_tables_availability 10 [100] [200] 50 None) ex_canceled
     = (inr true, ex_canceled)
  /\ run (create_with_validation ex_today ex_request 2) ex_canceled
     = (inl (IntegrityError uq_reservation_atom), ex_canceled).
Proof. repeat split; reflexivity. Qed.

(** ** The constraints are an invariant of the requests *)

Lemma run_create_inr today obj_in user_id st o st' :
  run (create_with_validation today obj_in user_id) st = (inr o, st') ->
  insert_units
    (cross_units (next_uuid st) (BookingCreate.cafe_id obj_in)
       (BookingCreate.booking_date obj_in)
       (map Table.id (select_tables (BookingCreate.tables_id obj_in) st))
       (map Slot.id (select_slots (BookingCreate.slots_id obj_in) st)))
    (bump_uuid
       (set_bookings
          (bookings st ++ [new_booking obj_in user_id (next_uuid st)]) st))
  = inr st'.
Proof.
  unfold run. rewrite create_unfold. cbv zeta.
  change (working (open_session st)) with st. intros H.
  destruct (filter _ (cafes st)) as [|c [|c' l]]; try discriminate.
  destruct (negb (validate_booking_date today _)); try discriminate.
  destruct (relations_error _ _ _ st); try discriminate.
  destruct (negb _); try discriminate.
  destruct (eval _ st) as [e|[|]]; try discriminate.
  rewrite persist_unfold in H. cbv zeta in H.
  change (working (open_session st)) with st in H.
  change (pending (open_session st)) with (@nil (UUID -> ReservationUnit.t))
    in H.
  destruct (negb (mem user_id (users st))); try discriminate.
  destruct (negb (existsb _ _)); try discriminate.
  cbn [app] in H.
  destruct (insert_units _ _) as [e|st2] eqn:Eins; try discriminate.
  cbn [close_session committed] in H. injection H as _ <-. reflexivity.
Qed.

Lemma with_keys_bounds rows : forall pk u,
  (forall r k, In r rows -> ReservationUnit.id (r k) = k) ->
  In u (with_keys rows pk) ->
  pk <= ReservationUnit.id u < pk + Z.of_nat (length rows).
Proof.
  induction rows as [|r rest IH]; intros pk u Hid Hu; [contradiction|].
  cbn [with_keys length] in *. destruct Hu as [<-|Hu].
  - rewrite (Hid r pk (or_introl eq_refl)). lia.
  - apply IH in Hu; [lia|]. intros r' k Hr'. apply Hid. now right.
Qed.

Lemma with_keys_distinct rows : forall pk,
  (forall r k, In r rows -> ReservationUnit.id (r k) = k) ->
  distinct (map ReservationUnit.id (with_keys rows pk)) = true.
Proof.
  induction rows as [|r rest IH]; intros pk Hid; [reflexivity|].
  cbn [with_keys map distinct].
  rewrite IH by (intros r' k Hr'; apply Hid; now right).
  rewrite andb_true_r, negb_true_iff.
  destruct (existsb _ _) eqn:E; [|reflexivity]. exfalso.
  apply (mem_In (ReservationUnit.id (r pk))) in E.
  apply in_map_iff in E. destruct E as [u [Eu Hu]].
  apply with_keys_bounds in Hu; [|intros r' k Hr'; apply Hid; now right].
  rewrite (Hid r pk (or_introl eq_refl)) in Eu. lia.
Qed.

Lemma distinct_app l1 l2 :
  distinct l1 = true -> distinct l2 = true ->
  (forall x, In x l1 -> ~ In x l2) ->
  distinct (l1 ++ l2) = true.
Proof. rewrite !distinct_NoDup. apply NoDup_app. Qed.

Lemma insert_units_keeps_wf rows st st' :
  (forall r k, In r rows -> ReservationUnit.id (r k) = k) ->
  wf_store st = true ->
  insert_units rows st = inr st' ->
  wf_store st' = true.
Proof.
  intros Hid Hwf Hins.
  pose proof (wf_store_parts st Hwf)
    as [Hc [Ht [Hs [Hb [Hu [Huq [Hfb Hfu]]]]]]].
  pose proof (insert_units_uq _ _ _ Huq Hins) as Huq'.
  apply insert_units_inr in Hins. subst st'.
  rewrite forallb_forall in Hfb, Hfu.
  apply wf_store_intro; cbn [cafes tables slots bookings units next_uuid];
    try assumption.
  - rewrite map_app. apply distinct_app; [assumption | |].
    + now apply with_keys_distinct.
    + intros x Hx Hx'. apply in_map_iff in Hx, Hx'.
      destruct Hx as [u [<- Hin]], Hx' as [v [E Hv]].
      apply with_keys_bounds in Hv; [|assumption].
      apply Hfu, Z.ltb_lt in Hin. lia.
  - apply forallb_forall. intros b Hin. apply Hfb, Z.ltb_lt in Hin.
    apply Z.ltb_lt. lia.
  - apply forallb_forall. intros u Hin. apply Z.ltb_lt.
    apply in_app_or in Hin. destruct Hin as [Hin|Hin].
    + apply Hfu, Z.ltb_lt in Hin. lia.
    + apply with_keys_bounds in Hin; [lia | assumption].
Qed.

Lemma add_booking_keeps_wf obj_in user_id st :
  wf_store st = true ->
  wf_store (bump_uuid
              (set_bookings
                 (bookings st ++ [new_booking obj_in user_id (next_uuid st)])
                 st)) = true.
Proof.
  intros Hwf.
  pose proof (wf_store_parts st Hwf)
    as [Hc [Ht [Hs [Hb [Hu [Huq [Hfb Hfu]]]]]]].
  rewrite forallb_forall in Hfb, Hfu.
  apply wf_store_intro;
    cbn [cafes tables slots bookings units next_uuid bump_uuid set_bookings];
    try assumption.
  - rewrite map_app. apply distinct_app; [assumption | reflexivity |].
    intros x Hx [<-|[]]. apply in_map_iff in Hx.
    destruct Hx as [b [E Hin]]. apply Hfb, Z.ltb_lt in Hin.
    cbn in E. lia.
  - rewrite forallb_app. apply andb_true_iff. split.
    + apply forallb_forall. intros b Hin. apply Hfb, Z.ltb_lt in Hin.
      apply Z.ltb_lt. lia.
    + cbn. rewrite andb_true_r. apply Z.ltb_lt. lia.
  - apply forallb_forall. intros u Hin. apply Hfu, Z.ltb_lt in Hin.
    apply Z.ltb_lt. lia.
Qed.

Lemma replace_booking_ids updated bs :
  map Booking.id
      (map (fun b => if Booking.id b =? Booking.id updated
                     then updated else b) bs)
  = map Booking.id bs.
Proof.
  rewrite map_map. apply map_ext. intros b.
  destruct (Z.eqb_spec (Booking.id b) (Booking.id updated)); congruence.
Qed.

Lemma replace_booking_keeps_wf updated st :
  wf_store st = true -> wf_store (replace_booking updated st) = true.
Proof.
  intros Hwf.
  pose proof (wf_store_parts st Hwf)
    as [Hc [Ht [Hs [Hb [Hu [Huq [Hfb Hfu]]]]]]].
  apply wf_store_intro;
    cbn [cafes tables slots bookings units next_uuid replace_booking
         set_bookings]; try assumption.
  - now rewrite replace_booking_ids.
  - rewrite forallb_forall in *.
    intros b Hin. apply in_map_iff in Hin. destruct Hin as [b0 [<- Hin]].
    destruct (Z.eqb_spec (Booking.id b0) (Booking.id updated)) as [E|_];
      [rewrite <- E|]; now apply Hfb.
Qed.

Lemma delete_units_keeps_wf booking_id st :
  wf_store st = true -> wf_store (delete_units booking_id st) = true.
Proof.
  intros Hwf.
  pose proof (wf_store_parts st Hwf)
    as [Hc [Ht [Hs [Hb [Hu [Huq [Hfb Hfu]]]]]]].
  apply wf_store_intro;
    cbn [cafes tables slots bookings units next_uuid delete_units set_units];
    try assumption.
  - now apply distinct_map_filter.
  - now apply uq_atoms_filter.
  - rewrite forallb_forall in *. intros u Hin. apply filter_In in Hin.
    now apply Hfu.
Qed.

Lemma cross_units_ids b c d ts ss r k :
  In r (cross_units b c d ts ss) -> ReservationUnit.id (r k) = k.
Proof.
  intros Hr. apply cross_units_In in Hr.
  destruct Hr as [t [s [_ [_ ->]]]]. reflexivity.
Qed.

(** Every request takes a database that satisfies the constraints to one
    that does. *)
Lemma step_keeps_wf today st st' :
  wf_store st = true -> step today st st' -> wf_store st' = true.
Proof.
  intros Hwf Hstep. inversion Hstep as [obj_in user_id s0 r s1 H
                                       |bid db_obj obj_in s0 r s1 _ H]; subst.
  - destruct r as [e|o].
    + apply run_create_failure in H. now subst.
    + apply run_create_inr in H.
      eapply insert_units_keeps_wf; [|apply add_booking_keeps_wf|exact H];
        [|exact Hwf].
      intros f k. apply cross_units_ids.
  - unfold run in H.
    destruct (update_with_validation today db_obj obj_in (open_session st))
      as [r0 ses] eqn:E.
    injection H as -> <-. unfold close_session.
    apply update_result in E.
    destruct E as [[e [_ ->]]|[updated [rows [_ [Hins [Hrows _]]]]]];
      [exact Hwf|].
    change (working (open_session st)) with st in Hins.
    change (pending (open_session st))
      with (@nil (UUID -> ReservationUnit.t)) in Hrows.
    cbn [app] in Hrows.
    eapply insert_units_keeps_wf; [| |exact Hins].
    + subst rows. destruct (selection_supplied obj_in); [|intros f k []].
      intros f k. apply cross_units_ids.
    + destruct (selection_supplied obj_in).
      * apply delete_units_keeps_wf, replace_booking_keeps_wf, Hwf.
      * apply replace_booking_keeps_wf, Hwf.
Qed.

Lemma reachable_keeps_wf today st st' :
  wf_store st = true -> reachable today st st' -> wf_store st' = true.
Proof.
  intros Hwf Hreach. induction Hreach as [|st1 st2 _ IH Hstep];
    [exact Hwf|].
  eapply step_keeps_wf; eassumption.
Qed.

(** ** The theorems at the example cafe *)

Lemma uniqueness_invariant_witness :
  uq_atoms (units ex_empty) = true
  /\ reachable ex_today ex_empty ex_two
  /\ uq_atoms (units ex_two) = true
  /\ no_double_booking ex_two.
Proof.
  assert (Hreach : reachable ex_today ex_empty ex_two).
  { eapply reach_step.
    - eapply reach_step.
      + apply reach_refl.
      + apply (step_create ex_today ex_request 1 ex_empty
                 (inr (load ex_booked ex_b1)) ex_booked).
        reflexivity.
    - apply (step_create ex_today ex_request2 2 ex_booked
               (inr (load ex_two ex_b2)) ex_two).
      reflexivity. }
  destruct (uniqueness_invariant ex_today ex_empty ex_two eq_refl Hreach)
    as [H1 [_ H3]].
  split; [reflexivity|]. split; [exact Hreach|]. split; assumption.
Defined.

Lemma cross_product_availability_witness :
  wf_store ex_booked = true
  /\ exists b,
       run (check_tables_availability 10 [100; 101] [200; 201] 50 None)
           ex_booked = (inr b, ex_booked)
       /\ (b = false <->
           exists t s, In t [100; 101] /\ In s [200; 201]
                       /\ conflict ex_booked None t s 50).
Proof.
  split; [reflexivity|].
  destruct (cross_product_availability 10 [100; 101] [200; 201] 50 None
              ex_booked eq_refl) as [[b [H1 [_ H3]]] _].
  exists b. split; assumption.
Defined.

Lemma creation_gauntlet_witness :
  wf_store ex_empty = true
  /\ exists o st',
       run (create_with_validation ex_today ex_request 1) ex_empty
       = (inr o, st').
Proof.
  split; [reflexivity|].
  destruct (creation_gauntlet ex_today ex_request 1 ex_empty eq_refl)
    as [_ [_ [_ [_ [_ [_ [H _]]]]]]].
  apply H.
  - exists (Cafe.mk 10 true). split; [now left | reflexivity].
  - unfold ex_today. cbn. lia.
  - split; [discriminate|]. split; [discriminate|]. split.
    + intros t [<-|[]]. exists (Table.mk 100 10 2 true).
      split; [now left|]. repeat split.
    + intros s [<-|[]]. exists (Slot.mk 200 10 true).
      split; [now left|]. repeat split.
  - unfold ex_today. cbn. lia.
  - intros t s _ _ [u [b [[] _]]].
  - reflexivity.
  - intros u [].
Defined.

Lemma materialization_witness :
  wf_store ex_empty = true
  /\ BookingCreate_valid ex_request = true
  /\ run (create_with_validation ex_today ex_request 1) ex_empty
     = (inr (load ex_booked ex_b1), ex_booked)
  /\ (exists new,
        units ex_booked = units ex_empty ++ new /\ length new = 1%nat)
  /\ wf_store ex_two = true
  /\ value (BookingUpdate.slots_id ex_reslot) <> None
  /\ run (update_with_validation ex_today (load ex_two ex_b2) ex_reslot)
         ex_two
     = (inr (load ex_two_reslot ex_b2), ex_two_reslot)
  /\ (exists new,
        units ex_two_reslot = [ex_u1] ++ new /\ length new = 1%nat
        /\ ~ In ex_u2 (units ex_two_reslot))
  /\ (exists o st' new,
        run (update_with_validation ex_today (load ex_two ex_b2) ex_reslot)
            ex_two = (inr o, st')
        /\ units st' = [ex_u1] ++ new
        /\ exists u, In u new
                     /\ ReservationUnit.booking_id u = 1002
                     /\ ReservationUnit.table_id u = 101
                     /\ ReservationUnit.slot_id u = 201
                     /\ ReservationUnit.booking_date u = 50).
Proof.
  split; [reflexivity|]. split; [reflexivity|]. split; [reflexivity|].
  destruct (materialization ex_today ex_empty eq_refl) as [H _].
  destruct (H ex_request 1 (load ex_booked ex_b1) ex_booked eq_refl eq_refl)
    as [new [H1 [H2 _]]].
  split; [exists new; split; assumption|].
  assert (Hsel : value (BookingUpdate.slots_id ex_reslot) <> None)
    by discriminate.
  assert (R : run (update_with_validation ex_today (load ex_two ex_b2)
                     ex_reslot) ex_two
              = (inr (load ex_two_reslot ex_b2), ex_two_reslot))
    by reflexivity.
  split; [reflexivity|]. split; [exact Hsel|]. split; [exact R|].
  destruct (materialization ex_today ex_two eq_refl) as [_ [Hu Hret]].
  split.
  - destruct (Hu (load ex_two ex_b2) ex_reslot (load ex_two_reslot ex_b2)
                ex_two_reslot (or_intror Hsel) R)
      as [new' [E1 [E2 [_ [_ E5]]]]].
    exists new'. split; [exact E1|]. split; [exact E2|].
    apply (E5 ex_u2); [right; now left | reflexivity].
  - destruct (Hret (load ex_two ex_b2) ex_reslot [101] [201]
                (or_intror Hsel) eq_refl eq_refl)
      as [o [st' [new' [E1 [E2 [_ E4]]]]]].
    + unfold ex_today. cbn. lia.
    + discriminate.
    + intros d' Hd'. discriminate Hd'.
    + repeat split; discriminate.
    + intros c Hc. discriminate.
    + discriminate.
    + discriminate.
    + constructor; [intros [] | constructor].
    + constructor; [intros [] | constructor].
    + intros t [<-|[]]. exists (Table.mk 101 10 4 true).
      split; [right; now left|]. repeat split.
    + intros s [<-|[]]. exists (Slot.mk 201 10 true).
      split; [right; now left|]. repeat split.
    + intros u [<-|[<-|[]]] Hb Ht _.
      * destruct Ht as [Ht|[]]. discriminate Ht.
      * exfalso. apply Hb. reflexivity.
    + exists o, st', new'. split; [exact E1|]. split; [exact E2|].
      destruct (E4 101 201 (or_introl eq_refl) (or_introl eq_refl))
        as [u [Hin [Hb [_ [Ht [Hs Hd]]]]]].
      exists u. repeat split; assumption.
Defined.

Lemma capacity_check_witness :
  wf_store ex_empty = true
  /\ run (validate_tables_capacity [100] 3) ex_empty = (inr false, ex_empty)
  /\ run (validate_tables_capacity [100] 2) ex_empty = (inr true, ex_empty)
  /\ run (create_with_validation ex_today ex_three 1) ex_empty
     = (inl (ValueError (NotEnoughSeats 3 2)), ex_empty).
Proof.
  assert (Hnd : NoDup [Table.mk 100 10 2 true])
    by (constructor; [intros [] | constructor]).
  assert (Hsel : forall t,
            In t [Table.mk 100 10 2 true]
            <-> In t (tables ex_empty) /\ In (Table.id t) [100]).
  { intros t. split.
    - intros [<-|[]]. split; now left.
    - intros [[<-|[<-|[]]] Hin]; [now left|].
      destruct Hin as [Hin|[]]. discriminate Hin. }
  split; [reflexivity|]. split; [reflexivity|].
  destruct (capacity_check [100] 2 ex_empty [Table.mk 100 10 2 true]
              eq_refl Hnd Hsel) as [[b [Hb [Htrue _]]] _].
  destruct (capacity_check [100] 3 ex_empty [Table.mk 100 10 2 true]
              eq_refl Hnd Hsel) as [_ H].
  split.
  - rewrite Hb. f_equal. f_equal. apply Htrue.
    split; [discriminate | cbn; lia].
  - apply (H ex_today ex_three 1); try reflexivity; try discriminate.
    + exists (Cafe.mk 10 true). split; [now left | reflexivity].
    + intros t [<-|[]]. exists (Table.mk 100 10 2 true).
      split; [now left|]. repeat split.
    + intros s [<-|[]]. exists (Slot.mk 200 10 true).
      split; [now left|]. repeat split.
Defined.

Lemma frozen_past_and_done_witness :
  Booking.booking_date (row (load ex_booked ex_b1)) < 60
  /\ update_with_validation 60 (load ex_booked ex_b1) ex_scalars
                            (open_session ex_booked)
     = (inl (ValueError PastBooking), open_session ex_booked).
Proof.
  assert (Hd : Booking.booking_date (row (load ex_booked ex_b1)) < 60)
    by (unfold ex_today; cbn; lia).
  split; [exact Hd|].
  destruct (frozen_past_and_done 60) as [_ [H _]].
  exact (H (load ex_booked ex_b1) ex_scalars (open_session ex_booked) Hd).
Defined.

Lemma scalar_update_frame_witness :
  value (BookingUpdate.tables_id ex_scalars) = None
  /\ value (BookingUpdate.slots_id ex_scalars) = None
  /\ BookingUpdate.booking_date ex_scalars = Unset
  /\ units (snd (run (update_with_validation ex_today
                        (load ex_booked ex_b1) ex_scalars) ex_booked))
     = units ex_booked
  /\ exists o st',
       run (update_with_validation ex_today (load ex_booked ex_b1)
              ex_scalars) ex_booked = (inr o, st').
Proof.
  split; [reflexivity|]. split; [reflexivity|]. split; [reflexivity|].
  destruct (scalar_update_frame ex_today (load ex_booked ex_b1) ex_scalars
              ex_booked eq_refl eq_refl eq_refl) as [H1 [_ H3]].
  split; [exact H1|]. apply H3.
  - unfold ex_today. cbn. lia.
  - discriminate.
  - repeat split; discriminate.
  - intros c Hc. discriminate.
Defined.

Lemma update_has_no_availability_check_witness :
  ReservationUnit.booking_id ex_u1 <> Booking.id (row (load ex_two ex_b2))
  /\ value (BookingUpdate.tables_id ex_move) <> None
  /\ run (update_with_validation ex_today (load ex_two ex_b2) ex_move) ex_two
     = (inl (IntegrityError uq_reservation_atom), ex_two).
Proof.
  assert (Hother : ReservationUnit.booking_id ex_u1
                   <> Booking.id (row (load ex_two ex_b2)))
    by (unfold ex_today; cbn; lia).
  assert (Hsel : value (BookingUpdate.tables_id ex_move) <> None)
    by discriminate.
  split; [exact Hother|]. split; [exact Hsel|].
  destruct update_has_no_availability_check as [_ [H _]].
  apply (H ex_today (load ex_two ex_b2) ex_move ex_two ex_u1).
  - unfold ex_today. cbn. lia.
  - discriminate.
  - repeat split; discriminate.
  - intros d Hd. discriminate.
  - intros c Hc. discriminate.
  - now left.
  - discriminate.
  - discriminate.
  - intros t [<-|[]]. exists (Table.mk 100 10 2 true).
    split; [now left|]. repeat split.
  - intros s [<-|[]]. exists (Slot.mk 200 10 true).
    split; [now left|]. repeat split.
  - now left.
  - exact Hother.
  - now left.
  - now left.
  - reflexivity.
Defined.

Lemma date_only_update_desynchronizes_witness :
  value (BookingUpdate.tables_id ex_postpone) = None
  /\ value (BookingUpdate.slots_id ex_postpone) = None
  /\ BookingUpdate.booking_date ex_postpone = Provided (Some 60)
  /\ ex_today <= 60
  /\ 60 <> Booking.booking_date (row (load ex_booked ex_b1))
  /\ exists o st',
       run (update_with_validation ex_today (load ex_booked ex_b1)
              ex_postpone) ex_booked = (inr o, st')
       /\ Booking.booking_date (row o) = 60
       /\ units st' = units ex_booked
       /\ forall u, In u (units st') ->
                    ReservationUnit.booking_id u = Booking.id (row o) ->
                    ReservationUnit.booking_date u = 50.
Proof.
  assert (Hd : ex_today <= 60) by (unfold ex_today; lia).
  assert (Hn : 60 <> Booking.booking_date (row (load ex_booked ex_b1)))
    by (unfold ex_today; cbn; lia).
  assert (Hsync : forall u, In u (units ex_booked) ->
            ReservationUnit.booking_id u
            = Booking.id (row (load ex_booked ex_b1)) ->
            ReservationUnit.booking_date u
            = Booking.booking_date (row (load ex_booked ex_b1))).
  { intros u [<-|[]] _. reflexivity. }
  split; [reflexivity|]. split; [reflexivity|]. split; [reflexivity|].
  split; [exact Hd|]. split; [exact Hn|].
  destruct (date_only_update_desynchronizes ex_today (load ex_booked ex_b1)
              ex_postpone ex_booked 60 eq_refl eq_refl eq_refl Hd)
    as [H1 H2].
  destruct H2 as [o [st' E]].
  - unfold ex_today. cbn. lia.
  - discriminate.
  - repeat split; discriminate.
  - intros c Hc. discriminate.
  - exists o, st'. split; [exact E|].
    destruct (H1 o st' E) as [_ [Hdate [_ [Hunits Hu]]]].
    split; [exact Hdate|]. split; [exact Hunits|].
    intros u Hin Hb. now apply (Hu Hn Hsync).
Defined.

(** * Further properties of the booking code *)

(** ** What an update writes *)

Lemma run_update_inv today db_obj obj_in st r st' :
  run (update_with_validation today db_obj obj_in) st = (r, st') ->
  (exists e, r = inl e /\ st' = st)
  \/ (exists updated,
        patched_row (row db_obj) obj_in = Some updated
        /\ r = inr (load st' updated)
        /\ users st' = users st /\ cafes st' = cafes st
        /\ tables st' = tables st /\ slots st' = slots st
        /\ bookings st'
           = map (fun b => if Booking.id b =? Booking.id updated
                           then updated else b) (bookings st)
        /\ units st'
           = (if selection_supplied obj_in
              then filter (fun u => negb (ReservationUnit.booking_id u
                                          =? Booking.id (row db_obj)))
                          (units st)
              else units st)
             ++ with_keys (if selection_supplied obj_in
                           then target_units db_obj obj_in updated else [])
                          (next_uuid st)).
Proof.
  unfold run.
  destruct (update_with_validation today db_obj obj_in (open_session st))
    as [r0 ses] eqn:E.
  intros H. injection H as -> <-. unfold close_session.
  apply update_result in E.
  destruct E as [[e [-> Hc]]|[updated [rows [Hp [Hins [Hrows ->]]]]]].
  - left. exists e. split; [reflexivity | exact Hc].
  - right. exists updated.
    change (working (open_session st)) with st in Hins.
    change (pending (open_session st))
      with (@nil (UUID -> ReservationUnit.t)) in Hrows.
    cbn [app] in Hrows. subst rows.
    apply insert_units_inr in Hins. rewrite Hins.
    split; [exact Hp|]. split; [reflexivity|].
    destruct (selection_supplied obj_in); cbn; repeat split; reflexivity.
Qed.

(** X3.  An update, whatever its outcome, touches nothing but the row and
    the units of the booking it is given: users, cafes, tables and slots
    are as before, every other booking row is still there, and the units of
    other bookings are exactly those that were there; the booking keeps its
    id and its user. *)
Theorem update_touches_one_booking today db_obj obj_in st :
  let r := run (update_with_validation today db_obj obj_in) st in
  let id := Booking.id (row db_obj) in
  users (snd r) = users st /\ cafes (snd r) = cafes st
  /\ tables (snd r) = tables st /\ slots (snd r) = slots st
  /\ (forall b, Booking.id b <> id ->
                (In b (bookings (snd r)) <-> In b (bookings st)))
  /\ (forall u, ReservationUnit.booking_id u <> id ->
                (In u (units (snd r)) <-> In u (units st)))
  /\ (forall o, fst r = inr o ->
                Booking.id (row o) = id
                /\ Booking.user_id (row o) = Booking.user_id (row db_obj)).
Proof.
  intros r id. subst r.
  destruct (run (update_with_validation today db_obj obj_in) st)
    as [r st'] eqn:E.
  cbn [fst snd].
  apply run_update_inv in E.
  destruct E as [[e [-> ->]]|[updated [Hp [-> [Hu [Hc [Ht [Hs [Hb Hun]]]]]]]]].
  { do 4 (split; [reflexivity|]). split; [tauto|]. split; [tauto|].
    intros o H. discriminate. }
  pose proof (patched_row_keeps _ _ _ Hp) as [Hid [Huser _]].
  fold id in Hid.
  split; [exact Hu|]. split; [exact Hc|]. split; [exact Ht|].
  split; [exact Hs|]. split; [|split].
  - intros b Hne. rewrite Hb, in_map_iff. split.
    + intros [b0 [E Hin]].
      destruct (Z.eqb_spec (Booking.id b0) (Booking.id updated)) as [E0|_].
      * subst b. congruence.
      * now subst b0.
    + intros Hin. exists b. split; [|assumption].
      destruct (Z.eqb_spec (Booking.id b) (Booking.id updated)); congruence.
  - intros u Hne. rewrite Hun, in_app_iff. split.
    + intros [Hin|Hin].
      * destruct (selection_supplied obj_in); [|assumption].
        now apply filter_In in Hin.
      * exfalso. destruct (selection_supplied obj_in); [|contradiction].
        apply with_keys_In in Hin. destruct Hin as [f [k [Hf [_ ->]]]].
        apply cross_units_In in Hf. destruct Hf as [t [s [_ [_ ->]]]].
        now apply Hne.
    + intros Hin. left. destruct (selection_supplied obj_in); [|assumption].
      apply filter_In. split; [assumption|].
      apply negb_true_iff, Z.eqb_neq. exact Hne.
  - intros o [= <-]. cbn [row load]. split; assumption.
Qed.

(** X6.  After a successful update that supplies [tables_id] or [slots_id],
    every unit of the booking is on the date and in the cafe the booking row
    now has, on a target table and a target slot; a supplied empty list
    stands for the tables (or slots) the booking had. *)
Theorem selection_update_synchronizes today db_obj obj_in st o st' :
  value (BookingUpdate.tables_id obj_in) <> None
  \/ value (BookingUpdate.slots_id obj_in) <> None ->
  run (update_with_validation today db_obj obj_in) st = (inr o, st') ->
  (forall u, In u (units st') ->
             ReservationUnit.booking_id u = Booking.id (row o) ->
             ReservationUnit.booking_date u = Booking.booking_date (row o)
             /\ ReservationUnit.cafe_id u = Booking.cafe_id (row o)
             /\ In (ReservationUnit.table_id u)
                   (target_tables_ids db_obj obj_in)
             /\ In (ReservationUnit.slot_id u)
                   (target_slots_ids db_obj obj_in))
  /\ (BookingUpdate.tables_id obj_in = Provided (Some []) ->
      target_tables_ids db_obj obj_in = map Table.id (obj_tables db_obj))
  /\ (BookingUpdate.slots_id obj_in = Provided (Some []) ->
      target_slots_ids db_obj obj_in = map Slot.id (obj_slots db_obj)).
Proof.
  intros Hsel H. apply selection_supplied_iff in Hsel.
  apply update_selection_inv in H; [|assumption].
  destruct H as [updated [Hp [Ho [_ [_ Hu]]]]].
  pose proof (patched_row_keeps _ _ _ Hp) as [Hid [_ [Hc [Hd _]]]].
  split; [|split].
  - intros u Hin Hb. rewrite Hu in Hin. apply in_app_or in Hin.
    destruct Hin as [Hin|Hin].
    + apply filter_In in Hin. destruct Hin as [_ Hin].
      rewrite Hb, Ho, Hid, Z.eqb_refl in Hin. discriminate.
    + apply with_keys_In in Hin. destruct Hin as [f [k [Hf [_ ->]]]].
      apply cross_units_In in Hf. destruct Hf as [t [s [Ht [Hs ->]]]].
      cbn. rewrite Ho, Hc, Hd. repeat split; assumption.
  - intros E. unfold target_tables_ids. now rewrite E.
  - intros E. unfold target_slots_ids. now rewrite E.
Qed.

(** ** No orphan units *)

Lemma units_reference_bookings_spec st :
  units_reference_bookings st = true <->
  forall u, In u (units st) ->
            exists b, In b (bookings st)
                      /\ Booking.id b = ReservationUnit.booking_id u.
Proof.
  unfold units_reference_bookings. rewrite forallb_forall. split.
  - intros H u Hu. apply H, mem_In, in_map_iff in Hu.
    destruct Hu as [b [E Hb]]. now exists b.
  - intros H u Hu. apply mem_In, in_map_iff.
    destruct (H u Hu) as [b [Hb E]]. now exists b.
Qed.

(** X14.  Every request keeps the foreign key of the units to their
    booking: in every database reached through creations and updates, each
    reservation unit belongs to a booking row that exists. *)
Theorem no_orphan_units today st st' :
  units_reference_bookings st = true ->
  reachable today st st' ->
  units_reference_bookings st' = true.
Proof.
  intros Hfk Hreach.
  induction Hreach as [|st1 st2 _ IH Hstep]; [exact Hfk|].
  rewrite units_reference_bookings_spec in *.
  inversion Hstep as [obj_in user_id s0 r s1 H
                     |bid db_obj obj_in s0 r s1 Hget H]; subst.
  - destruct r as [e|o].
    + apply run_create_failure in H. now subst.
    + apply create_success_inv in H.
      destruct H as [_ [_ [_ [_ [_ [_ [-> _]]]]]]].
      cbn [units bookings]. intros u Hu. apply in_app_or in Hu.
      destruct Hu as [Hu|Hu].
      * destruct (IH u Hu) as [b [Hb E]]. exists b.
        split; [apply in_or_app; now left | exact E].
      * apply with_keys_In in Hu. destruct Hu as [f [k [Hf [_ ->]]]].
        apply cross_units_In in Hf. destruct Hf as [t [s [_ [_ ->]]]].
        eexists. split; [apply in_or_app; right; now left | reflexivity].
  - assert (Hrow : exists b, In b (bookings st1)
                             /\ Booking.id b = Booking.id (row db_obj)).
    { unfold run, get_with_relations, query in Hget. cbn in Hget.
      destruct (filter _ (bookings st1)) as [|b0 l] eqn:Ef; [discriminate|].
      injection Hget as <-. cbn [row load]. exists b0.
      assert (Hin : In b0 (filter (fun b => Booking.id b =? bid)
                                  (bookings st1)))
        by (rewrite Ef; now left).
      apply filter_In in Hin. split; [tauto | reflexivity]. }
    apply run_update_inv in H.
    destruct H as [[e [_ ->]]|[updated [Hp [_ [_ [_ [_ [_ [Hb Hun]]]]]]]]];
      [exact IH|].
    pose proof (patched_row_keeps _ _ _ Hp) as [Hid _].
    assert (Hkeep : forall b, In b (bookings st1) ->
              exists b', In b' (bookings st2) /\ Booking.id b' = Booking.id b).
    { intros b Hin. rewrite Hb.
      exists (if Booking.id b =? Booking.id updated then updated else b).
      split; [apply in_map_iff; now exists b|].
      destruct (Z.eqb_spec (Booking.id b) (Booking.id updated)); congruence. }
    intros u Hu. rewrite Hun in Hu. apply in_app_or in Hu.
    destruct Hu as [Hu|Hu].
    + assert (Hin : In u (units st1)).
      { destruct (selection_supplied obj_in); [|assumption].
        now apply filter_In in Hu. }
      destruct (IH u Hin) as [b [Hbin E]].
      destruct (Hkeep b Hbin) as [b' [Hb' E']]. exists b'.
      split; [assumption | congruence].
    + destruct (selection_supplied obj_in); [|contradiction].
      apply with_keys_In in Hu. destruct Hu as [f [k [Hf [_ ->]]]].
      apply cross_units_In in Hf. destruct Hf as [t [s [_ [_ ->]]]].
      destruct Hrow as [b [Hbin E]].
      destruct (Hkeep b Hbin) as [b' [Hb' E']]. exists b'.
      split; [assumption | cbn; congruence].
Qed.

(** ** The validators of the request schemas *)

Lemma length_len_set l :
  Nat.eqb (length l) (len_set l) = true <-> NoDup l.
Proof.
  rewrite Nat.eqb_eq. unfold len_set. split.
  - induction l as [|a l IH]; [constructor|].
    cbn [nodup length]. destruct (in_dec Z.eq_dec a l) as [Hin|Hn].
    + intros E. exfalso.
      assert (length (nodup Z.eq_dec l) <= length l)%nat.
      { apply NoDup_incl_length; [apply NoDup_nodup|].
        intros x Hx. now apply nodup_In in Hx. }
      lia.
    + cbn [length]. intros E. constructor; [assumption|].
      apply IH. lia.
  - intros H. now rewrite nodup_fixed_point.
Qed.

Lemma BookingCreate_validate_relations_None o :
  BookingCreate_validate_relations o = None
  <-> BookingCreate.tables_id o <> [] /\ BookingCreate.slots_id o <> []
      /\ NoDup (BookingCreate.tables_id o)
      /\ NoDup (BookingCreate.slots_id o).
Proof.
  unfold BookingCreate_validate_relations.
  rewrite <- !length_len_set.
  destruct (BookingCreate.tables_id o) as [|t ts];
    [split; [discriminate | intros [H _]; congruence]|].
  destruct (BookingCreate.slots_id o) as [|s ss];
    [split; [discriminate | intros [_ [H _]]; congruence]|].
  destruct (Nat.eqb (length (t :: ts)) _); cbn [negb];
    [|split; [discriminate | intros [_ [_ [H _]]]; discriminate]].
  destruct (Nat.eqb (length (s :: ss)) _); cbn [negb];
    [|split; [discriminate | intros [_ [_ [_ H]]]; discriminate]].
  split; [|reflexivity]. intros _.
  split; [discriminate|]. split; [discriminate|]. split; reflexivity.
Qed.

Lemma has_duplicates_false l :
  has_duplicates l = false <-> forall x, l = Some x -> NoDup x.
Proof.
  unfold has_duplicates. destruct l as [[|a r]|].
  - split; [intros _ x [= <-]; constructor | reflexivity].
  - rewrite negb_false_iff, length_len_set. split.
    + intros H x [= <-]. exact H.
    + intros H. now apply H.
  - split; [discriminate | reflexivity].
Qed.

Lemma check_tables_availability_raises c ts ss d ex st e :
  eval (check_tables_availability c ts ss d ex) st = inl e ->
  e = MultipleResultsFound.
Proof.
  rewrite eval_check_tables_availability.
  assert (Hs : forall t l e0,
             eval (for_each_return l (probe d ex t)) st = inl e0 ->
             e0 = MultipleResultsFound).
  { intros t l. induction l as [|s l IH]; intros e0; [discriminate|].
    rewrite eval_for_each_return_cons by apply reads_probe.
    rewrite eval_probe.
    destruct (conflicting_units t s d ex st) as [|x [|y r]].
    - apply IH.
    - discriminate.
    - now intros [= <-]. }
  assert (Ht : forall l e0,
             eval (for_each_return l
                     (fun t => for_each_return ss (probe d ex t))) st
             = inl e0 ->
             e0 = MultipleResultsFound).
  { induction l as [|t l IH]; intros e0; [discriminate|].
    rewrite eval_for_each_return_cons
      by (apply reads_for_each_return; intros; apply reads_probe).
    destruct (eval (for_each_return ss (probe d ex t)) st)
      as [e1|[b|]] eqn:E.
    - intros [= <-]. now apply (Hs t ss).
    - discriminate.
    - apply IH. }
  destruct (eval (for_each_return ts _) st) as [e1|[b|]] eqn:E;
    try discriminate.
  intros [= <-]. now apply (Ht ts).
Qed.

Lemma has_duplicates_true l :
  has_duplicates l = true <-> exists x, l = Some x /\ ~ NoDup x.
Proof.
  split.
  - intros H. destruct l as [x|]; [|discriminate].
    exists x. split; [reflexivity|]. intros Hnd.
    assert (E : has_duplicates (Some x) = false)
      by (apply has_duplicates_false; intros y [= <-]; exact Hnd).
    congruence.
  - intros [x [-> Hx]].
    destruct (has_duplicates (Some x)) eqn:E; [reflexivity|].
    exfalso. apply Hx.
    exact (proj1 (has_duplicates_false (Some x)) E x eq_refl).
Qed.

(** X8.  [BookingCreate.validate_relations] accepts a request exactly when
    both id lists are non-empty and without repetition, and reports the
    first of: no table, no slot, a repeated table, a repeated slot.
    [BookingUpdate.validate_relations] accepts exactly when a supplied list
    has no repetition, an empty list included, and reports a repeated table
    before a repeated slot.  A creation request that passed its validator
    is never answered by the repository with the 'at least one table' or
    'at least one slot' error. *)
Theorem schema_validators today :
  (forall o,
      (BookingCreate_validate_relations o = None
       <-> BookingCreate.tables_id o <> [] /\ BookingCreate.slots_id o <> []
           /\ NoDup (BookingCreate.tables_id o)
           /\ NoDup (BookingCreate.slots_id o))
      /\ (BookingCreate.tables_id o = [] ->
          BookingCreate_validate_relations o = Some EmptyTables)
      /\ (BookingCreate.tables_id o <> [] -> BookingCreate.slots_id o = [] ->
          BookingCreate_validate_relations o = Some EmptySlots)
      /\ (BookingCreate.tables_id o <> [] -> BookingCreate.slots_id o <> [] ->
          ~ NoDup (BookingCreate.tables_id o) ->
          BookingCreate_validate_relations o = Some DuplicateTables)
      /\ (BookingCreate.tables_id o <> [] -> BookingCreate.slots_id o <> [] ->
          NoDup (BookingCreate.tables_id o) ->
          ~ NoDup (BookingCreate.slots_id o) ->
          BookingCreate_validate_relations o = Some DuplicateSlots)
      /\ (BookingCreate_valid o = true
          <-> BookingCreate_validate_relations o = None
              /\ 1 <= BookingCreate.guest_number o <= 100))
  /\ (forall o,
         (BookingUpdate_validate_relations o = None
          <-> (forall l, value (BookingUpdate.tables_id o) = Some l ->
                         NoDup l)
              /\ (forall l, value (BookingUpdate.slots_id o) = Some l ->
                            NoDup l))
         /\ (forall l, value (BookingUpdate.tables_id o) = Some l ->
                       ~ NoDup l ->
                       BookingUpdate_validate_relations o
                       = Some DuplicateTables)
         /\ (forall l,
               (forall l', value (BookingUpdate.tables_id o) = Some l' ->
                           NoDup l') ->
               value (BookingUpdate.slots_id o) = Some l -> ~ NoDup l ->
               BookingUpdate_validate_relations o = Some DuplicateSlots))
  /\ (forall o user_id ses m ses',
         BookingCreate_validate_relations o = None ->
         create_with_validation today o user_id ses
         = (inl (ValueError m), ses') ->
         m <> NoTables /\ m <> NoSlots).
Proof.
  split; [|split].
  - intros o. split; [apply BookingCreate_validate_relations_None|].
    split; [|split; [|split; [|split]]].
    + unfold BookingCreate_validate_relations. now intros ->.
    + unfold BookingCreate_validate_relations.
      destruct (BookingCreate.tables_id o); [congruence|]. now intros _ ->.
    + unfold BookingCreate_validate_relations. intros Ht Hs Hd.
      destruct (BookingCreate.tables_id o) as [|t ts]; [congruence|].
      destruct (BookingCreate.slots_id o) as [|s ss]; [congruence|].
      destruct (Nat.eqb (length (t :: ts)) (len_set (t :: ts))) eqn:E;
        [|reflexivity].
      apply length_len_set in E. contradiction.
    + unfold BookingCreate_validate_relations. intros Ht Hs Hnd Hd.
      destruct (BookingCreate.tables_id o) as [|t ts]; [congruence|].
      destruct (BookingCreate.slots_id o) as [|s ss]; [congruence|].
      rewrite (proj2 (length_len_set (t :: ts)) Hnd). cbn [negb].
      destruct (Nat.eqb (length (s :: ss)) (len_set (s :: ss))) eqn:E;
        [|reflexivity].
      apply length_len_set in E. contradiction.
    + rewrite BookingCreate_validate_relations_None.
      unfold BookingCreate_valid.
      rewrite !andb_true_iff, !negb_true_iff, !Z.leb_le, !Nat.eqb_neq,
        !distinct_NoDup.
      destruct (BookingCreate.tables_id o), (BookingCreate.slots_id o);
        cbn [length]; intuition (try congruence; try lia).
  - intros o. split; [|split].
    + unfold BookingUpdate_validate_relations.
      rewrite <- !has_duplicates_false.
      destruct (has_duplicates (value (BookingUpdate.tables_id o)));
        [split; [discriminate | intros [H _]; discriminate]|].
      destruct (has_duplicates (value (BookingUpdate.slots_id o)));
        [split; [discriminate | intros [_ H]; discriminate]|].
      split; [split; reflexivity | reflexivity].
    + intros l El Hd. unfold BookingUpdate_validate_relations.
      rewrite (proj2 (has_duplicates_true _)); [reflexivity|].
      now exists l.
    + intros l Ht El Hd. unfold BookingUpdate_validate_relations.
      rewrite (proj2 (has_duplicates_false _) Ht).
      rewrite (proj2 (has_duplicates_true _)); [reflexivity|].
      now exists l.
  - intros o user_id ses m ses' Hv H.
    apply BookingCreate_validate_relations_None in Hv.
    destruct Hv as [Ht [Hs _]].
    rewrite create_unfold in H. cbv zeta in H.
    destruct (filter _ (cafes (working ses))) as [|c [|c' l]];
      [injection H as <- _; split; discriminate | | discriminate].
    destruct (negb (validate_booking_date today _));
      [injection H as <- _; split; discriminate|].
    destruct (relations_error _ _ _ _) as [m'|] eqn:Erel.
    { injection H as <- _. unfold relations_error in Erel.
      destruct (BookingCreate.tables_id o); [congruence|].
      destruct (BookingCreate.slots_id o); [congruence|].
      destruct (negb _); [injection Erel as <-; split; discriminate|].
      destruct (negb _); [injection Erel as <-; split; discriminate|].
      discriminate. }
    destruct (negb _); [injection H as <- _; split; discriminate|].
    destruct (eval _ (working ses)) as [e|[|]] eqn:Echk;
      [injection H as -> _ | | injection H as <- _; split; discriminate].
    + apply check_tables_availability_raises in Echk. discriminate.
    + rewrite persist_unfold in H. cbv zeta in H.
      destruct (negb (mem user_id _)); [discriminate|].
      destruct (negb (existsb _ _)); [discriminate|].
      destruct (insert_units _ _) as [e1|st2] eqn:Eins; [|discriminate].
      apply insert_units_inl in Eins. subst e1. discriminate.
Qed.

(** ** Creation and lookup *)

Lemma fresh_booking_lookup st new :
  forallb (fun b => Booking.id b <? next_uuid st) (bookings st) = true ->
  Booking.id new = next_uuid st ->
  filter (fun b => Booking.id b =? next_uuid st) (bookings st ++ [new])
  = [new].
Proof.
  intros Hf E. rewrite filter_app. cbn [filter].
  rewrite E, Z.eqb_refl.
  replace (filter _ (bookings st)) with (@nil Booking.t); [reflexivity|].
  symmetry. rewrite forallb_forall in Hf.
  induction (bookings st) as [|b l IH]; [reflexivity|]. cbn [filter].
  assert (Hb : Booking.id b < next_uuid st)
    by (apply Z.ltb_lt, Hf; now left).
  destruct (Z.eqb_spec (Booking.id b) (next_uuid st)); [lia|].
  apply IH. intros x Hx. apply Hf. now right.
Qed.

Lemma no_unit_of_fresh_booking st u :
  forallb (fun b => Booking.id b <? next_uuid st) (bookings st) = true ->
  units_reference_bookings st = true ->
  In u (units st) -> ReservationUnit.booking_id u <> next_uuid st.
Proof.
  intros Hf Hfk Hu E.
  destruct (proj1 (units_reference_bookings_spec st) Hfk u Hu)
    as [b [Hb Eb]].
  rewrite forallb_forall in Hf. apply Hf, Z.ltb_lt in Hb. lia.
Qed.

(** X1.  A booking that was just created is found again by its id:
    [get_with_relations] on the new database gives the very object that
    [create_with_validation] returned, and the tables and slots of that
    object are the requested ones, each once. *)
Theorem create_then_get today obj_in user_id st o st' :
  wf_store st = true ->
  units_reference_bookings st = true ->
  BookingCreate_validate_relations obj_in = None ->
  run (create_with_validation today obj_in user_id) st = (inr o, st') ->
  run (get_with_relations (Booking.id (row o))) st' = (inr (Some o), st')
  /\ Permutation (map Table.id (obj_tables o))
                 (BookingCreate.tables_id obj_in)
  /\ Permutation (map Slot.id (obj_slots o))
                 (BookingCreate.slots_id obj_in).
Proof.
  intros Hwf Hfk Hvalid H.
  pose proof (wf_store_parts st Hwf)
    as [_ [Htpk [Hspk [_ [_ [_ [Hfb _]]]]]]].
  apply BookingCreate_validate_relations_None in Hvalid.
  destruct Hvalid as [Hts [Hss [Hdt Hds]]].
  apply create_success_inv in H.
  destruct H as [_ [_ [Hrel [_ [_ [_ [Est ->]]]]]]].
  apply relations_error_None in Hrel. destruct Hrel as [_ [_ [Hrt Hrs]]].
  cbn [row load Booking.id new_booking].
  assert (Hunits : forall u,
            In u (units st') ->
            ReservationUnit.booking_id u = next_uuid st ->
            In (ReservationUnit.table_id u) (BookingCreate.tables_id obj_in)
            /\ In (ReservationUnit.slot_id u)
                  (BookingCreate.slots_id obj_in)).
  { intros u Hu Hb. rewrite Est in Hu. cbn [units] in Hu.
    apply in_app_or in Hu. destruct Hu as [Hu|Hu].
    - exfalso. exact (no_unit_of_fresh_booking st u Hfb Hfk Hu Hb).
    - apply with_keys_In in Hu. destruct Hu as [f [k [Hf [_ ->]]]].
      apply cross_units_In in Hf. destruct Hf as [t [s [Ht [Hs ->]]]].
      cbn. split.
      + now apply (selected_table_ids st _ _ t Hrt).
      + now apply (selected_slot_ids st _ _ s Hrs). }
  assert (Hpair : forall t s,
            In t (BookingCreate.tables_id obj_in) ->
            In s (BookingCreate.slots_id obj_in) ->
            exists u, In u (units st')
                      /\ ReservationUnit.booking_id u = next_uuid st
                      /\ ReservationUnit.table_id u = t
                      /\ ReservationUnit.slot_id u = s).
  { intros t s Ht Hs.
    apply (selected_table_ids st _ _ t Hrt) in Ht.
    apply (selected_slot_ids st _ _ s Hrs) in Hs.
    destruct (In_with_keys
                (cross_units (next_uuid st) (BookingCreate.cafe_id obj_in)
                   (BookingCreate.booking_date obj_in)
                   (map Table.id
                      (select_tables (BookingCreate.tables_id obj_in) st))
                   (map Slot.id
                      (select_slots (BookingCreate.slots_id obj_in) st)))
                (next_uuid st + 1)
                (fun k => ReservationUnit.mk k (next_uuid st)
                            (BookingCreate.cafe_id obj_in) t s
                            (BookingCreate.booking_date obj_in)))
      as [k Hk].
    { apply cross_units_In. now exists t, s. }
    eexists. split; [rewrite Est; cbn [units]; apply in_or_app; right;
                     exact Hk|].
    repeat split. }
  split; [|split].
  - unfold run, get_with_relations, query.
    cbn [open_session working close_session committed].
    rewrite Est at 1. cbn [bookings].
    rewrite fresh_booking_lookup by (assumption || reflexivity).
    reflexivity.
  - apply NoDup_Permutation.
    + apply distinct_NoDup. rewrite Est. unfold booking_tables.
      cbn [tables]. now apply distinct_map_filter.
    + assumption.
    + intros x. rewrite in_map_iff. split.
      * intros [t [<- Ht]]. unfold booking_tables in Ht.
        apply filter_In in Ht. destruct Ht as [_ Ht].
        apply existsb_exists in Ht. destruct Ht as [u [Hu Hc]].
        apply andb_true_iff in Hc. destruct Hc as [Hb Et].
        apply Z.eqb_eq in Hb, Et. rewrite <- Et.
        now apply (Hunits u Hu Hb).
      * intros Hx. destruct (Hrt x Hx) as [t [Ht [<- _]]].
        destruct (BookingCreate.slots_id obj_in) as [|s0 l] eqn:Es;
          [congruence|].
        destruct (Hpair (Table.id t) s0 Hx (or_introl eq_refl))
          as [u [Hu [Hb [Et _]]]].
        exists t. split; [reflexivity|]. unfold booking_tables.
        apply filter_In. split; [rewrite Est; exact Ht|].
        apply existsb_exists. exists u. split; [assumption|].
        now rewrite Hb, Et, !Z.eqb_refl.
  - apply NoDup_Permutation.
    + apply distinct_NoDup. rewrite Est. unfold booking_slots.
      cbn [slots]. now apply distinct_map_filter.
    + assumption.
    + intros x. rewrite in_map_iff. split.
      * intros [s [<- Hs]]. unfold booking_slots in Hs.
        apply filter_In in Hs. destruct Hs as [_ Hs].
        apply existsb_exists in Hs. destruct Hs as [u [Hu Hc]].
        apply andb_true_iff in Hc. destruct Hc as [Hb Et].
        apply Z.eqb_eq in Hb, Et. rewrite <- Et.
        now apply (Hunits u Hu Hb).
      * intros Hx. destruct (Hrs x Hx) as [s [Hs [<- _]]].
        destruct (BookingCreate.tables_id obj_in) as [|t0 l] eqn:Es;
          [congruence|].
        destruct (Hpair t0 (Slot.id s) (or_introl eq_refl) Hx)
          as [u [Hu [Hb [_ Et]]]].
        exists s. split; [reflexivity|]. unfold booking_slots.
        apply filter_In. split; [rewrite Est; exact Hs|].
        apply existsb_exists. exists u. split; [assumption|].
        now rewrite Hb, Et, !Z.eqb_refl.
Qed.

(** X13.  On a database that satisfies its constraints a creation returns a
    booking exactly when the cafe exists, the date is not past, the lists
    are non-empty and resolve to active rows of the cafe, the seats cover
    the guests, the user exists, and no reservation unit at all, of whatever
    booking, is on a requested (table, slot) pair on that date. *)
Theorem creation_succeeds_iff today obj_in user_id st :
  wf_store st = true ->
  let c := BookingCreate.cafe_id obj_in in
  let d := BookingCreate.booking_date obj_in in
  let ts := BookingCreate.tables_id obj_in in
  let ss := BookingCreate.slots_id obj_in in
  (exists o st',
      run (create_with_validation today obj_in user_id) st = (inr o, st'))
  <-> (exists x, In x (cafes st) /\ Cafe.id x = c)
      /\ today <= d
      /\ ts <> [] /\ ss <> []
      /\ tables_resolve st c ts /\ slots_resolve st c ss
      /\ BookingCreate.guest_number obj_in <= sum_seats (select_tables ts st)
      /\ mem user_id (users st) = true
      /\ (forall u, In u (units st) ->
                    In (ReservationUnit.table_id u) ts ->
                    In (ReservationUnit.slot_id u) ss ->
                    ReservationUnit.booking_date u <> d).
Proof.
  intros Hwf c d ts ss. split.
  - intros [o [st' H]].
    pose proof (wf_store_parts st Hwf) as [_ [_ [_ [_ [_ [Huq _]]]]]].
    pose proof (held_atom_blocks_creation today obj_in user_id st) as Hblock.
    pose proof H as H'. apply create_success_inv in H'.
    destruct H' as [[x Hx] [Hd [Hrel [Hg [_ [Huser _]]]]]].
    apply relations_error_None in Hrel.
    destruct Hrel as [Hts [Hss [Hrt Hrs]]].
    split.
    { exists x. assert (Hin : In x (filter (fun c0 => Cafe.id c0 =? c)
                                           (cafes st)))
        by (fold c in Hx; rewrite Hx; now left).
      apply filter_In in Hin. destruct Hin as [Hin E].
      apply Z.eqb_eq in E. now split. }
    split; [now apply Z.leb_le|].
    repeat (split; [assumption|]).
    intros u Hu Ht Hs Hdate.
    exact (Hblock u Huq Hu Ht Hs Hdate o st' H).
  - intros [Hcafe [Hd [Hts [Hss [Hrt [Hrs [Hg [Huser Hnone]]]]]]]].
    assert (Hrel : relations_error c ts ss st = None)
      by (apply relations_error_None; tauto).
    destruct (run_create_cases today obj_in user_id st Hwf)
      as [[Hno _]|[_ [[Hd' _]|[_ [[m [Hm _]]|[_ [[Hg' _]|[_
            [[[t [s [Ht [Hs Hc]]]] _]|[_ R]]]]]]]]]].
    + destruct Hcafe as [x [Hx Ex]]. exfalso. exact (Hno x Hx Ex).
    + fold d in Hd'. lia.
    + fold c ts ss in Hm. congruence.
    + fold ts in Hg'. lia.
    + exfalso. destruct Hc as [u [b [Hu [_ [_ [Et [Es [Ed _]]]]]]]].
      apply (Hnone u Hu); [rewrite Et | rewrite Es | rewrite Ed];
        (assumption || reflexivity).
    + rewrite R. now apply persist_succeeds.
Qed.

(** X2.  Once a creation has returned, the same request made again, by
    anyone, never returns a booking; when the first booking was not created
    as CANCELED the second request is rejected with the 'already occupied'
    [ValueError], and the database stays as the first request left it. *)
Theorem repeated_request_rejected today obj_in user_id st o st' :
  wf_store st = true ->
  run (create_with_validation today obj_in user_id) st = (inr o, st') ->
  forall user_id',
    (forall o2 st2,
        run (create_with_validation today obj_in user_id') st'
        <> (inr o2, st2))
    /\ (BookingCreate.status obj_in <> CANCELED ->
        run (create_with_validation today obj_in user_id') st'
        = (inl (ValueError AlreadyOccupied), st')).
Proof.
  intros Hwf H user_id'.
  assert (Hwf' : wf_store st' = true).
  { eapply step_keeps_wf; [exact Hwf|]. eapply step_create. exact H. }
  pose proof (wf_store_parts st Hwf) as [_ [_ [_ [_ [_ [Huq _]]]]]].
  pose proof (create_keeps_uq _ _ _ _ _ _ Huq H) as Huq'.
  apply create_success_inv in H.
  destruct H as [[x Hx] [Hd [Hrel [Hg [_ [_ [Est _]]]]]]].
  pose proof Hrel as Hrel0.
  apply relations_error_None in Hrel.
  destruct Hrel as [Hts [Hss [Hrt Hrs]]].
  destruct (BookingCreate.tables_id obj_in) as [|t0 lt] eqn:Et;
    [congruence|].
  destruct (BookingCreate.slots_id obj_in) as [|s0 ls] eqn:Es;
    [congruence|].
  (* the unit of the first booking on the first requested pair *)
  destruct (In_with_keys
              (cross_units (next_uuid st) (BookingCreate.cafe_id obj_in)
                 (BookingCreate.booking_date obj_in)
                 (map Table.id (select_tables (t0 :: lt) st))
                 (map Slot.id (select_slots (s0 :: ls) st)))
              (next_uuid st + 1)
              (fun k => ReservationUnit.mk k (next_uuid st)
                          (BookingCreate.cafe_id obj_in) t0 s0
                          (BookingCreate.booking_date obj_in)))
    as [k Hk].
  { apply cross_units_In. exists t0, s0.
    split; [apply (selected_table_ids st _ _ t0 Hrt); now left|].
    split; [apply (selected_slot_ids st _ _ s0 Hrs); now left|].
    reflexivity. }
  assert (Hu : In (ReservationUnit.mk k (next_uuid st)
                     (BookingCreate.cafe_id obj_in) t0 s0
                     (BookingCreate.booking_date obj_in)) (units st')).
  { rewrite Est. cbn [units]. apply in_or_app. right. exact Hk. }
  split.
  - intros o2 st2.
    apply (held_atom_blocks_creation today obj_in user_id' st' _ Huq' Hu).
    + rewrite Et. now left.
    + rewrite Es. now left.
    + reflexivity.
  - intros Hstatus.
    destruct (run_create_cases today obj_in user_id' st' Hwf')
      as [[Hno _]|[_ [[Hd' _]|[_ [[m [Hm _]]|[_ [[Hg' _]|[_
            [[_ R]|[Hfree _]]]]]]]]]].
    + exfalso. assert (Hin : In x (filter
                 (fun c0 => Cafe.id c0 =? BookingCreate.cafe_id obj_in)
                 (cafes st))) by (rewrite Hx; now left).
      apply filter_In in Hin. destruct Hin as [Hin E].
      apply Z.eqb_eq in E. apply (Hno x); [|exact E].
      rewrite Est. exact Hin.
    + apply Z.leb_le in Hd. lia.
    + rewrite (relations_error_frame _ _ _ st st') in Hm
        by (rewrite Est; reflexivity).
      rewrite Et, Es in Hm. congruence.
    + exfalso. rewrite Et in Hg'.
      replace (select_tables (t0 :: lt) st')
        with (select_tables (t0 :: lt) st) in Hg'
        by (rewrite Est; reflexivity).
      lia.
    + exact R.
    + exfalso. apply (Hfree t0 s0).
      * rewrite Et. now left.
      * rewrite Es. now left.
      * eexists. exists (new_booking obj_in user_id (next_uuid st)).
        split; [exact Hu|]. split.
        { rewrite Est. cbn [bookings]. apply in_or_app. right. now left. }
        cbn. repeat split; try assumption. discriminate.
Qed.

(** ** More on the conflict search *)

(** X4.  On a database that satisfies its constraints, a booking is no
    obstacle to itself: when every requested (table, slot) pair carries, on
    that date, a unit of booking [b], the search that excludes [b] answers
    [True]; without the exclusion, and for a non-empty request, it answers
    [False] as soon as [b] is active and not canceled. *)
Theorem own_units_do_not_conflict c ts ss d b st :
  wf_store st = true ->
  (forall t s, In t ts -> In s ss ->
     exists u, In u (units st)
               /\ ReservationUnit.booking_id u = Booking.id b
               /\ ReservationUnit.table_id u = t
               /\ ReservationUnit.slot_id u = s
               /\ ReservationUnit.booking_date u = d) ->
  run (check_tables_availability c ts ss d (Some (Booking.id b))) st
  = (inr true, st)
  /\ (In b (bookings st) -> holding b = true -> ts <> [] -> ss <> [] ->
      run (check_tables_availability c ts ss d None) st = (inr false, st)).
Proof.
  intros Hwf Hown.
  pose proof (wf_store_parts st Hwf) as [_ [_ [_ [Hpk [_ [Huq _]]]]]].
  rewrite !run_reads by apply reads_check_tables_availability.
  split.
  - destruct (check_tables_availability_cases c ts ss d
                (Some (Booking.id b)) st Hpk Huq)
      as [[E _]|[_ [t [s [Ht [Hs Hc]]]]]]; [now rewrite E|].
    exfalso. destruct Hc as [u' [b' [Hu' [_ [Eb [Et [Es [Ed [_ [_ Hex]]]]]]]]]].
    destruct (Hown t s Ht Hs) as [u [Hu [Hb [Et' [Es' Ed']]]]].
    assert (Esame : same_atom u u' = true)
      by (apply same_atom_true; repeat split; congruence).
    pose proof (uq_atoms_In _ _ _ Huq Hu Hu' Esame) as ->.
    apply (Hex _ eq_refl). congruence.
  - intros Hb Hhold Hts Hss.
    destruct (check_tables_availability_cases c ts ss d None st Hpk Huq)
      as [[_ Hfree]|[E _]]; [|now rewrite E].
    exfalso. destruct ts as [|t lt]; [congruence|].
    destruct ss as [|s ls]; [congruence|].
    assert (Ht : In t (t :: lt)) by now left.
    assert (Hs : In s (s :: ls)) by now left.
    destruct (Hown t s Ht Hs) as [u [Hu [Eb [Et [Es Ed]]]]].
    apply (Hfree t s Ht Hs). exists u, b.
    unfold holding in Hhold. apply andb_true_iff in Hhold.
    destruct Hhold as [Hst Hact]. apply negb_true_iff in Hst.
    repeat split; try assumption.
    + intros E. rewrite E in Hst. discriminate.
    + discriminate.
Qed.

(** X5.  What is available stays available for a smaller request: on a
    database that satisfies its constraints, if the search answers [True] for
    lists of tables and slots it answers [True] for any lists drawn from
    them, in any order and with repetitions, the empty lists included, and
    whatever [cafe_id] is passed. *)
Theorem availability_is_monotone c c' ts ss ts' ss' d ex st :
  wf_store st = true ->
  incl ts' ts -> incl ss' ss ->
  run (check_tables_availability c ts ss d ex) st = (inr true, st) ->
  run (check_tables_availability c' ts' ss' d ex) st = (inr true, st).
Proof.
  intros Hwf Hts Hss.
  pose proof (wf_store_parts st Hwf) as [_ [_ [_ [Hpk [_ [Huq _]]]]]].
  rewrite !run_reads by apply reads_check_tables_availability.
  intros H.
  destruct (check_tables_availability_cases c ts ss d ex st Hpk Huq)
    as [[_ Hfree]|[E _]]; [|congruence].
  destruct (check_tables_availability_cases c' ts' ss' d ex st Hpk Huq)
    as [[E _]|[_ [t [s [Ht [Hs Hc]]]]]]; [now rewrite E|].
  exfalso. exact (Hfree t s (Hts t Ht) (Hss s Hs) Hc).
Qed.

(** ** The relation check on its own *)

(** X7.  [_validate_relations] never writes; it returns exactly when both
    lists are non-empty and every id, repeated or not, names an active row
    of the cafe, and otherwise raises the first of: no table, no slot, some
    table unavailable, some slot unavailable. *)
Theorem validate_relations_outcome c ts ss ses :
  exists r,
    _validate_relations c ts ss ses = (r, ses)
    /\ (r = inr tt <->
        ts <> [] /\ ss <> []
        /\ tables_resolve (working ses) c ts
        /\ slots_resolve (working ses) c ss)
    /\ (ts = [] -> r = inl (ValueError NoTables))
    /\ (ts <> [] -> ss = [] -> r = inl (ValueError NoSlots))
    /\ (ts <> [] -> ss <> [] -> ~ tables_resolve (working ses) c ts ->
        r = inl (ValueError TablesUnavailable))
    /\ (ts <> [] -> ss <> [] -> tables_resolve (working ses) c ts ->
        ~ slots_resolve (working ses) c ss ->
        r = inl (ValueError SlotsUnavailable)).
Proof.
  rewrite (reads_validate_relations c ts ss ses), eval_validate_relations.
  eexists. split; [reflexivity|].
  pose proof (relations_error_None c ts ss (working ses)) as Hnone.
  pose proof (tables_len_set (working ses) c ts) as Hlt.
  pose proof (slots_len_set (working ses) c ss) as Hls.
  unfold relations_error in *.
  destruct ts as [|t lt].
  { split; [split; [discriminate | intros [H _]; congruence]|].
    split; [reflexivity|]. repeat split; congruence. }
  destruct ss as [|s ls].
  { split; [split; [discriminate | intros [_ [H _]]; congruence]|].
    split; [discriminate|]. split; [reflexivity|]. split; congruence. }
  match goal with
  | |- context [negb (Nat.eqb ?a ?b)] => destruct (Nat.eqb_spec a b) as [E1|E1]
  end; cbn [negb].
  - match goal with
    | |- context [negb (Nat.eqb ?a ?b)] =>
        destruct (Nat.eqb_spec a b) as [E2|E2]
    end; cbn [negb].
    + split; [split; [intros _; now apply Hnone | reflexivity]|].
      split; [discriminate|]. split; [discriminate|].
      split; [intros _ _ H; exfalso; apply H; now apply Hlt|].
      intros _ _ _ H. exfalso. apply H. now apply Hls.
    + split; [split; [discriminate|]|].
      { intros [_ [_ [_ H]]]. apply Hls in H. contradiction. }
      split; [discriminate|]. split; [discriminate|].
      split; [intros _ _ H; exfalso; apply H; now apply Hlt|].
      reflexivity.
  - split; [split; [discriminate|]|].
    { intros [_ [_ [H _]]]. apply Hlt in H. contradiction. }
    split; [discriminate|]. split; [discriminate|].
    split; [reflexivity|].
    intros _ _ H. apply Hlt in H. contradiction.
Qed.

(** ** Notes *)

Section NotesFacts.

Variable char : Type.
Variable isspace : char -> bool.

Lemma lstrip_decomp s :
  exists sp, s = sp ++ lstrip char isspace s /\ forallb isspace sp = true.
Proof.
  induction s as [|c r [sp [E Hsp]]]; [now exists []|].
  cbn [lstrip]. destruct (isspace c) eqn:Ec.
  - exists (c :: sp). split; [cbn; now rewrite <- E | cbn; now rewrite Ec].
  - now exists [].
Qed.

Lemma lstrip_head s c r : lstrip char isspace s = c :: r -> isspace c = false.
Proof.
  induction s as [|a l IH]; [discriminate|]. cbn [lstrip].
  destruct (isspace a) eqn:Ea; [exact IH|]. now intros [= <- _].
Qed.

Lemma lstrip_fixed s :
  (forall c r, s = c :: r -> isspace c = false) -> lstrip char isspace s = s.
Proof.
  destruct s as [|c r]; [reflexivity|]. intros H. cbn [lstrip].
  now rewrite (H c r eq_refl).
Qed.

Lemma lstrip_spaces s : forallb isspace s = true -> lstrip char isspace s = [].
Proof.
  induction s as [|c r IH]; [reflexivity|]. cbn [forallb lstrip].
  intros H. apply andb_true_iff in H. destruct H as [-> H]. now apply IH.
Qed.

Lemma strip_head s c r : strip char isspace s = c :: r -> isspace c = false.
Proof.
  unfold strip, rstrip. intros E.
  destruct (lstrip_decomp (rev (lstrip char isspace s))) as [sp [Hd _]].
  apply (f_equal (@rev char)) in Hd.
  rewrite rev_involutive, rev_app_distr, E in Hd.
  cbn [app] in Hd. exact (lstrip_head _ _ _ Hd).
Qed.

Lemma strip_last s c r : strip char isspace s = r ++ [c] -> isspace c = false.
Proof.
  unfold strip, rstrip. intros E.
  apply (f_equal (@rev char)) in E.
  rewrite rev_involutive, rev_app_distr in E. cbn [rev app] in E.
  exact (lstrip_head _ _ _ E).
Qed.

Lemma strip_idempotent s : strip char isspace (strip char isspace s) = strip char isspace s.
Proof.
  unfold strip at 1. unfold rstrip.
  rewrite (lstrip_fixed (strip char isspace s)) by apply strip_head.
  rewrite lstrip_fixed; [apply rev_involutive|].
  intros c r E. apply (strip_last s c (rev r)).
  apply (f_equal (@rev char)) in E. rewrite rev_involutive in E.
  exact E.
Qed.

Lemma strip_nil s : strip char isspace s = [] <-> forallb isspace s = true.
Proof.
  split.
  - unfold strip, rstrip. intros E.
    apply (f_equal (@rev char)) in E. rewrite rev_involutive in E.
    cbn [rev] in E.
    destruct (lstrip_decomp (rev (lstrip char isspace s))) as [sp [Hd Hsp]].
    rewrite E, app_nil_r in Hd.
    assert (Ha : forallb isspace (lstrip char isspace s) = true).
    { apply forallb_forall. intros x Hx. apply in_rev in Hx.
      rewrite Hd in Hx. rewrite forallb_forall in Hsp. now apply Hsp. }
    destruct (lstrip char isspace s) as [|c r] eqn:El.
    + destruct (lstrip_decomp s) as [sp' [Hd' Hsp']].
      rewrite El, app_nil_r in Hd'. now subst.
    + apply lstrip_head in El. cbn [forallb] in Ha.
      rewrite El in Ha. discriminate.
  - intros H. unfold strip. now rewrite lstrip_spaces.
Qed.

(** X9.  [normalize_note] gives a normal form: a returned note is never
    empty and neither begins nor ends with a whitespace character, and
    normalizing it again returns it unchanged; the result is [None] exactly
    for [None] and for strings of whitespace only; anything that is neither
    [None] nor a string is refused. *)
Theorem normalize_note_normal_form (v : RawValue char) :
  (forall s, normalize_note char isspace v = inr (Some s) ->
     s <> []
     /\ (forall c r, s = c :: r -> isspace c = false)
     /\ (forall c r, s = r ++ [c] -> isspace c = false)
     /\ normalize_note char isspace (RawStr s) = inr (Some s))
  /\ (normalize_note char isspace v = inr None <->
      v = RawNone \/ exists s, v = RawStr s /\ forallb isspace s = true)
  /\ (forall e, normalize_note char isspace v = inl e <->
                v = RawOther /\ e = NoteNotString).
Proof.
  split; [|split].
  - intros s H. destruct v as [|s0|]; cbn in H; try discriminate.
    destruct (strip char isspace s0) as [|c r] eqn:E; [discriminate|].
    injection H as <-. rewrite <- E.
    split; [rewrite E; discriminate|].
    split; [intros c0 r0 E0; eapply strip_head; exact E0|].
    split; [intros c0 r0 E0; eapply strip_last; exact E0|].
    cbn [normalize_note]. rewrite strip_idempotent, E. reflexivity.
  - destruct v as [|s0|]; cbn.
    + split; [intros _; now left | reflexivity].
    + destruct (strip char isspace s0) as [|c r] eqn:E.
      * split; [|reflexivity]. intros _. right. exists s0.
        split; [reflexivity | now apply strip_nil].
      * split; [discriminate|].
        intros [H|[s [[= <-] H]]]; [discriminate|].
        apply strip_nil in H. congruence.
    + split; [discriminate|]. intros [H|[s [H _]]]; discriminate.
  - intros e. destruct v as [|s0|]; cbn.
    + split; [discriminate | intros [H _]; discriminate].
    + destruct (strip char isspace s0);
        (split; [discriminate | intros [H _]; discriminate]).
    + split; [intros [= <-]; now split | intros [_ ->]; reflexivity].
Qed.

End NotesFacts.

(** ** Listings *)

Lemma paginate_eq {A} (offset limit : nat) (rows : list A) :
  paginate offset limit rows
  = match limit with
    | O => skipn offset rows
    | _ => firstn limit (skipn offset rows)
    end.
Proof. unfold paginate. destruct offset, limit; reflexivity. Qed.

Lemma listing_conditions_true show_all cafe_id user_id b :
  listing_conditions show_all cafe_id user_id b = true
  <-> (show_all = false -> Booking.is_active b = true)
      /\ (forall c, cafe_id = Some c -> Booking.cafe_id b = c)
      /\ (forall u, user_id = Some u -> Booking.user_id b = u).
Proof.
  unfold listing_conditions. rewrite !andb_true_iff, orb_true_iff.
  destruct show_all, cafe_id as [c|], user_id as [u|];
    rewrite ?Z.eqb_eq; split;
    try (intros [[H1 H2] H3]; repeat split; intros; try congruence;
         destruct H1; congruence);
    intros [H1 [H2 H3]]; repeat split; auto.
Qed.

Lemma filter_Permutation {A} (f : A -> bool) l l' :
  Permutation l l' -> Permutation (filter f l) (filter f l').
Proof.
  induction 1 as [|x l l' H IH|x y l|l l' l'' H1 IH1 H2 IH2]; cbn [filter].
  - constructor.
  - destruct (f x); [now constructor | assumption].
  - destruct (f x), (f y); try reflexivity. apply perm_swap.
  - etransitivity; eassumption.
Qed.

Lemma NoDup_paginate {A} (offset limit : nat) (rows : list A) :
  NoDup rows -> NoDup (paginate offset limit rows).
Proof.
  intros H. rewrite paginate_eq.
  assert (Hs : NoDup (skipn offset rows)).
  { rewrite <- (firstn_skipn offset rows) in H.
    exact (NoDup_app_remove_l _ _ H). }
  destruct limit; [assumption|].
  rewrite <- (firstn_skipn (S limit) (skipn offset rows)) in Hs.
  exact (NoDup_app_remove_r _ _ Hs).
Qed.

Lemma In_paginate {A} (offset limit : nat) (rows : list A) x :
  In x (paginate offset limit rows) -> In x rows.
Proof.
  rewrite paginate_eq. intros H.
  assert (Hs : In x (skipn offset rows)).
  { destruct limit; [assumption|].
    rewrite <- (firstn_skipn (S limit) (skipn offset rows)).
    apply in_or_app. now left. }
  rewrite <- (firstn_skipn offset rows). apply in_or_app. now right.
Qed.

Lemma length_paginate {A} (offset limit : nat) (rows : list A) :
  (limit = O -> length (paginate offset limit rows)
                = (length rows - offset)%nat)
  /\ (limit <> O -> length (paginate offset limit rows)
                    = Nat.min limit (length rows - offset)).
Proof.
  rewrite paginate_eq. split.
  - intros ->. apply length_skipn.
  - intros Hl. destruct limit; [congruence|].
    now rewrite length_firstn, length_skipn.
Qed.

Lemma paginate_all {A} (limit : nat) (rows : list A) :
  limit = O \/ (length rows <= limit)%nat -> paginate 0 limit rows = rows.
Proof.
  rewrite paginate_eq. cbn [skipn]. intros [->|Hl]; [reflexivity|].
  destruct limit; [reflexivity|]. now apply firstn_all2.
Qed.

(** X10.  [get_multi_with_relations], in whatever order the database
    returns the rows, never changes the database and returns only bookings
    of the table that satisfy the filters: active unless [show_all], of the
    cafe and of the user when these are given.  The number of rows is the
    number of matching bookings less [skip], cut to [limit] unless [limit]
    is 0, which stands for no limit; without an offset and with room for
    all of them the matching bookings are returned, each once; and no row
    of the table is returned twice. *)
Theorem listing_is_filtered scan skip limit show_all cafe_id user_id st :
  Permutation (scan (bookings st)) (bookings st) ->
  let matching := filter (listing_conditions show_all cafe_id user_id)
                         (bookings st) in
  exists rows,
    run (get_multi_with_relations scan skip limit show_all cafe_id user_id)
        st
    = (inr (map (load st) rows), st)
    /\ (forall b, In b rows ->
          In b (bookings st)
          /\ (show_all = false -> Booking.is_active b = true)
          /\ (forall c, cafe_id = Some c -> Booking.cafe_id b = c)
          /\ (forall u, user_id = Some u -> Booking.user_id b = u))
    /\ (limit = O -> length rows = (length matching - skip)%nat)
    /\ (limit <> O ->
        length rows = Nat.min limit (length matching - skip))
    /\ (skip = O -> limit = O \/ (length matching <= limit)%nat ->
        Permutation rows matching)
    /\ (NoDup (bookings st) -> NoDup rows).
Proof.
  intros Hscan matching.
  pose proof (filter_Permutation
                (listing_conditions show_all cafe_id user_id) _ _ Hscan)
    as Hperm.
  fold matching in Hperm.
  exists (paginate skip limit
            (filter (listing_conditions show_all cafe_id user_id)
                    (scan (bookings st)))).
  split; [reflexivity|].
  destruct (length_paginate skip limit
              (filter (listing_conditions show_all cafe_id user_id)
                      (scan (bookings st)))) as [Hl0 Hl1].
  rewrite (Permutation_length Hperm) in Hl0, Hl1.
  split; [|split; [exact Hl0|split; [exact Hl1|split]]].
  - intros b Hb. apply In_paginate in Hb.
    apply (Permutation_in _ Hperm) in Hb.
    apply filter_In in Hb. destruct Hb as [Hin Hc].
    apply listing_conditions_true in Hc. tauto.
  - intros -> Hroom. rewrite paginate_all; [exact Hperm|].
    now rewrite (Permutation_length Hperm).
  - intros Hnd. apply NoDup_paginate, NoDup_filter.
    exact (Permutation_NoDup (Permutation_sym Hscan) Hnd).
Qed.

(** X12.  The listing endpoint passes neither [skip] nor [limit], so it
    answers with at most a hundred bookings, whatever the order of the
    database: all the matching bookings while there are at most a hundred,
    and otherwise a hundred of them, so that some matching booking is
    missing from the answer. *)
Theorem get_all_booking_hundred scan show_all cafe_id user_id st :
  Permutation (scan (bookings st)) (bookings st) ->
  let matching := filter (listing_conditions show_all cafe_id user_id)
                         (bookings st) in
  exists rows,
    get_all_booking scan show_all cafe_id user_id st
    = (Returned (map (load st) rows), st)
    /\ length rows = Nat.min 100 (length matching)
    /\ (forall b, In b rows -> In b matching)
    /\ ((length matching <= 100)%nat -> Permutation rows matching)
    /\ (NoDup (bookings st) -> (100 < length matching)%nat ->
        ~ (forall b, In b matching -> In b rows)).
Proof.
  intros Hscan matching.
  pose proof (filter_Permutation
                (listing_conditions show_all cafe_id user_id) _ _ Hscan)
    as Hperm.
  fold matching in Hperm.
  exists (paginate 0 100
            (filter (listing_conditions show_all cafe_id user_id)
                    (scan (bookings st)))).
  split; [reflexivity|].
  assert (Hlen : length (paginate 0 100
                           (filter (listing_conditions show_all cafe_id
                                                       user_id)
                                   (scan (bookings st))))
                 = Nat.min 100 (length matching)).
  { destruct (length_paginate 0 100
                (filter (listing_conditions show_all cafe_id user_id)
                        (scan (bookings st)))) as [_ Hl].
    rewrite Hl by discriminate.
    now rewrite (Permutation_length Hperm), Nat.sub_0_r. }
  split; [exact Hlen|]. split; [|split].
  - intros b Hb. apply In_paginate in Hb.
    exact (Permutation_in _ Hperm Hb).
  - intros Hroom. rewrite paginate_all; [exact Hperm|].
    right. now rewrite (Permutation_length Hperm).
  - intros Hnd Hmore Hall.
    assert (Hm : NoDup matching) by (apply NoDup_filter; exact Hnd).
    pose proof (NoDup_incl_length Hm Hall) as Hle.
    rewrite Hlen in Hle. lia.
Qed.

(** ** The endpoints *)

Lemma create_booking_of_run today notification booking_data user_id st :
  create_booking today notification booking_data (Some user_id) st
  = match run (create_with_validation today booking_data user_id) st with
    | (inr o, st') => (Returned o, st')
    | (inl (ValueError m), st') =>
        (HTTPException 400 (ValidationDetail m), st')
    | (inl _, st') => (HTTPException 500 InternalError, st')
    end.
Proof.
  unfold create_booking, run.
  destruct (create_with_validation today booking_data user_id
                                   (open_session st)) as [[e|o] ses].
  - destruct e; reflexivity.
  - destruct (notification _ _ _); reflexivity.
Qed.

(** X15.  What [create_booking] answers: a booking only when
    [create_with_validation] returned it; otherwise 400 with the message of
    the [ValueError] (or for a missing user) or 500 for any other
    exception, and then the database is as before.  Whether the
    notification succeeds or raises changes neither the answer nor the
    database. *)
Theorem create_booking_response today notification booking_data current_user
    st resp st' :
  create_booking today notification booking_data current_user st
  = (resp, st') ->
  (forall notification',
      create_booking today notification' booking_data current_user st
      = (resp, st'))
  /\ match resp with
     | Returned o =>
         exists user_id,
           current_user = Some user_id
           /\ run (create_with_validation today booking_data user_id) st
              = (inr o, st')
     | HTTPException code detail =>
         st' = st
         /\ ((code = 400 /\ detail = UserNotFound /\ current_user = None)
             \/ (exists m user_id,
                    code = 400 /\ detail = ValidationDetail m
                    /\ current_user = Some user_id
                    /\ run (create_with_validation today booking_data
                                                   user_id) st
                       = (inl (ValueError m), st))
             \/ (exists e user_id,
                    code = 500 /\ detail = InternalError
                    /\ current_user = Some user_id
                    /\ (forall m, e <> ValueError m)
                    /\ run (create_with_validation today booking_data
                                                   user_id) st
                       = (inl e, st)))
     | Unhandled _ => False
     end.
Proof.
  intros H. destruct current_user as [user_id|].
  - split.
    + intros n'. rewrite create_booking_of_run in *. exact H.
    + rewrite create_booking_of_run in H.
      destruct (run (create_with_validation today booking_data user_id) st)
        as [[e|o] st1] eqn:R.
      * pose proof (run_create_failure _ _ _ _ _ _ R) as ->.
        destruct e as [m|c| |]; injection H as <- <-;
          (split; [reflexivity|]);
          [right; left; exists m, user_id; now repeat split | | |];
          right; right;
          match type of R with
          | _ = (inl ?e, _) => exists e, user_id
          end;
          (split; [reflexivity|]); (split; [reflexivity|]);
          (split; [reflexivity|]); (split; [discriminate | exact R]).
      * injection H as <- <-. now exists user_id.
  - cbn in H. injection H as <- <-. split; [reflexivity|].
    split; [reflexivity|]. left. now repeat split.
Qed.

Lemma stale_unit_integrity_error today obj_in user_id st u :
  wf_store st = true ->
  (exists x, In x (cafes st) /\ Cafe.id x = BookingCreate.cafe_id obj_in) ->
  today <= BookingCreate.booking_date obj_in ->
  relations_error (BookingCreate.cafe_id obj_in)
                  (BookingCreate.tables_id obj_in)
                  (BookingCreate.slots_id obj_in) st = None ->
  BookingCreate.guest_number obj_in
  <= sum_seats (select_tables (BookingCreate.tables_id obj_in) st) ->
  (forall t s, In t (BookingCreate.tables_id obj_in) ->
               In s (BookingCreate.slots_id obj_in) ->
               ~ conflict st None t s (BookingCreate.booking_date obj_in)) ->
  In u (units st) ->
  In (ReservationUnit.table_id u) (BookingCreate.tables_id obj_in) ->
  In (ReservationUnit.slot_id u) (BookingCreate.slots_id obj_in) ->
  ReservationUnit.booking_date u = BookingCreate.booking_date obj_in ->
  run (create_with_validation today obj_in user_id) st
  = (inl (IntegrityError (if mem user_id (users st)
                          then uq_reservation_atom else fk_booking_user)),
     st).
Proof.
  intros Hwf [x [Hx Ex]] Hd Hrel Hg Hfree Hu Ht Hs Ed.
  pose proof (run_create_cases today obj_in user_id st Hwf) as Hc.
  cbv zeta in Hc.
  destruct Hc as [[Hno _]|[_ Hc]]; [exfalso; exact (Hno x Hx Ex)|].
  destruct Hc as [[Hlt _]|[_ Hc]]; [lia|].
  destruct Hc as [[m [Hm _]]|[_ Hc]]; [congruence|].
  destruct Hc as [[Hlt _]|[_ Hc]]; [lia|].
  destruct Hc as [[[t [s [Hit [His Hcf]]]] _]|[_ Hr]];
    [exfalso; exact (Hfree t s Hit His Hcf)|].
  rewrite Hr. unfold run. rewrite persist_unfold. cbv zeta.
  change (working (open_session st)) with st.
  change (pending (open_session st))
    with (@nil (UUID -> ReservationUnit.t)).
  destruct (mem user_id (users st)); cbn [negb]; [|reflexivity].
  assert (Hcafe : existsb (fun c => Cafe.id c =? BookingCreate.cafe_id obj_in)
                          (cafes st) = true).
  { apply existsb_exists. exists x. split; [assumption|].
    now apply Z.eqb_eq. }
  rewrite Hcafe. cbn [negb app].
  apply relations_error_None in Hrel. destruct Hrel as [_ [_ [Hrt Hrs]]].
  apply (selected_table_ids st _ _ _ Hrt) in Ht.
  apply (selected_slot_ids st _ _ _ Hrs) in Hs.
  match goal with
  | |- context [insert_units ?rows ?st1] =>
      rewrite (insert_units_blocked rows st1
                 (fun k => ReservationUnit.mk k (next_uuid st)
                             (BookingCreate.cafe_id obj_in)
                             (ReservationUnit.table_id u)
                             (ReservationUnit.slot_id u)
                             (BookingCreate.booking_date obj_in)) u)
  end.
  - reflexivity.
  - apply cross_units_In. cbn [new_booking Booking.id]. eauto.
  - exact Hu.
  - intros pk. unfold same_atom. cbn. now rewrite Ed, !Z.eqb_refl.
Qed.

(** X16.  A request for a (table, slot, date) on which a reservation unit
    still sits, although no active booking holds it (the unit of a canceled
    or deactivated booking), passes every check of
    [create_with_validation] and fails at the commit on
    [uq_reservation_atom]; [create_booking] answers 500 and the database is
    unchanged. *)
Theorem stale_unit_answers_500 today notification obj_in user_id st u :
  wf_store st = true ->
  mem user_id (users st) = true ->
  (exists x, In x (cafes st) /\ Cafe.id x = BookingCreate.cafe_id obj_in) ->
  today <= BookingCreate.booking_date obj_in ->
  relations_error (BookingCreate.cafe_id obj_in)
                  (BookingCreate.tables_id obj_in)
                  (BookingCreate.slots_id obj_in) st = None ->
  BookingCreate.guest_number obj_in
  <= sum_seats (select_tables (BookingCreate.tables_id obj_in) st) ->
  (forall t s, In t (BookingCreate.tables_id obj_in) ->
               In s (BookingCreate.slots_id obj_in) ->
               ~ conflict st None t s (BookingCreate.booking_date obj_in)) ->
  In u (units st) ->
  In (ReservationUnit.table_id u) (BookingCreate.tables_id obj_in) ->
  In (ReservationUnit.slot_id u) (BookingCreate.slots_id obj_in) ->
  ReservationUnit.booking_date u = BookingCreate.booking_date obj_in ->
  run (create_with_validation today obj_in user_id) st
  = (inl (IntegrityError uq_reservation_atom), st)
  /\ create_booking today notification obj_in (Some user_id) st
     = (HTTPException 500 InternalError, st).
Proof.
  intros Hwf Huser Hcafe Hd Hrel Hg Hfree Hu Ht Hs Ed.
  pose proof (stale_unit_integrity_error today obj_in user_id st u Hwf Hcafe
                Hd Hrel Hg Hfree Hu Ht Hs Ed) as H.
  rewrite Huser in H. split; [exact H|].
  rewrite create_booking_of_run, H. reflexivity.
Qed.

Lemma get_booking_by_id_eq booking_id st :
  get_booking_by_id booking_id st
  = (match filter (fun b => Booking.id b =? booking_id) (bookings st) with
     | [] => HTTPException 404 BookingNotFound
     | r :: _ => Returned (load st r)
     end, st).
Proof.
  unfold get_booking_by_id, get_with_relations, query.
  change (working (open_session st)) with st.
  destruct (filter _ (bookings st)); reflexivity.
Qed.

Lemma filter_nil_iff {A} (f : A -> bool) l :
  filter f l = [] <-> forall x, In x l -> f x = false.
Proof.
  induction l as [|a l IH]; cbn [filter].
  - split; [intros _ x [] | reflexivity].
  - destruct (f a) eqn:E.
    + split; [discriminate|]. intros H.
      rewrite (H a (or_introl eq_refl)) in E. discriminate.
    + rewrite IH. split.
      * intros H x [<-|Hx]; auto.
      * intros H x Hx. apply H. now right.
Qed.

(** X17.  [get_booking_by_id] never changes the database; it answers 404
    exactly when no booking has the id, and otherwise returns a booking of
    the table with that id, loaded with its tables and slots. *)
Theorem get_booking_by_id_response booking_id st :
  exists resp,
    get_booking_by_id booking_id st = (resp, st)
    /\ (resp = HTTPException 404 BookingNotFound
        <-> forall b, In b (bookings st) -> Booking.id b <> booking_id)
    /\ (resp = HTTPException 404 BookingNotFound
        \/ exists b, resp = Returned (load st b)
                     /\ In b (bookings st) /\ Booking.id b = booking_id).
Proof.
  eexists. split; [apply get_booking_by_id_eq|].
  destruct (filter (fun b => Booking.id b =? booking_id) (bookings st))
    as [|r l] eqn:E.
  - split; [|now left]. split; [|reflexivity]. intros _ b Hb Eb.
    pose proof (proj1 (filter_nil_iff _ _) E b Hb) as Hf. cbn in Hf.
    apply Z.eqb_neq in Hf. contradiction.
  - assert (Hr : In r (filter (fun b => Booking.id b =? booking_id)
                              (bookings st))) by (rewrite E; now left).
    apply filter_In in Hr. destruct Hr as [Hr Er]. apply Z.eqb_eq in Er.
    split; [|right; now exists r].
    split; [discriminate|]. intros H. exfalso. exact (H r Hr Er).
Qed.

(** X18.  POST then GET: on a database that satisfies its constraints, the
    booking that [create_booking] returned is what [get_booking_by_id]
    returns for its id on the database the creation left. *)
Theorem post_then_get today notification booking_data current_user st o st' :
  wf_store st = true ->
  create_booking today notification booking_data current_user st
  = (Returned o, st') ->
  get_booking_by_id (Booking.id (row o)) st' = (Returned o, st').
Proof.
  intros Hwf H. destruct current_user as [user_id|]; [|discriminate].
  rewrite create_booking_of_run in H.
  destruct (run (create_with_validation today booking_data user_id) st)
    as [[e|o1] st1] eqn:R; [destruct e; discriminate|].
  injection H as -> ->.
  pose proof (wf_store_parts st Hwf) as [_ [_ [_ [_ [_ [_ [Hfb _]]]]]]].
  apply create_success_inv in R.
  destruct R as [_ [_ [_ [_ [_ [_ [Est ->]]]]]]].
  rewrite get_booking_by_id_eq.
  cbn [row load Booking.id new_booking].
  rewrite Est at 1. cbn [bookings].
  rewrite fresh_booking_lookup by (assumption || reflexivity).
  reflexivity.
Qed.

Lemma update_booking_eq today notification booking_id update_data current_user
    st :
  update_booking today notification booking_id update_data current_user st
  = match filter (fun b => Booking.id b =? booking_id) (bookings st) with
    | [] => (HTTPException 404 BookingNotFound, st)
    | b :: _ =>
        match users st with
        | [] => (HTTPException 400 UserNotFound, st)
        | _ :: _ =>
            match run (update_with_validation today (load st b) update_data)
                      st with
            | (inr o, st') => (Returned o, st')
            | (inl (ValueError m), st') =>
                (HTTPException 400 (ValidationDetail m), st')
            | (inl _, st') => (HTTPException 500 InternalError, st')
            end
        end
    end.
Proof.
  unfold update_booking, get_with_relations, query, run.
  change (working (open_session st)) with st.
  destruct (filter _ (bookings st)) as [|b l]; [reflexivity|].
  destruct (users st) as [|user us]; [reflexivity|].
  destruct (update_with_validation today (load st b) update_data
                                   (open_session st)) as [[e|o] ses].
  - destruct e; reflexivity.
  - destruct (notification _ _ _); reflexivity.
Qed.

Lemma booking_lookup bs k b :
  distinct (map Booking.id bs) = true ->
  In b bs -> Booking.id b = k ->
  filter (fun x => Booking.id x =? k) bs = [b].
Proof.
  induction bs as [|a r IH]; [intros _ []|].
  change (distinct (map Booking.id (a :: r)))
    with (negb (mem (Booking.id a) (map Booking.id r))
          && distinct (map Booking.id r)).
  rewrite andb_true_iff, negb_true_iff. intros [Ha Hr] Hin Ek.
  assert (Hnot : forall y, In y r -> Booking.id y <> Booking.id a).
  { intros y Hy E.
    assert (Hm : In (Booking.id a) (map Booking.id r))
      by (rewrite <- E; now apply in_map).
    apply mem_In in Hm. congruence. }
  cbn [filter]. destruct Hin as [->|Hin].
  - rewrite Ek, Z.eqb_refl. f_equal. apply filter_nil_iff.
    intros y Hy. apply Z.eqb_neq. rewrite <- Ek. now apply Hnot.
  - destruct (Z.eqb_spec (Booking.id a) k) as [E|E].
    + exfalso. apply (Hnot b Hin). congruence.
    + now apply IH.
Qed.


(** X20.  A patch that sets [booking_date] to [null] on a booking that may
    still be changed: the comparison of [None] with today's date raises a
    [TypeError] before anything is written, and [update_booking] answers
    500, not 400. *)
Theorem null_date_answers_500 today notification update_data current_user
    st b :
  wf_store st = true ->
  In b (bookings st) ->
  users st <> [] ->
  today <= Booking.booking_date b ->
  Booking.status b <> DONE ->
  BookingUpdate.booking_date update_data = Provided None ->
  run (update_with_validation today (load st b) update_data) st
  = (inl TypeError, st)
  /\ update_booking today notification (Booking.id b) update_data
                    current_user st
     = (HTTPException 500 InternalError, st).
Proof.
  intros Hwf Hb Hu Hd Hs Hnull.
  assert (R : run (update_with_validation today (load st b) update_data) st
              = (inl TypeError, st)).
  { unfold run. rewrite update_unfold.
    cbn [row load].
    destruct (Z.ltb_spec (Booking.booking_date b) today); [lia|].
    destruct (Booking.status b); try congruence;
      cbn [status_eqb]; unfold date_guard; rewrite Hnull; reflexivity. }
  split; [exact R|].
  rewrite update_booking_eq.
  pose proof (wf_store_parts st Hwf) as [_ [_ [_ [Hpk _]]]].
  rewrite (booking_lookup _ _ b Hpk Hb eq_refl).
  destruct (users st); [congruence|]. now rewrite R.
Qed.

(** ** The further properties at the example cafe *)

Lemma selection_update_synchronizes_witness :
  value (BookingUpdate.slots_id ex_reslot) <> None
  /\ run (update_with_validation ex_today (load ex_two ex_b2) ex_reslot)
         ex_two
     = (inr (load ex_two_reslot ex_b2), ex_two_reslot)
  /\ forall u, In u (units ex_two_reslot) ->
               ReservationUnit.booking_id u = 1002 ->
               ReservationUnit.booking_date u = 50
               /\ In (ReservationUnit.slot_id u) [201].
Proof.
  assert (Hsel : value (BookingUpdate.slots_id ex_reslot) <> None)
    by discriminate.
  assert (R : run (update_with_validation ex_today (load ex_two ex_b2)
                     ex_reslot) ex_two
              = (inr (load ex_two_reslot ex_b2), ex_two_reslot))
    by reflexivity.
  split; [exact Hsel|]. split; [exact R|].
  destruct (selection_update_synchronizes ex_today (load ex_two ex_b2)
              ex_reslot ex_two (load ex_two_reslot ex_b2) ex_two_reslot
              (or_intror Hsel) R) as [H _].
  intros u Hu Hb. destruct (H u Hu Hb) as [H1 [_ [_ H4]]].
  split; [exact H1 | exact H4].
Defined.

Lemma no_orphan_units_witness :
  units_reference_bookings ex_empty = true
  /\ reachable ex_today ex_empty ex_two
  /\ units_reference_bookings ex_two = true.
Proof.
  assert (Hreach : reachable ex_today ex_empty ex_two).
  { eapply reach_step.
    - eapply reach_step.
      + apply reach_refl.
      + apply (step_create ex_today ex_request 1 ex_empty
                 (inr (load ex_booked ex_b1)) ex_booked).
        reflexivity.
    - apply (step_create ex_today ex_request2 2 ex_booked
               (inr (load ex_two ex_b2)) ex_two).
      reflexivity. }
  split; [reflexivity|]. split; [exact Hreach|].
  exact (no_orphan_units ex_today ex_empty ex_two eq_refl Hreach).
Defined.

Lemma create_then_get_witness :
  wf_store ex_empty = true
  /\ units_reference_bookings ex_empty = true
  /\ BookingCreate_validate_relations ex_request = None
  /\ run (create_with_validation ex_today ex_request 1) ex_empty
     = (inr (load ex_booked ex_b1), ex_booked)
  /\ run (get_with_relations 1000) ex_booked
     = (inr (Some (load ex_booked ex_b1)), ex_booked)
  /\ Permutation (map Table.id (obj_tables (load ex_booked ex_b1))) [100]
  /\ Permutation (map Slot.id (obj_slots (load ex_booked ex_b1))) [200].
Proof.
  split; [reflexivity|]. split; [reflexivity|]. split; [reflexivity|].
  split; [reflexivity|].
  exact (create_then_get ex_today ex_request 1 ex_empty
           (load ex_booked ex_b1) ex_booked eq_refl eq_refl eq_refl eq_refl).
Defined.

Lemma creation_succeeds_iff_witness :
  wf_store ex_empty = true
  /\ exists o st',
       run (create_with_validation ex_today ex_request2 2) ex_empty
       = (inr o, st').
Proof.
  split; [reflexivity|].
  apply (proj2 (creation_succeeds_iff ex_today ex_request2 2 ex_empty
                  eq_refl)).
  split; [exists (Cafe.mk 10 true); split; [now left | reflexivity]|].
  split; [unfold ex_today; cbn; lia|].
  split; [discriminate|]. split; [discriminate|].
  split.
  { intros t [<-|[]]. exists (Table.mk 101 10 4 true).
    split; [right; now left|]. repeat split. }
  split.
  { intros s [<-|[]]. exists (Slot.mk 200 10 true).
    split; [now left|]. repeat split. }
  split; [cbn; lia|]. split; [reflexivity|].
  intros u [].
Defined.

Lemma repeated_request_rejected_witness :
  wf_store ex_empty = true
  /\ run (create_with_validation ex_today ex_request 1) ex_empty
     = (inr (load ex_booked ex_b1), ex_booked)
  /\ run (create_with_validation ex_today ex_request 2) ex_booked
     = (inl (ValueError AlreadyOccupied), ex_booked).
Proof.
  split; [reflexivity|]. split; [reflexivity|].
  destruct (repeated_request_rejected ex_today ex_request 1 ex_empty
              (load ex_booked ex_b1) ex_booked eq_refl eq_refl 2)
    as [_ H].
  apply H. discriminate.
Defined.

Lemma own_units_do_not_conflict_witness :
  wf_store ex_booked = true
  /\ run (check_tables_availability 10 [100] [200] 50 (Some 1000)) ex_booked
     = (inr true, ex_booked)
  /\ run (check_tables_availability 10 [100] [200] 50 None) ex_booked
     = (inr false, ex_booked).
Proof.
  split; [reflexivity|].
  assert (Hown : forall t s, In t [100] -> In s [200] ->
            exists u, In u (units ex_booked)
                      /\ ReservationUnit.booking_id u = Booking.id ex_b1
                      /\ ReservationUnit.table_id u = t
                      /\ ReservationUnit.slot_id u = s
                      /\ ReservationUnit.booking_date u = 50).
  { intros t s [<-|[]] [<-|[]]. exists ex_u1.
    split; [now left|]. repeat split. }
  destruct (own_units_do_not_conflict 10 [100] [200] 50 ex_b1 ex_booked
              eq_refl Hown) as [H1 H2].
  split; [exact H1|].
  apply H2; [now left | reflexivity | discriminate | discriminate].
Defined.

Lemma availability_is_monotone_witness :
  wf_store ex_booked = true
  /\ incl [201] [200; 201]
  /\ run (check_tables_availability 10 [101] [200; 201] 50 None) ex_booked
     = (inr true, ex_booked)
  /\ run (check_tables_availability 10 [101] [201] 50 None) ex_booked
     = (inr true, ex_booked).
Proof.
  assert (Hts : incl [101] [101]) by (intros x Hx; exact Hx).
  assert (Hss : incl [201] [200; 201])
    by (intros x [<-|[]]; right; now left).
  split; [reflexivity|]. split; [exact Hss|]. split; [reflexivity|].
  exact (availability_is_monotone 10 10 [101] [200; 201] [101] [201] 50 None
           ex_booked eq_refl Hts Hss eq_refl).
Defined.

Lemma listing_is_filtered_witness :
  Permutation (rev (bookings ex_two)) (bookings ex_two)
  /\ exists rows,
       run (get_multi_with_relations (@rev Booking.t) 1 1 false (Some 10)
                                     None) ex_two
       = (inr (map (load ex_two) rows), ex_two)
       /\ length rows = 1%nat
       /\ (forall b, In b rows ->
             In b (bookings ex_two) /\ Booking.is_active b = true).
Proof.
  assert (Hscan : Permutation (rev (bookings ex_two)) (bookings ex_two))
    by (apply Permutation_sym, Permutation_rev).
  split; [exact Hscan|].
  destruct (listing_is_filtered (@rev Booking.t) 1 1 false (Some 10) None
              ex_two Hscan) as [rows [H1 [H2 [_ [H4 _]]]]].
  exists rows. split; [exact H1|]. split.
  - rewrite H4 by discriminate. reflexivity.
  - intros b Hb. destruct (H2 b Hb) as [Hin [Hact _]].
    split; [exact Hin | now apply Hact].
Defined.

Lemma get_all_booking_hundred_witness :
  Permutation (rev (bookings ex_two)) (bookings ex_two)
  /\ exists rows,
       get_all_booking (@rev Booking.t) false None (Some 2) ex_two
       = (Returned (map (load ex_two) rows), ex_two)
       /\ Permutation rows [ex_b2].
Proof.
  assert (Hscan : Permutation (rev (bookings ex_two)) (bookings ex_two))
    by (apply Permutation_sym, Permutation_rev).
  split; [exact Hscan|].
  destruct (get_all_booking_hundred (@rev Booking.t) false None (Some 2)
              ex_two Hscan) as [rows [H1 [_ [_ [H4 _]]]]].
  exists rows. split; [exact H1|].
  apply H4. cbn. lia.
Defined.

Lemma create_booking_response_witness :
  create_booking ex_today ex_mail_down ex_request (Some 1) ex_empty
  = (Returned (load ex_booked ex_b1), ex_booked)
  /\ create_booking ex_today ex_mail_up ex_request (Some 1) ex_empty
     = (Returned (load ex_booked ex_b1), ex_booked).
Proof.
  assert (H : create_booking ex_today ex_mail_down ex_request (Some 1)
                             ex_empty
              = (Returned (load ex_booked ex_b1), ex_booked))
    by reflexivity.
  split; [exact H|].
  destruct (create_booking_response ex_today ex_mail_down ex_request (Some 1)
              ex_empty _ _ H) as [Hn _].
  apply Hn.
Defined.

Lemma stale_unit_answers_500_witness :
  wf_store ex_canceled = true
  /\ (forall t s, In t [100] -> In s [200] ->
                  ~ conflict ex_canceled None t s 50)
  /\ run (create_with_validation ex_today ex_request 2) ex_canceled
     = (inl (IntegrityError uq_reservation_atom), ex_canceled)
  /\ create_booking ex_today ex_mail_up ex_request (Some 2) ex_canceled
     = (HTTPException 500 InternalError, ex_canceled).
Proof.
  assert (Hfree : forall t s, In t [100] -> In s [200] ->
                              ~ conflict ex_canceled None t s 50).
  { intros t s _ _ [u [b [_ [Hb [_ [_ [_ [_ [Hst _]]]]]]]]].
    destruct Hb as [<-|[]]. apply Hst. reflexivity. }
  split; [reflexivity|]. split; [exact Hfree|].
  apply (stale_unit_answers_500 ex_today ex_mail_up ex_request 2 ex_canceled
           ex_u1).
  - reflexivity.
  - reflexivity.
  - exists (Cafe.mk 10 true). split; [now left | reflexivity].
  - unfold ex_today. cbn. lia.
  - reflexivity.
  - cbn. lia.
  - exact Hfree.
  - now left.
  - now left.
  - now left.
  - reflexivity.
Defined.

Lemma post_then_get_witness :
  wf_store ex_empty = true
  /\ create_booking ex_today ex_mail_up ex_request (Some 1) ex_empty
     = (Returned (load ex_booked ex_b1), ex_booked)
  /\ get_booking_by_id 1000 ex_booked
     = (Returned (load ex_booked ex_b1), ex_booked).
Proof.
  split; [reflexivity|]. split; [reflexivity|].
  exact (post_then_get ex_today ex_mail_up ex_request (Some 1) ex_empty
           (load ex_booked ex_b1) ex_booked eq_refl eq_refl).
Defined.


Lemma null_date_answers_500_witness :
  wf_store ex_booked = true
  /\ BookingUpdate.booking_date ex_null_date = Provided None
  /\ run (update_with_validation ex_today (load ex_booked ex_b1)
                                 ex_null_date) ex_booked
     = (inl TypeError, ex_booked)
  /\ update_booking ex_today ex_mail_up 1000 ex_null_date 1 ex_booked
     = (HTTPException 500 InternalError, ex_booked).
Proof.
  split; [reflexivity|]. split; [reflexivity|].
  apply (null_date_answers_500 ex_today ex_mail_up ex_null_date 1 ex_booked
           ex_b1).
  - reflexivity.
  - now left.
  - discriminate.
  - unfold ex_today. cbn. lia.
  - discriminate.
  - reflexivity.
Defined.
